(** * Subway congestion dashboard: the data pipeline of [src/data.py] and the
      filter of [src/ui.py]

    The development embeds the Python code shallowly.  Python [str] values
    are sequences of Unicode code points, numbers are exact rationals (the
    rounding and the infinities of float64 are outside the model, NaN is a
    separate "missing" value), and a pandas frame is a list of column labels
    with a list of rows.  Library functions the code calls ([re.search],
    [int], [str.strip], [DataFrame.melt], [pd.to_numeric], [pd.Categorical],
    [sort_values], ...) are given as executable definitions that follow
    their behaviour in CPython 3.11 (Unicode 14.0) and pandas 2.3. *)

From Stdlib Require Import ZArith NArith QArith List Bool Lia Permutation Sorted.
From Stdlib Require Import String Ascii.
From Stdlib Require DecimalN DecimalPos.
Import ListNotations.

Set Implicit Arguments.

(* ================================================================== *)
(** * Part I: definitions                                              *)
(* ================================================================== *)

(** ** Text: code points, UTF-8 literals, Unicode classes *)

Module Text.

(** A Python [str] is a sequence of code points. *)
Definition char := N.
Definition str := list char.

(** String literals of this file are UTF-8 byte strings; [u] decodes
    them into code points so that labels can be written as they are in
    the source. *)
Fixpoint utf8_decode (bs : list N) : str :=
  match bs with
  | [] => []
  | b0 :: r0 =>
    if (b0 <? 128)%N then b0 :: utf8_decode r0
    else
      match r0 with
      | [] => []
      | b1 :: r1 =>
        if (b0 <? 224)%N
        then ((b0 - 192) * 64 + (b1 - 128))%N :: utf8_decode r1
        else
          match r1 with
          | [] => []
          | b2 :: r2 =>
            if (b0 <? 240)%N
            then ((b0 - 224) * 4096 + (b1 - 128) * 64 + (b2 - 128))%N
                   :: utf8_decode r2
            else
              match r2 with
              | [] => []
              | b3 :: r3 =>
                ((b0 - 240) * 262144 + (b1 - 128) * 4096
                 + (b2 - 128) * 64 + (b3 - 128))%N :: utf8_decode r3
              end
          end
      end
  end.

Definition u (s : string) : str :=
  utf8_decode (List.map N_of_ascii (list_ascii_of_string s)).

(** Python compares strings by code point, lexicographically. *)
Fixpoint str_compare (a b : str) : comparison :=
  match a, b with
  | [], [] => Eq
  | [], _ :: _ => Lt
  | _ :: _, [] => Gt
  | x :: a', y :: b' =>
    match N.compare x y with
    | Eq => str_compare a' b'
    | c => c
    end
  end.

Definition str_eqb (a b : str) : bool :=
  match str_compare a b with Eq => true | _ => false end.

(** Decimal digits, Unicode general category Nd (Unicode 14.0): 66 runs
    of ten consecutive code points, each run holding the digits 0 to 9 in
    order.  [nd_zeros] lists the code point of the zero of every run.
    Both [\d] of [re] (on [str] patterns) and [int] use this class. *)
Definition nd_zeros : list N :=
  [48; 1632; 1776; 1984; 2406; 2534; 2662; 2790; 2918; 3046; 3174; 3302;
   3430; 3558; 3664; 3792; 3872; 4160; 4240; 6112; 6160; 6470; 6608; 6784;
   6800; 6992; 7088; 7232; 7248; 42528; 43216; 43264; 43472; 43504; 43600;
   44016; 65296; 66720; 68912; 69734; 69872; 69942; 70096; 70384; 70736;
   70864; 71248; 71360; 71472; 71904; 72016; 72784; 73040; 73120; 92768;
   92864; 93008; 120782; 120792; 120802; 120812; 120822; 123200; 123632;
   125264; 130032]%N.

Fixpoint digit_in (zeros : list N) (c : char) : option N :=
  match zeros with
  | [] => None
  | z :: zs =>
    if ((z <=? c) && (c <? z + 10))%N then Some (c - z)%N
    else digit_in zs c
  end.

(** [unicodedata.decimal]: the value of a decimal digit. *)
Definition digit_value (c : char) : option N := digit_in nd_zeros c.

Definition is_digit (c : char) : bool :=
  match digit_value c with Some _ => true | None => false end.

(** [str.isspace] on one code point (Unicode 14.0). *)
Definition whitespace : list N :=
  [9; 10; 11; 12; 13; 28; 29; 30; 31; 32; 133; 160; 5760; 8192; 8193;
   8194; 8195; 8196; 8197; 8198; 8199; 8200; 8201; 8202; 8232; 8233; 8239;
   8287; 12288]%N.

Definition is_space (c : char) : bool := existsb (N.eqb c) whitespace.

(** The characters the source names. *)
Definition SI : char := Eval vm_compute in hd 0%N (u "시").
Definition BUN : char := Eval vm_compute in hd 0%N (u "분").
Definition COLON : char := 58%N.
Definition ZERO : char := 48%N.

End Text.

Import Text.

(** ** Exceptions and results *)

Module Exc.

(** Exceptions, by class. *)
Inductive exn : Type :=
| KeyError (labels : list str)
| TypeError
| ValueError (msg : str)
| UnicodeDecodeError
| OtherException (name : str)
| NotAnException (name : str).

Definition AttributeError : exn := OtherException (u "AttributeError").

(** What a call gives: the value it returns or the exception it raises. *)
Inductive result (A : Type) : Type :=
| Ok (a : A)
| Raise (e : exn).
Arguments Raise {A} e.

Definition bind {A B : Type} (r : result A) (k : A -> result B) : result B :=
  match r with
  | Ok a => k a
  | Raise e => Raise e
  end.

End Exc.

Import Exc.

Notation "x <- r ;; k" := (Exc.bind r (fun x => k))
  (at level 61, r at next level, right associativity).

(** ** Python built-ins used by the source *)

Module Py.

(** [sub in s] for strings: [sub] occurs as a contiguous slice. *)
Fixpoint starts_with (sub s : str) : bool :=
  match sub, s with
  | [], _ => true
  | _ :: _, [] => false
  | a :: sub', b :: s' => (a =? b)%N && starts_with sub' s'
  end.

Fixpoint contains (sub s : str) : bool :=
  starts_with sub s ||
  match s with
  | [] => false
  | _ :: s' => contains sub s'
  end.

(** [s.replace(old, new)] for a non-empty [old]: occurrences are
    replaced left to right and do not overlap.  [skip] counts the
    characters of an occurrence that were already consumed. *)
Fixpoint replace_from (old new : str) (skip : nat) (s : str) : str :=
  match s with
  | [] => []
  | c :: r =>
    match skip with
    | S k => replace_from old new k r
    | O =>
      if starts_with old s
      then new ++ replace_from old new (List.length old - 1) r
      else c :: replace_from old new 0 r
    end
  end.

Definition replace (old new s : str) : str := replace_from old new 0 s.

(** [s.strip()]: whitespace removed at both ends. *)
Fixpoint lstrip (s : str) : str :=
  match s with
  | [] => []
  | c :: r => if is_space c then lstrip r else s
  end.

Definition rstrip (s : str) : str := List.rev (lstrip (List.rev s)).

Definition strip (s : str) : str := rstrip (lstrip s).

(** The value of a run of decimal digits, most significant first;
    [None] when a character is not a digit. *)
Fixpoint digits_value (acc : N) (s : str) : option N :=
  match s with
  | [] => Some acc
  | c :: r =>
    match digit_value c with
    | Some d => digits_value (acc * 10 + d)%N r
    | None => None
    end
  end.

(** The characters of an integer literal besides the digits. *)
Definition UNDERSCORE : char := 95%N.
Definition PLUS : char := 43%N.
Definition MINUS : char := 45%N.

(** The white space [int] accepts around a number: that of
    [str.isspace] without the separators U+001C to U+001F. *)
Definition is_int_space (c : char) : bool :=
  is_space c && negb ((28 <=? c) && (c <=? 31))%N.

Fixpoint skip_space (s : str) : str :=
  match s with
  | [] => []
  | c :: r => if is_int_space c then skip_space r else s
  end.

(** The digits of a literal, with single underscores between them: the
    value, the number of digits and what follows the literal.  [None]
    when an underscore does not stand between two digits or when there
    is no digit at all. *)
Fixpoint int_scan (acc : N) (digits : nat) (after_digit : bool) (s : str)
  : option (N * nat * str) :=
  match s with
  | [] => if after_digit then Some (acc, digits, []) else None
  | c :: r =>
    if (c =? UNDERSCORE)%N
    then if after_digit then int_scan acc digits false r else None
    else
      match digit_value c with
      | Some d => int_scan (acc * 10 + d)%N (S digits) true r
      | None => if after_digit then Some (acc, digits, s) else None
      end
  end.

(** [sys.get_int_max_str_digits()], as the interpreter starts. *)
Definition int_max_str_digits : nat := 4300.

(** Decimal digits of a natural number, as in [str(n)]. *)
Fixpoint uint_chars (d : Decimal.uint) : str :=
  match d with
  | Decimal.Nil => []
  | Decimal.D0 r => 48%N :: uint_chars r
  | Decimal.D1 r => 49%N :: uint_chars r
  | Decimal.D2 r => 50%N :: uint_chars r
  | Decimal.D3 r => 51%N :: uint_chars r
  | Decimal.D4 r => 52%N :: uint_chars r
  | Decimal.D5 r => 53%N :: uint_chars r
  | Decimal.D6 r => 54%N :: uint_chars r
  | Decimal.D7 r => 55%N :: uint_chars r
  | Decimal.D8 r => 56%N :: uint_chars r
  | Decimal.D9 r => 57%N :: uint_chars r
  end.

Definition str_of_N (n : N) : str := uint_chars (N.to_uint n).

(** The two messages of the [ValueError] of [int]; the first is followed
    in CPython by the [repr] of the argument, which is left out here. *)
Definition invalid_literal : exn :=
  ValueError (u "invalid literal for int() with base 10").

Definition exceeds_limit (digits : nat) : exn :=
  ValueError
    (u "Exceeds the limit (4300 digits) for integer string conversion: value has "
       ++ str_of_N (N.of_nat digits)
       ++ u " digits; use sys.set_int_max_str_digits() to increase the limit").

(** [int(s)] in base ten: white space around the number is skipped, one
    sign is allowed, then digits with single underscores between them.
    A literal of more than 4300 digits is refused, before what follows
    it is looked at. *)
Definition int (s : str) : result Z :=
  match skip_space s with
  | [] => Raise invalid_literal
  | c :: r =>
    let negative := (c =? MINUS)%N in
    let body := if negative || (c =? PLUS)%N then r else c :: r in
    match int_scan 0 0 false body with
    | None => Raise invalid_literal
    | Some (n, digits, rest) =>
      if (int_max_str_digits <? digits)%nat then Raise (exceeds_limit digits)
      else
        match skip_space rest with
        | [] => Ok (if negative then (- Z.of_N n)%Z else Z.of_N n)
        | _ :: _ => Raise invalid_literal
        end
    end
  end.

(** [f"{n:02d}"]: sign, then the digits zero-padded so that the whole
    field is at least two characters wide. *)
Definition format_02d (n : Z) : str :=
  let sign := if (n <? 0)%Z then [MINUS] else [] in
  let digits := str_of_N (Z.abs_N n) in
  sign ++ List.repeat ZERO (2 - List.length sign - List.length digits)
       ++ digits.

(** [re.search(r'(\d+)시(\d+)분', s)].

    [span_digits] is the greedy [\d+]: it takes the whole digit run.
    Giving characters back cannot help, because the character after a
    shorter run is a digit and the pattern then needs 시 or 분, neither
    of which is a digit.  [match_here] matches the pattern at the start
    of [s]; [search] tries every start position from the left and
    returns the two groups of the first match. *)
Fixpoint span_digits (s : str) : str * str :=
  match s with
  | [] => ([], [])
  | c :: r =>
    if is_digit c
    then let (d, rest) := span_digits r in (c :: d, rest)
    else ([], s)
  end.

Definition match_here (s : str) : option (str * str) :=
  match span_digits s with
  | ((_ :: _) as h, c1 :: r1) =>
    if (c1 =? SI)%N then
      match span_digits r1 with
      | ((_ :: _) as m, c2 :: _) =>
        if (c2 =? BUN)%N then Some (h, m) else None
      | _ => None
      end
    else None
  | _ => None
  end.

Fixpoint search (s : str) : option (str * str) :=
  match s with
  | [] => None
  | _ :: r =>
    match match_here s with
    | Some g => Some g
    | None => search r
    end
  end.

End Py.

(** ** pandas: cells, frames and the operations the source calls *)

Module Pd.

(** A cell of a frame: a Python string, a number, or NaN (missing). *)
Inductive cell : Type :=
| Str (s : str)
| Num (q : Q)
| NaN.

(** Conversions between text and numbers are library code: the parser
    behind [pd.to_numeric] ([None]: the text is not a number, or spells
    NaN) and Python's [str] of a number. *)
Class NumericText : Type := {
  parse_number : str -> option Q;
  str_of_number : Q -> str
}.

Definition isna (c : cell) : bool :=
  match c with NaN => true | _ => false end.

(** Equality of cells as [unique] and [==] see it. *)
Definition cell_eqb (a b : cell) : bool :=
  match a, b with
  | Str s, Str t => str_eqb s t
  | Num x, Num y => Qeq_bool x y
  | _, _ => false
  end.

(** [series == s] and [series.isin(values)] against strings. *)
Definition eq_str (s : str) (c : cell) : bool := cell_eqb c (Str s).

Definition isin (values : list str) (c : cell) : bool :=
  existsb (fun v => eq_str v c) values.

(** A cell of a float64 column: a number, or [None] for NaN. *)
Definition float64 : Type := option Q.

Definition of_float64 (x : float64) : cell :=
  match x with Some q => Num q | None => NaN end.

(** [pd.to_numeric(series, errors='coerce')] on one cell: the result
    column is numeric, text that is not a number becomes NaN. *)
Definition to_numeric `{NumericText} (c : cell) : float64 :=
  match c with
  | Str s => parse_number s
  | Num q => Some q
  | NaN => None
  end.

(** [series.astype(str)] on one cell: NaN becomes the text "nan". *)
Definition astype_str `{NumericText} (c : cell) : str :=
  match c with
  | Str s => s
  | Num q => str_of_number q
  | NaN => u "nan"
  end.

(** A frame: column labels, and rows of cells in column order.  A row
    shorter than the header reads as NaN in the missing positions.  The
    labels are strings and need not be distinct: [read_csv] makes them
    distinct, stripping them can make two of them equal. *)
Record DataFrame : Type := {
  columns : list str;
  rows : list (list cell)
}.

(** [Index.get_loc]: position of the first occurrence. *)
Fixpoint get_loc (label : str) (labels : list str) : option nat :=
  match labels with
  | [] => None
  | l :: ls =>
    if str_eqb label l then Some O
    else option_map S (get_loc label ls)
  end.

Definition has_column (df : DataFrame) (label : str) : bool :=
  match get_loc label (columns df) with Some _ => true | None => false end.

(** Every position of a label. *)
Fixpoint positions_from (i : nat) (label : str) (labels : list str)
  : list nat :=
  match labels with
  | [] => []
  | l :: ls =>
    if str_eqb label l then i :: positions_from (S i) label ls
    else positions_from (S i) label ls
  end.

Definition positions (label : str) (labels : list str) : list nat :=
  positions_from 0 label labels.

(** [df[label]] is a column when the label occurs once; when it occurs
    more often it is a frame. *)
Definition is_frame (df : DataFrame) (label : str) : bool :=
  (1 <? List.length (positions label (columns df)))%nat.

Definition label_at (df : DataFrame) (i : nat) : str := nth i (columns df) [].

Definition cell_at (row : list cell) (i : nat) : cell := nth i row NaN.

(** [df[label]] read in one row, for a label that occurs once. *)
Definition get (df : DataFrame) (label : str) (row : list cell) : cell :=
  match get_loc label (columns df) with
  | Some i => cell_at row i
  | None => NaN
  end.

Fixpoint update_at (i : nat) (f : cell -> cell) (row : list cell)
  : list cell :=
  match i, row with
  | O, [] => [f NaN]
  | O, c :: r => f c :: r
  | S k, [] => NaN :: update_at k f []
  | S k, c :: r => c :: update_at k f r
  end.

(** [df[label] = f(df[label])] for an existing column. *)
Definition assign (df : DataFrame) (label : str) (f : cell -> cell)
  : DataFrame :=
  match get_loc label (columns df) with
  | Some i =>
    {| columns := columns df; rows := List.map (update_at i f) (rows df) |}
  | None => df
  end.

(** [Index.get_indexer_for]: for every label asked for, each of its
    positions, or -1 ([None]) when the label is absent. *)
Definition indexer (ps : list nat) : list (option nat) :=
  match ps with
  | [] => [None]
  | _ :: _ => List.map Some ps
  end.

Definition get_indexer_for (labels columns : list str) : list (option nat) :=
  flat_map (fun l => indexer (positions l columns)) labels.

Definition is_missing (i : option nat) : bool :=
  match i with None => true | Some _ => false end.

Definition found (idx : list (option nat)) : list nat :=
  flat_map (fun i => match i with Some p => [p] | None => [] end) idx.

(** [algos.unique]: the positions without repetition, in the order in
    which they first occur. *)
Fixpoint unique_positions (l : list nat) : list nat :=
  match l with
  | [] => []
  | i :: r => i :: List.filter (fun j => negb (j =? i)%nat) (unique_positions r)
  end.

(** [df.melt(id_vars, value_vars, var_name, value_name)], for [id_vars]
    without repetition: one molten row per value column and frame row,
    value columns outermost.

    The steps are those of pandas.  [value_name] must not be a label
    ([ValueError]).  The labels asked for are looked up; when one is
    absent the call raises [KeyError], naming the labels that [zip] pairs
    with an absent position.  The frame is cut down to the columns found.
    Each identifying column is popped from it: a label that occurs twice
    gives a frame, whose [dtype] does not exist ([AttributeError]).  The
    columns that remain are the value columns. *)
Record Molten : Type := {
  id_values : list cell;
  variable : str;
  value : cell
}.

Definition melt (df : DataFrame) (id_vars value_vars : list str)
           (value_name : str) : result (list Molten) :=
  if has_column df value_name
  then Raise (ValueError (u "value_name cannot match an element in the DataFrame columns."))
  else
    let labels := id_vars ++ value_vars in
    let idx := get_indexer_for labels (columns df) in
    if existsb is_missing idx
    then Raise (KeyError
                  (List.map fst
                     (List.filter (fun p => is_missing (snd p))
                                  (List.combine labels idx))))
    else
      let frame := unique_positions (found idx) in
      if existsb (is_frame df) id_vars then Raise AttributeError
      else
        let value_columns :=
          List.filter
            (fun i => negb (existsb (str_eqb (label_at df i)) id_vars))
            frame in
        Ok (flat_map
              (fun i =>
                 List.map
                   (fun row =>
                      {| id_values := List.map (fun l => get df l row) id_vars;
                         variable := label_at df i;
                         value := cell_at row i |})
                   (rows df))
              value_columns).

(** [pd.Categorical(values, categories, ordered=True)] stores for each
    value its position in [categories], and -1 for a value that is not
    a category (it reads back as NaN). *)
Definition categorical_code (categories : list str) (v : str) : Z :=
  match get_loc v categories with
  | Some i => Z.of_nat i
  | None => (-1)%Z
  end.

(** The value an ordered categorical shows for a code. *)
Definition categorical_value (categories : list str) (code : Z) : cell :=
  if (code <? 0)%Z then NaN
  else match nth_error categories (Z.to_nat code) with
       | Some l => Str l
       | None => NaN
       end.

(** Ordered categorical compared with a scalar: the codes are compared;
    a missing value compares false; a scalar that is not a category is
    an invalid comparison. *)
Definition categorical_cmp_scalar (op : Z -> Z -> bool)
           (categories : list str) (other : str) : result (Z -> bool) :=
  match get_loc other categories with
  | Some i =>
    Ok (fun code => negb (code =? -1)%Z && op code (Z.of_nat i))
  | None => Raise TypeError
  end.

(** Sort keys.  [sort_values] on several columns ranks every key column
    (sorted distinct values; in a column of mixed types numbers come
    before strings), puts missing values last, and sorts the rows
    lexicographically by rank with a stable sort. *)
Definition cell_compare (a b : cell) : comparison :=
  match a, b with
  | NaN, NaN => Eq
  | NaN, _ => Gt
  | _, NaN => Lt
  | Num x, Num y => (x ?= y)%Q
  | Num _, Str _ => Lt
  | Str _, Num _ => Gt
  | Str s, Str t => str_compare s t
  end.

Definition na_last (n : Z) (code : Z) : Z :=
  if (code =? -1)%Z then n else code.

Definition code_compare (categories : list str) (a b : Z) : comparison :=
  let n := Z.of_nat (List.length categories) in
  (na_last n a ?= na_last n b)%Z.

Definition lex (c1 c2 : comparison) : comparison :=
  match c1 with Eq => c2 | _ => c1 end.

Definition leb_of {A : Type} (cmp : A -> A -> comparison) (a b : A) : bool :=
  match cmp a b with Gt => false | _ => true end.

Fixpoint insert_by {A : Type} (cmp : A -> A -> comparison) (x : A)
         (l : list A) : list A :=
  match l with
  | [] => [x]
  | y :: r => if leb_of cmp x y then x :: l else y :: insert_by cmp x r
  end.

(** A stable sort: equal keys keep their order. *)
Definition stable_sort {A : Type} (cmp : A -> A -> comparison)
           (l : list A) : list A :=
  fold_right (insert_by cmp) [] l.

(** [series.unique()]: distinct values in order of first appearance. *)
Fixpoint unique (l : list cell) : list cell :=
  match l with
  | [] => []
  | c :: r => c :: List.filter (fun d => negb (cell_eqb d c)) (unique r)
  end.

Definition dropna (l : list cell) : list cell :=
  List.filter (fun c => negb (isna c)) l.

End Pd.

Import Pd.

(** ** [src/data.py] *)

Module Data.

(** [TIME_ORDER]: the 39 half-hour labels from 05:30 to 00:30. *)
Definition TIME_ORDER : list str :=
  Eval vm_compute in
  List.map u
    ["05:30"; "06:00"; "06:30"; "07:00"; "07:30"; "08:00"; "08:30";
     "09:00"; "09:30"; "10:00"; "10:30"; "11:00"; "11:30"; "12:00";
     "12:30"; "13:00"; "13:30"; "14:00"; "14:30"; "15:00"; "15:30";
     "16:00"; "16:30"; "17:00"; "17:30"; "18:00"; "18:30"; "19:00";
     "19:30"; "20:00"; "20:30"; "21:00"; "21:30"; "22:00"; "22:30";
     "23:00"; "23:30"; "00:00"; "00:30"]%string.

(** Column labels of the CSV export. *)
Definition DAY_TYPE : str := Eval vm_compute in u "요일구분".
Definition LINE : str := Eval vm_compute in u "호선".
Definition STATION_ID : str := Eval vm_compute in u "역번호".
Definition STATION : str := Eval vm_compute in u "출발역".
Definition DIRECTION : str := Eval vm_compute in u "상하구분".

(** *** [load_raw_data] *)

(** What one [pd.read_csv(csv_path, encoding=...)] call does. *)
Inductive attempt : Type :=
| Parsed (df : DataFrame)
| Raises (e : exn).

(** What the loader does that can be observed from outside. *)
Inductive event : Type :=
| ReadCsv (encoding : str)
| StError (e : exn).

(** How the loader ends: the [return] of line 35, the bare [raise] of
    line 40 or passing on what [except Exception] does not catch, or
    the [raise ValueError] of line 42. *)
Inductive outcome : Type :=
| Returned (df : DataFrame)
| Propagated (e : exn)
| NoSupportedEncoding (msg : str).

Definition encodings : list str :=
  Eval vm_compute in List.map u ["cp949"; "euc-kr"; "utf-8-sig"; "utf-8"]%string.

Definition unsupported_message (csv_path : str) : str :=
  u "지원되는 인코딩으로 파일을 읽을 수 없습니다: " ++ csv_path.

Fixpoint try_encodings (read_csv : str -> attempt) (encs : list str)
         (csv_path : str) : list event * outcome :=
  match encs with
  | [] => ([], NoSupportedEncoding (unsupported_message csv_path))
  | encoding :: rest =>
    match read_csv encoding with
    | Parsed df => ([ReadCsv encoding], Returned df)
    | Raises UnicodeDecodeError =>
      let (evs, out) := try_encodings read_csv rest csv_path in
      (ReadCsv encoding :: evs, out)
    | Raises (NotAnException n) =>
      ([ReadCsv encoding], Propagated (NotAnException n))
    | Raises e => ([ReadCsv encoding; StError e], Propagated e)
    end
  end.

(** [read_csv csv_path encoding] stands for the call of pandas on the
    file system. *)
Definition load_raw_data (read_csv : str -> str -> attempt)
           (csv_path : str) : list event * outcome :=
  try_encodings (read_csv csv_path) encodings csv_path.

(** *** [clean_data] *)

Section WithNumericText.
Context `{NumericText}.

Definition clean_text (c : cell) : cell := Str (Py.strip (astype_str c)).

(** One turn of the loop of lines 61 to 63.  When the label occurs more
    than once, [df[col].astype(str)] is a frame, and a frame has no
    [str] accessor. *)
Definition clean_text_column (df : DataFrame) (col : str) : result DataFrame :=
  if has_column df col
  then if is_frame df col then Raise AttributeError
       else Ok (assign df col clean_text)
  else Ok df.

(** [pd.to_numeric] takes a column; it refuses a frame. *)
Definition clean_data (df : DataFrame) : result DataFrame :=
  let df := {| columns := List.map Py.strip (columns df);
               rows := rows df |} in
  df <- fold_left (fun acc col => df <- acc ;; clean_text_column df col)
                  [DAY_TYPE; LINE; STATION; DIRECTION] (Ok df) ;;
  if has_column df STATION_ID
  then if is_frame df STATION_ID then Raise TypeError
       else Ok (assign df STATION_ID (fun c => of_float64 (to_numeric c)))
  else Ok df.

(** *** [format_time_column] *)

(** A header such as "5시30분" becomes "05:30"; a header the pattern
    does not match is returned as it is.  What [int] raises is not
    caught.  Formatting cannot raise: a number that [int] has read has at
    most 4300 digits. *)
Definition format_time_column (time_str : str) : result str :=
  match Py.search time_str with
  | Some (g1, g2) =>
    hour <- Py.int g1 ;;
    minute <- Py.int g2 ;;
    Ok (Py.format_02d hour ++ [COLON] ++ Py.format_02d minute)
  | None => Ok time_str
  end.

(** *** [melt_to_long] *)

(** One row of the long frame.  [T] is the type of the [time_slot]
    column (a label before the categorical conversion, a code after)
    and [C] that of [congestion] (a raw cell before the numeric
    conversion, a float64 cell after). *)
Record LongRow (T C : Type) : Type := {
  day_type : cell;
  line : cell;
  station_id : cell;
  station : cell;
  direction : cell;
  time_slot : T;
  congestion : C
}.

(** A row of the final frame: [time_slot] is a categorical code into
    [TIME_ORDER], [congestion] a float64 cell. *)
Definition Observation : Type := LongRow Z float64.

Definition set_time_slot {T U C : Type} (f : T -> U) (r : LongRow T C)
  : LongRow U C :=
  {| day_type := day_type r; line := line r; station_id := station_id r;
     station := station r; direction := direction r;
     time_slot := f (time_slot r); congestion := congestion r |}.

(** [series.apply(f)] on the [time_slot] column: [f] is called on the
    cells from the first row on, and what it raises ends the call. *)
Fixpoint apply_time_slot {T U C : Type} (f : T -> result U)
         (df_long : list (LongRow T C)) : result (list (LongRow U C)) :=
  match df_long with
  | [] => Ok []
  | r :: rest =>
    t <- f (time_slot r) ;;
    rest' <- apply_time_slot f rest ;;
    Ok (set_time_slot (fun _ => t) r :: rest')
  end.

Definition set_congestion {T C D : Type} (f : C -> D) (r : LongRow T C)
  : LongRow T D :=
  {| day_type := day_type r; line := line r; station_id := station_id r;
     station := station r; direction := direction r;
     time_slot := time_slot r; congestion := f (congestion r) |}.

(** ['시' in col and '분' in col]. *)
Definition is_time_col (col : str) : bool :=
  Py.contains [SI] col && Py.contains [BUN] col.

Definition id_cols : list str :=
  [DAY_TYPE; LINE; STATION_ID; STATION; DIRECTION].

(** The molten frame under its column names: the identifying columns in
    the order of [id_cols] (renamed to the English schema further down),
    then [time_slot] and [congestion]. *)
Definition long_row (m : Molten) : LongRow str cell :=
  {| day_type := cell_at (id_values m) 0;
     line := cell_at (id_values m) 1;
     station_id := cell_at (id_values m) 2;
     station := cell_at (id_values m) 3;
     direction := cell_at (id_values m) 4;
     time_slot := variable m;
     congestion := value m |}.

(** The key of [sort_values(['line','station','direction','time_slot'])]. *)
Definition sort_key_compare (a b : Observation) : comparison :=
  lex (cell_compare (line a) (line b))
    (lex (cell_compare (station a) (station b))
       (lex (cell_compare (direction a) (direction b))
          (code_compare TIME_ORDER (time_slot a) (time_slot b)))).

Definition melt_to_long (df : DataFrame) : result (list Observation) :=
  let time_cols := List.filter is_time_col (columns df) in
  molten <- melt df id_cols time_cols (u "congestion") ;;
  let df_long := List.map long_row molten in
  df_long <- apply_time_slot format_time_column df_long ;;
  let df_long := List.map (set_congestion to_numeric) df_long in
  let df_long :=
    List.filter (fun r => negb (isna (of_float64 (congestion r)))) df_long in
  let df_long :=
    List.map (set_time_slot (categorical_code TIME_ORDER)) df_long in
  let df_long := stable_sort sort_key_compare df_long in
  Ok df_long.

End WithNumericText.

(** *** [get_unique_values] *)

(** The columns of the long frame by name; the categorical [time_slot]
    column shows its labels. *)
Definition column (name : str) : option (Observation -> cell) :=
  if str_eqb name (u "day_type") then Some (fun r => day_type r)
  else if str_eqb name (u "line") then Some (fun r => line r)
  else if str_eqb name (u "station_id") then Some (fun r => station_id r)
  else if str_eqb name (u "station") then Some (fun r => station r)
  else if str_eqb name (u "direction") then Some (fun r => direction r)
  else if str_eqb name (u "time_slot")
  then Some (fun r => categorical_value TIME_ORDER (time_slot r))
  else if str_eqb name (u "congestion")
  then Some (fun r => of_float64 (congestion r))
  else None.

(** The sort key of a line label:
    [int(x.replace('호선', '')) if '호선' in x else 999]. *)
Definition line_key (x : cell) : result Z :=
  match x with
  | Str s =>
    if Py.contains LINE s
    then Py.int (Py.replace LINE [] s)
    else Ok 999%Z
  | _ => Raise TypeError
  end.

Fixpoint keyed (l : list cell) : result (list (Z * cell)) :=
  match l with
  | [] => Ok []
  | x :: r =>
    k <- line_key x ;;
    ks <- keyed r ;;
    Ok ((k, x) :: ks)
  end.

Definition is_str (c : cell) : bool :=
  match c with Str _ => true | _ => false end.

Definition is_num (c : cell) : bool :=
  match c with Num _ => true | _ => false end.

(** [sorted(values)]: strings order by code point, numbers by value;
    comparing a string with a number raises [TypeError]. *)
Definition sorted (l : list cell) : result (list cell) :=
  if forallb is_str l || forallb is_num l
  then Ok (stable_sort cell_compare l)
  else Raise TypeError.

Definition get_unique_values (df : list Observation) (name : str)
  : result (list cell) :=
  match column name with
  | None => Ok []
  | Some col =>
    let unique_vals := unique (dropna (List.map col df)) in
    if str_eqb name (u "line")
    then
      ks <- keyed unique_vals ;;
      Ok (List.map snd
            (stable_sort (fun a b => (fst a ?= fst b)%Z) ks))
    else sorted unique_vals
  end.

End Data.

(** ** [src/ui.py] *)

Module Ui.
Import Data.

(** The filter configuration.  The source passes a dict; an absent key
    reads as [None] through [filters.get]. *)
Record Filters : Type := {
  f_day_type : option str;
  f_lines : option (list str);
  f_stations : option (list str);
  f_directions : option (list str);
  f_time_range : option (str * str);
  f_congestion_range : option (Q * Q)
}.

(** Frames are objects: a heap maps references to frame contents, and
    every pandas call below allocates its result. *)
Definition ref : Type := nat.
Definition heap : Type := list (list Observation).

Definition frame (h : heap) (df : ref) : list Observation := nth df h [].

Definition M (A : Type) : Type := heap -> heap * result A.

Definition ret {A : Type} (a : A) : M A := fun h => (h, Ok a).

Definition bindM {A B : Type} (m : M A) (k : A -> M B) : M B :=
  fun h =>
    match m h with
    | (h', Ok a) => k a h'
    | (h', Raise e) => (h', Raise e)
    end.

Definition lift {A : Type} (r : result A) : M A := fun h => (h, r).

Definition alloc (content : list Observation) : M ref :=
  fun h => (h ++ [content], Ok (List.length h)).

(** [df.copy()]. *)
Definition copy (df : ref) : M ref := fun h => alloc (frame h df) h.

(** [df[mask]]: a new frame with the rows where the mask holds. *)
Definition getitem (df : ref) (mask : Observation -> bool) : M ref :=
  fun h => alloc (List.filter mask (frame h df)) h.

Notation "x <~ m ;; k" := (bindM m (fun x => k))
  (at level 61, m at next level, right associativity).

(** A float64 cell between two bounds; NaN compares false. *)
Definition between (lo hi : Q) (x : float64) : bool :=
  match x with
  | Some q => Qle_bool lo q && Qle_bool q hi
  | None => false
  end.

Definition filter_data (df : ref) (filters : Filters) : M ref :=
  df_filtered <~ copy df ;;
  df_filtered <~
    match f_day_type filters with
    | Some ((_ :: _) as day) =>
      getitem df_filtered (fun r => eq_str day (day_type r))
    | _ => ret df_filtered
    end ;;
  df_filtered <~
    match f_lines filters with
    | Some ((_ :: _) as lines) =>
      getitem df_filtered (fun r => isin lines (line r))
    | _ => ret df_filtered
    end ;;
  df_filtered <~
    match f_stations filters with
    | Some ((_ :: _) as stations) =>
      getitem df_filtered (fun r => isin stations (station r))
    | _ => ret df_filtered
    end ;;
  df_filtered <~
    match f_directions filters with
    | Some ((_ :: _) as directions) =>
      getitem df_filtered (fun r => isin directions (direction r))
    | _ => ret df_filtered
    end ;;
  df_filtered <~
    match f_time_range filters with
    | Some (start_time, end_time) =>
      ge <~ lift (categorical_cmp_scalar Z.geb TIME_ORDER start_time) ;;
      le <~ lift (categorical_cmp_scalar Z.leb TIME_ORDER end_time) ;;
      getitem df_filtered (fun r => ge (time_slot r) && le (time_slot r))
    | None => ret df_filtered
    end ;;
  df_filtered <~
    match f_congestion_range filters with
    | Some (min_cong, max_cong) =>
      getitem df_filtered (fun r => between min_cong max_cong (congestion r))
    | None => ret df_filtered
    end ;;
  ret df_filtered.

End Ui.

(** ** A numeric text instance for running the definitions on examples *)

Module Demo.

Definition DOT : char := 46%N.

Definition pow10 (n : nat) : positive := Pos.pow 10 (Pos.of_nat n).

(** Plain decimal literals: digits, optionally a point and more digits,
    with an optional leading minus sign. *)
Definition parse_unsigned (s : str) : option Q :=
  match Py.span_digits s with
  | ((_ :: _) as ip, []) =>
    option_map (fun n => inject_Z (Z.of_N n)) (Py.digits_value 0 ip)
  | ((_ :: _) as ip, c :: fp) =>
    if (c =? DOT)%N then
      match fp, Py.digits_value 0 (ip ++ fp) with
      | _ :: _, Some n => Some (Qmake (Z.of_N n) (pow10 (List.length fp)))
      | _, _ => None
      end
    else None
  | _ => None
  end.

Definition parse_decimal (s : str) : option Q :=
  match Py.strip s with
  | c :: r =>
    if (c =? Py.MINUS)%N then option_map Qopp (parse_unsigned r)
    else parse_unsigned (c :: r)
  | [] => None
  end.

(** A number printed with one decimal place, as Python prints 3.0 or
    45.2. *)
Definition str_of_decimal (q : Q) : str :=
  let t := (Qnum q * 10 / Zpos (Qden q))%Z in
  let a := Z.abs_N t in
  (if (t <? 0)%Z then [Py.MINUS] else [])
    ++ Py.str_of_N (a / 10) ++ [DOT] ++ Py.str_of_N (a mod 10).

#[global] Instance decimal_text : NumericText :=
  {| parse_number := parse_decimal; str_of_number := str_of_decimal |}.

(** A wide table as [read_csv] returns it: two headers carry stray
    blanks, one station has no day type, and the cells of the time-slot
    columns are numbers, texts and missing values. *)
Definition wide : DataFrame :=
  {| columns :=
       List.map u [" 요일구분"; "호선"; "역번호"; "출발역 "; "상하구분";
                   "23시30분"; "0시30분"; "5시30분"]%string;
     rows :=
       [ [Str (u "평일"); Str (u " 2호선"); Str (u "222"); Str (u "강남");
          Str (u "상선"); Num 45; Str (u "N/A"); Str (u "0")];
         [NaN; Str (u "1호선"); Str (u "x"); Str (u "서울역");
          Str (u "하선"); Str (u "12.5"); NaN; Num 3] ] |}.

Definition long : list Data.Observation :=
  Eval vm_compute in
  match df_clean <- Data.clean_data wide ;; Data.melt_to_long df_clean with
  | Ok l => l
  | Raise _ => []
  end.

(** A table with a header, 1시00분, that is not one of the 39 slots. *)
Definition odd_header : DataFrame :=
  {| columns :=
       List.map u ["요일구분"; "호선"; "역번호"; "출발역"; "상하구분";
                   "1시00분"]%string;
     rows :=
       [ [Str (u "평일"); Str (u "2호선"); Num 222; Str (u "강남");
          Str (u "상선"); Num 7] ] |}.


(** A header with an hour of 4301 digits, and a table that has it. *)
Definition long_digit_run : str := List.repeat ZERO 4301 ++ u "시0분".

Definition long_header : DataFrame :=
  {| columns :=
       List.map u ["요일구분"; "호선"; "역번호"; "출발역"; "상하구분"]%string
                ++ [long_digit_run];
     rows :=
       [ [Str (u "평일"); Str (u "2호선"); Num 222; Str (u "강남");
          Str (u "상선"); Num 7] ] |}.

(** Headers that are equal once stripped: twice the line, and twice the
    same time slot. *)
Definition colliding_headers : DataFrame :=
  {| columns :=
       List.map u ["요일구분"; "호선"; " 호선"; "역번호"; "출발역"; "상하구분";
                   "5시30분"]%string;
     rows :=
       [ [Str (u "평일"); Str (u "2호선"); Str (u "2호선"); Num 222;
          Str (u "강남"); Str (u "상선"); Num 7] ] |}.

Definition colliding_time_headers : DataFrame :=
  {| columns :=
       List.map u ["요일구분"; "호선"; "역번호"; "출발역"; "상하구분";
                   "5시30분"; " 5시30분"]%string;
     rows :=
       [ [Str (u "평일"); Str (u "2호선"); Num 222; Str (u "강남");
          Str (u "상선"); Num 1; Num 2] ] |}.

(** A file that only decodes as utf-8. *)
Definition utf8_only (csv_path encoding : str) : Data.attempt :=
  if str_eqb encoding (u "utf-8") then Data.Parsed wide
  else Data.Raises UnicodeDecodeError.

End Demo.

(* ================================================================== *)
(** * Part I, continued: the vocabulary of the statements              *)
(* ================================================================== *)

Unset Implicit Arguments.

Fixpoint distinct (l : list str) : bool :=
  match l with
  | [] => true
  | x :: r => negb (existsb (str_eqb x) r) && distinct r
  end.

(** Two labels compared the way the ordered categorical compares them. *)
Definition time_slot_compare (a b : str) : comparison :=
  code_compare Data.TIME_ORDER
    (categorical_code Data.TIME_ORDER a) (categorical_code Data.TIME_ORDER b).

Definition digit (c : char) : Prop := is_digit c = true.

(** Two numbers as a label: each zero-padded to two digits, around a
    colon. *)
Definition hh_mm (hour minute : N) : str :=
  Py.format_02d (Z.of_N hour) ++ [COLON] ++ Py.format_02d (Z.of_N minute).


(** A comparison function that orders its arguments in layers: equal
    elements behave alike, and "less than" is transitive. *)
Class WeakOrder {A : Type} (cmp : A -> A -> comparison) : Prop := {
  cmp_opp : forall a b, cmp b a = CompOpp (cmp a b);
  cmp_eq_l : forall a b c, cmp a b = Eq -> cmp a c = cmp b c;
  cmp_lt_trans : forall a b c, cmp a b = Lt -> cmp b c = Lt -> cmp a c = Lt
}.

(** The order a comparison function induces. *)
Definition le {A : Type} (cmp : A -> A -> comparison) (a b : A) : Prop :=
  leb_of cmp a b = true.

Section Vocabulary.
Context `{NumericText}.

(** The long row of one observation: the identifying cells of a wide row,
    the code of the normalised header, and the number in the cell. *)
Definition observation (df : DataFrame) (row : list cell) (label : str)
           (q : Q) : Data.Observation :=
  {| Data.day_type := get df Data.DAY_TYPE row;
     Data.line := get df Data.LINE row;
     Data.station_id := get df Data.STATION_ID row;
     Data.station := get df Data.STATION row;
     Data.direction := get df Data.DIRECTION row;
     Data.time_slot := categorical_code Data.TIME_ORDER label;
     Data.congestion := Some q |}.

(** The headers of the time-slot columns, and the positions of these
    columns; two columns can have the same header. *)
Definition time_cols (df : DataFrame) : list str :=
  List.filter Data.is_time_col (columns df).

Definition time_positions (df : DataFrame) : list nat :=
  List.filter (fun i => Data.is_time_col (label_at df i))
              (seq 0 (List.length (columns df))).

(** What the cell of a row in the column at position [i] contributes to
    the long frame: one row when the header normalises and the value is a
    number, nothing otherwise. *)
Definition cell_rows (df : DataFrame) (i : nat) (row : list cell)
  : list Data.Observation :=
  match Data.format_time_column (label_at df i), to_numeric (cell_at row i) with
  | Ok label, Some q => [observation df row label q]
  | _, _ => []
  end.

Definition observations (df : DataFrame) : list Data.Observation :=
  flat_map (fun i => flat_map (cell_rows df i) (rows df)) (time_positions df).

(** The value columns of the melt in [melt_to_long], in its order: what
    is left of the columns found when the identifying ones are popped. *)
Definition value_columns (df : DataFrame) : list nat :=
  List.filter
    (fun i => negb (existsb (str_eqb (label_at df i)) Data.id_cols))
    (unique_positions
       (found (get_indexer_for (Data.id_cols ++ time_cols df) (columns df)))).

Definition molten_rows (df : DataFrame) : list Molten :=
  flat_map
    (fun i =>
       List.map
         (fun row =>
            {| id_values := List.map (fun l => get df l row) Data.id_cols;
               variable := label_at df i;
               value := cell_at row i |})
         (rows df))
    (value_columns df).

(** The labels its [KeyError] names. *)
Definition key_error_labels (df : DataFrame) : list str :=
  List.map fst
    (List.filter (fun p => is_missing (snd p))
       (List.combine (Data.id_cols ++ time_cols df)
          (get_indexer_for (Data.id_cols ++ time_cols df) (columns df)))).

(** No identifying label occurs twice among the columns. *)
Definition id_cols_once (df : DataFrame) : Prop :=
  forall l, In l Data.id_cols -> is_frame df l = false.

Definition missing_id_cols (df : DataFrame) : list str :=
  List.filter (fun l => negb (has_column df l)) Data.id_cols.

(** One column assignment of [clean_data], seen in one row. *)
Definition row_step (cols : list str) (c : str) (f : cell -> cell)
           (row : list cell) : list cell :=
  match get_loc c cols with
  | Some i => update_at i f row
  | None => row
  end.

Definition clean_row (cols : list str) (row : list cell) : list cell :=
  row_step cols Data.STATION_ID (fun c => of_float64 (to_numeric c))
    (row_step cols Data.DIRECTION Data.clean_text
       (row_step cols Data.STATION Data.clean_text
          (row_step cols Data.LINE Data.clean_text
             (row_step cols Data.DAY_TYPE Data.clean_text row)))).

Definition text_cols : list str :=
  [Data.DAY_TYPE; Data.LINE; Data.STATION; Data.DIRECTION].

(** The frame with its labels stripped, and the frame [clean_data]
    returns when it returns. *)
Definition stripped (df : DataFrame) : DataFrame :=
  {| columns := List.map Py.strip (columns df); rows := rows df |}.

Definition cleaned (df : DataFrame) : DataFrame :=
  {| columns := List.map Py.strip (columns df);
     rows := List.map (clean_row (List.map Py.strip (columns df))) (rows df) |}.

(** The field of the long frame that a text column is renamed to. *)
Definition text_field (l : str) (r : Data.Observation) : cell :=
  if str_eqb l Data.DAY_TYPE then Data.day_type r
  else if str_eqb l Data.LINE then Data.line r
  else if str_eqb l Data.STATION then Data.station r
  else if str_eqb l Data.DIRECTION then Data.direction r
  else NaN.

End Vocabulary.

(** The position of a [time_slot] code in the canonical sequence; a
    missing slot counts after the 39 labels. *)
Definition slot_position (code : Z) : Z :=
  if (code =? -1)%Z then 39%Z else code.

(** Two text cells in strict code-point order. *)
Definition text_lt (c d : cell) : Prop :=
  exists s t, c = Str s /\ d = Str t /\ str_compare s t = Lt.

(** The key (line, station, direction, time_slot), lexicographically. *)
Definition key_le (a b : Data.Observation) : Prop :=
  text_lt (Data.line a) (Data.line b) \/
  (Data.line a = Data.line b /\
   (text_lt (Data.station a) (Data.station b) \/
    (Data.station a = Data.station b /\
     (text_lt (Data.direction a) (Data.direction b) \/
      (Data.direction a = Data.direction b /\
       (slot_position (Data.time_slot a) <=
        slot_position (Data.time_slot b))%Z))))).

Definition text_keys (r : Data.Observation) : Prop :=
  (exists s, Data.line r = Str s) /\ (exists s, Data.station r = Str s) /\
  (exists s, Data.direction r = Str s).

(** The encodings that were handed to [read_csv], in order. *)
Fixpoint reads (evs : list Data.event) : list str :=
  match evs with
  | [] => []
  | Data.ReadCsv enc :: r => enc :: reads r
  | Data.StError _ :: r => reads r
  end.

Definition decode_error (read_csv : str -> Data.attempt) (enc : str) : Prop :=
  read_csv enc = Data.Raises UnicodeDecodeError.

(** The rows a filter configuration selects: a list constraint that is
    absent or empty selects every row. *)
Definition when_given {A : Type} (o : option (list A)) (test : list A -> bool)
  : bool :=
  match o with
  | Some ((_ :: _) as l) => test l
  | _ => true
  end.

Definition time_selection (filters : Ui.Filters)
  : result (Data.Observation -> bool) :=
  match Ui.f_time_range filters with
  | Some (start_time, end_time) =>
    ge <- categorical_cmp_scalar Z.geb Data.TIME_ORDER start_time ;;
    le <- categorical_cmp_scalar Z.leb Data.TIME_ORDER end_time ;;
    Ok (fun r => ge (Data.time_slot r) && le (Data.time_slot r))
  | None => Ok (fun _ => true)
  end.

Definition congestion_selection (filters : Ui.Filters) (r : Data.Observation)
  : bool :=
  match Ui.f_congestion_range filters with
  | Some (lo, hi) => Ui.between lo hi (Data.congestion r)
  | None => true
  end.

Definition selection (filters : Ui.Filters)
  : result (Data.Observation -> bool) :=
  in_time <- time_selection filters ;;
  Ok (fun r =>
        when_given (Ui.f_day_type filters) (fun d => eq_str d (Data.day_type r))
        && when_given (Ui.f_lines filters) (fun l => isin l (Data.line r))
        && when_given (Ui.f_stations filters)
                      (fun l => isin l (Data.station r))
        && when_given (Ui.f_directions filters)
                      (fun l => isin l (Data.direction r))
        && in_time r
        && congestion_selection filters r).

(** A step of the filter: run on any heap in which its argument is
    allocated, it only allocates, and either returns a new frame with the
    rows [p] selects or raises. *)
Definition selects (m : Ui.ref -> Ui.M Ui.ref)
           (p : result (Data.Observation -> bool)) : Prop :=
  forall (h : Ui.heap) (l : Ui.ref),
    (l < List.length h)%nat ->
    exists fresh,
      fst (m l h) = h ++ fresh /\
      match p with
      | Ok p =>
        exists l', snd (m l h) = Ok l' /\
                   (l' < List.length (h ++ fresh))%nat /\
                   Ui.frame (h ++ fresh) l' = List.filter p (Ui.frame h l)
      | Raise e => snd (m l h) = Raise e
      end.

Definition both (p q : result (Data.Observation -> bool))
  : result (Data.Observation -> bool) :=
  p' <- p ;; q' <- q ;; Ok (fun r => p' r && q' r).

Definition text (c : cell) : Prop := Data.is_str c = true.

(** The key of a line label is defined. *)
Definition keyed_label (c : cell) : Prop := exists k, Data.line_key c = Ok k.

(** Two labels in the order of their keys. *)
Definition line_le (a b : cell) : Prop :=
  exists ka kb, Data.line_key a = Ok ka /\ Data.line_key b = Ok kb /\
                (ka <= kb)%Z.

(** Two texts in code-point order. *)
Definition text_le (a b : cell) : Prop :=
  exists s t, a = Str s /\ b = Str t /\ str_compare s t <> Gt.

(** A filter configuration with a time range and nothing else. *)
Definition time_range_only (start_time end_time : str) : Ui.Filters :=
  {| Ui.f_day_type := None; Ui.f_lines := None; Ui.f_stations := None;
     Ui.f_directions := None;
     Ui.f_time_range := Some (start_time, end_time);
     Ui.f_congestion_range := None |}.

(** The [time_slot] of a row lies between two positions. *)
Definition between_positions (i j : nat) (r : Data.Observation) : bool :=
  ((Z.of_nat i <=? Data.time_slot r) && (Data.time_slot r <=? Z.of_nat j))%Z.

(** Two rows that the sort key tells apart by their [time_slot] only. *)
Definition same_group (r1 r2 : Data.Observation) : Prop :=
  cell_compare (Data.line r1) (Data.line r2) = Eq /\
  cell_compare (Data.station r1) (Data.station r2) = Eq /\
  cell_compare (Data.direction r1) (Data.direction r2) = Eq.

(** A number cell, and two numbers in numeric order. *)
Definition number (c : cell) : Prop := Data.is_num c = true.

Definition num_le (a b : cell) : Prop :=
  exists x y, a = Num x /\ b = Num y /\ x <= y.

(** A long frame that has the given line labels, one row each. *)
Definition line_rows (labels : list string) : list Data.Observation :=
  List.map
    (fun l =>
       {| Data.day_type := NaN; Data.line := Str (u l);
          Data.station_id := NaN; Data.station := NaN;
          Data.direction := NaN; Data.time_slot := 0%Z;
          Data.congestion := Some 0 |})
    labels.

(* ================================================================== *)
(** * Part I, continued: the rest of the data module and its callers   *)
(* ================================================================== *)

(** ** [src/data.py]: the cached entry point and the station list *)

Module Api.

(** What [get_data] asks of the file system: [Path(csv_path).exists()]
    and [pd.read_csv(csv_path, encoding=...)]. *)
Record FileSystem : Type := {
  path_exists : str -> bool;
  read_csv : str -> str -> Data.attempt
}.

(** What a call of [get_data] does that can be observed from outside. *)
Inductive event : Type :=
| PathExists (csv_path : str)
| Load (e : Data.event)
| Error (msg : str)
| Info (msg : str).

Definition FileNotFoundError : exn := OtherException (u "FileNotFoundError").

Definition not_found_message (csv_path : str) : str :=
  u "파일을 찾을 수 없습니다: " ++ csv_path.

Section WithNumericText.
Context `{NumericText}.

(** The body of [get_data]: the existence check, then loader, cleaner and
    reshaper in sequence.  An error of a stage ends the call. *)
Definition get_data_body (fs : FileSystem) (csv_path : str)
  : list event * result (list Data.Observation) :=
  if negb (path_exists fs csv_path)
  then ([PathExists csv_path;
         Error (not_found_message csv_path);
         Info (u "현재 작업 디렉토리에 CSV 파일이 있는지 확인해주세요.")],
        Raise FileNotFoundError)
  else
    let (evs, out) := Data.load_raw_data (read_csv fs) csv_path in
    (PathExists csv_path :: List.map Load evs,
     match out with
     | Data.Returned df_raw =>
       df_clean <- Data.clean_data df_raw ;;
       Data.melt_to_long df_clean
     | Data.Propagated e => Raise e
     | Data.NoSupportedEncoding msg => Raise (ValueError msg)
     end).

(** [@st.cache_data]: the values the function returned, by argument.  A
    call that raises stores nothing. *)
Definition cache : Type := list (str * list Data.Observation).

Fixpoint cached (csv_path : str) (c : cache)
  : option (list Data.Observation) :=
  match c with
  | [] => None
  | (k, v) :: r => if str_eqb csv_path k then Some v else cached csv_path r
  end.

Definition get_data (fs : FileSystem) (c : cache) (csv_path : str)
  : cache * list event * result (list Data.Observation) :=
  match cached csv_path c with
  | Some df_long => (c, [], Ok df_long)
  | None =>
    let (evs, r) := get_data_body fs csv_path in
    match r with
    | Ok df_long => ((csv_path, df_long) :: c, evs, Ok df_long)
    | Raise e => (c, evs, Raise e)
    end
  end.

End WithNumericText.

(** [get_stations_by_line]: [if line:] is false for [None] and for the
    empty string. *)
Definition get_stations_by_line (df : list Data.Observation)
           (line : option str) : result (list cell) :=
  let df_filtered :=
    match line with
    | Some ((_ :: _) as l) =>
      List.filter (fun r => eq_str l (Data.line r)) df
    | _ => df
    end in
  let stations :=
    unique (dropna (List.map (fun r => Data.station r) df_filtered)) in
  Data.sorted stations.

End Api.

(** ** [src/ui.py] and the pages: what the callers compute *)

Module Callers.

(** [TIME_ORDER[i]]: an index past the end raises [IndexError]. *)
Definition IndexError : exn := OtherException (u "IndexError").

Definition time_order_at (i : nat) : result str :=
  match nth_error Data.TIME_ORDER i with
  | Some l => Ok l
  | None => Raise IndexError
  end.

(** [render_filters], line 90: the time range of the filter made from the
    two positions of the slider,
    [(TIME_ORDER[selected_range[0]], TIME_ORDER[selected_range[1]])]. *)
Definition slider_time_range (selected_range : nat * nat)
  : result (str * str) :=
  start_time <- time_order_at (fst selected_range) ;;
  end_time <- time_order_at (snd selected_range) ;;
  Ok (start_time, end_time).

(** The data-quality page, line 68: [df['congestion'].isna().sum()]. *)
Definition nan_count (df : list Data.Observation) : nat :=
  List.length
    (List.filter (fun r => isna (of_float64 (Data.congestion r))) df).

(** [series.idxmax()] with [skipna]: the position of the first largest
    number; [None] when the series holds no number. *)
Fixpoint idxmax_from (best : option (nat * Q)) (i : nat) (l : list float64)
  : option nat :=
  match l with
  | [] => option_map fst best
  | x :: r =>
    match x, best with
    | Some q, Some (_, b) =>
      if Qle_bool q b then idxmax_from best (S i) r
      else idxmax_from (Some (i, q)) (S i) r
    | Some q, None => idxmax_from (Some (i, q)) (S i) r
    | None, _ => idxmax_from best (S i) r
    end
  end.

Definition idxmax (l : list float64) : option nat := idxmax_from None 0 l.

(** The overview, lines 57 and 58 (the same two lines are in the main
    page and in the station page): the most congested row,
    [df_filtered.loc[df_filtered['congestion'].idxmax()]].  The callers
    run it on a frame that is not empty.  On an empty frame [idxmax]
    raises; on a frame without any number it gives NaN, which is not a
    label of the frame. *)
Definition max_row (df_filtered : list Data.Observation)
  : result Data.Observation :=
  match idxmax (List.map (fun r => Data.congestion r) df_filtered) with
  | Some i =>
    match nth_error df_filtered i with
    | Some r => Ok r
    | None => Raise (KeyError [])
    end
  | None =>
    match df_filtered with
    | [] => Raise (ValueError (u "attempt to get argmax of an empty sequence"))
    | _ :: _ => Raise (KeyError [])
    end
  end.

End Callers.

(** ** Further values for running the definitions *)

Module DemoMore.

(** A file system that has the demonstration table at every path, decodable
    as utf-8 only, and one that has no file at all. *)
Definition present_fs : Api.FileSystem :=
  {| Api.path_exists := fun _ => true; Api.read_csv := Demo.utf8_only |}.

Definition empty_fs : Api.FileSystem :=
  {| Api.path_exists := fun _ => false;
     Api.read_csv := fun _ _ => Data.Raises (OtherException (u "OSError")) |}.

(** Weekday rows of line 2 between 05:30 and 23:30. *)
Definition weekday_line2 : Ui.Filters :=
  {| Ui.f_day_type := Some (u "평일"); Ui.f_lines := Some [u "2호선"];
     Ui.f_stations := Some []; Ui.f_directions := None;
     Ui.f_time_range := Some (u "05:30", u "23:30");
     Ui.f_congestion_range := Some (0, 200) |}.

(** A congestion of 10 at least. *)
Definition busy : Ui.Filters :=
  {| Ui.f_day_type := None; Ui.f_lines := None;
     Ui.f_stations := None; Ui.f_directions := None;
     Ui.f_time_range := None;
     Ui.f_congestion_range := Some (10, 200) |}.


(** A time range whose start is not a time slot. *)
Definition bad_range : Ui.Filters :=
  {| Ui.f_day_type := None; Ui.f_lines := None;
     Ui.f_stations := None; Ui.f_directions := None;
     Ui.f_time_range := Some (u "01:00", u "23:30");
     Ui.f_congestion_range := None |}.

End DemoMore.

(** ** Vocabulary of the further properties *)

Definition ascii_char (c : char) : Prop := (c < 128)%N.

(** The congestion cell of a row holds a number. *)
Definition present (r : Data.Observation) : Prop :=
  exists q, Data.congestion r = Some q.

(** A row belongs to the line asked for; no line, or the empty string,
    asks for every line. *)
Definition line_matches (line : option str) (r : Data.Observation) : Prop :=
  match line with
  | Some ((_ :: _) as l) => eq_str l (Data.line r) = true
  | _ => True
  end.


(** A text cell that is one of the given strings. *)
Definition one_of (values : list str) (c : cell) : Prop :=
  exists s, c = Str s /\ In s values.

(** A row meets every constraint that a filter configuration gives.  A
    list constraint counts when it is present and not empty; the time
    range is read by position in the canonical sequence, the congestion
    range is inclusive, and a missing value meets neither. *)
Definition satisfies (filters : Ui.Filters) (r : Data.Observation) : Prop :=
  (forall d, Ui.f_day_type filters = Some d -> d <> [] ->
             Data.day_type r = Str d) /\
  (forall l, Ui.f_lines filters = Some l -> l <> [] ->
             one_of l (Data.line r)) /\
  (forall l, Ui.f_stations filters = Some l -> l <> [] ->
             one_of l (Data.station r)) /\
  (forall l, Ui.f_directions filters = Some l -> l <> [] ->
             one_of l (Data.direction r)) /\
  (forall s e i j,
      Ui.f_time_range filters = Some (s, e) ->
      nth_error Data.TIME_ORDER i = Some s ->
      nth_error Data.TIME_ORDER j = Some e ->
      (Z.of_nat i <= Data.time_slot r <= Z.of_nat j)%Z) /\
  (forall lo hi,
      Ui.f_congestion_range filters = Some (lo, hi) ->
      exists q, Data.congestion r = Some q /\ lo <= q /\ q <= hi).

Section PipelineVocabulary.
Context `{NumericText}.

(** A long frame that the pipeline made from some table. *)
Definition pipeline_output (out : list Data.Observation) : Prop :=
  exists df df_clean,
    Data.clean_data df = Ok df_clean /\ Data.melt_to_long df_clean = Ok out.

(** Every cached value is a frame the pipeline made. *)
Definition cache_ok (c : Api.cache) : Prop :=
  Forall (fun kv => pipeline_output (snd kv)) c.

End PipelineVocabulary.

(* ================================================================== *)
(** * Part II: properties                                              *)
(* ================================================================== *)


(** ** Strings *)

Lemma str_compare_refl (a : str) : str_compare a a = Eq.
Proof.
  induction a as [|x a IH]; simpl; [reflexivity|].
  now rewrite N.compare_refl.
Qed.

Lemma str_compare_eq (a b : str) : str_compare a b = Eq <-> a = b.
Proof.
  split; [|intros ->; apply str_compare_refl].
  revert b; induction a as [|x a IH]; intros [|y b]; simpl;
    try discriminate; [reflexivity|].
  destruct (N.compare_spec x y) as [->|_|_]; try discriminate.
  intros E; f_equal; now apply IH.
Qed.

Lemma str_eqb_eq (a b : str) : str_eqb a b = true <-> a = b.
Proof.
  unfold str_eqb; rewrite <- str_compare_eq.
  destruct (str_compare a b); split; congruence.
Qed.

Lemma str_eqb_refl (a : str) : str_eqb a a = true.
Proof. now apply str_eqb_eq. Qed.

Lemma str_eqb_neq (a b : str) : str_eqb a b = false <-> a <> b.
Proof.
  rewrite <- str_eqb_eq; destruct (str_eqb a b); split; congruence.
Qed.

Lemma str_compare_opp (a b : str) :
  str_compare b a = CompOpp (str_compare a b).
Proof.
  revert b; induction a as [|x a IH]; intros [|y b]; simpl; try reflexivity.
  rewrite (N.compare_antisym x y).
  destruct (N.compare x y); simpl; auto.
Qed.

Lemma str_compare_lt_trans (a b c : str) :
  str_compare a b = Lt -> str_compare b c = Lt -> str_compare a c = Lt.
Proof.
  revert b c; induction a as [|x a IH]; intros [|y b] [|z c]; simpl;
    try discriminate; try reflexivity.
  destruct (N.compare_spec x y) as [->|Hxy|Hxy]; try discriminate.
  - destruct (N.compare z y) eqn:E; rewrite (N.compare_antisym z y), E;
      simpl; try discriminate; auto.
    apply IH.
  - intros _.
    destruct (N.compare_spec y z) as [->|Hyz|Hyz]; try discriminate.
    + intros _. now apply N.compare_lt_iff in Hxy as ->.
    + intros _.
      assert (x < z)%N as ->%N.compare_lt_iff by (eapply N.lt_trans; eauto).
      reflexivity.
Qed.

(** ** Labels and positions *)

Lemma get_loc_Some (a : str) (l : list str) (i : nat) :
  get_loc a l = Some i -> nth_error l i = Some a.
Proof.
  revert i; induction l as [|x l IH]; simpl; intros i; [discriminate|].
  destruct (str_eqb a x) eqn:E.
  - intros [= <-]. apply str_eqb_eq in E. now subst.
  - destruct (get_loc a l) as [j|]; simpl; [|discriminate].
    intros [= <-]. now apply IH.
Qed.

Lemma get_loc_None (a : str) (l : list str) :
  get_loc a l = None <-> ~ In a l.
Proof.
  induction l as [|x l IH]; simpl; [tauto|].
  destruct (str_eqb a x) eqn:E.
  - apply str_eqb_eq in E. subst. split; [discriminate|tauto].
  - apply str_eqb_neq in E.
    destruct (get_loc a l); simpl.
    + split; [discriminate|]. intros Hn.
      assert (~ In a l) as Hl by tauto.
      apply IH in Hl. discriminate.
    + split; [|reflexivity]. intros _ [->|Hin]; [congruence|].
      now apply IH.
Qed.

Lemma get_loc_In (a : str) (l : list str) :
  In a l <-> exists i, get_loc a l = Some i.
Proof.
  destruct (get_loc a l) as [i|] eqn:E.
  - split; [eauto|]. intros _. eapply nth_error_In, get_loc_Some, E.
  - apply get_loc_None in E. split; [tauto|]. intros [i Hi]. discriminate.
Qed.

Lemma get_loc_nth (a : str) (l : list str) (i : nat) :
  NoDup l -> nth_error l i = Some a -> get_loc a l = Some i.
Proof.
  intros Hnd; revert i; induction Hnd as [|x l Hx Hnd IH]; intros [|i]; simpl;
    try discriminate.
  - intros [= ->]. now rewrite str_eqb_refl.
  - intros Hi.
    destruct (str_eqb a x) eqn:E.
    + apply str_eqb_eq in E; subst. exfalso. eapply Hx, nth_error_In, Hi.
    + now rewrite (IH _ Hi).
Qed.

Lemma has_column_In (df : DataFrame) (l : str) :
  has_column df l = true <-> In l (columns df).
Proof.
  unfold has_column. rewrite get_loc_In.
  destruct (get_loc l (columns df)); split; eauto; try discriminate.
  intros [i Hi]; discriminate.
Qed.

(** ** The order of the time slots *)

Lemma distinct_NoDup (l : list str) : distinct l = true -> NoDup l.
Proof.
  induction l as [|x l IH]; simpl; [constructor|].
  intros [Hx Hd]%andb_prop. constructor; [|auto].
  intros Hin. apply negb_true_iff in Hx.
  assert (existsb (str_eqb x) l = true) as E; [|congruence].
  apply existsb_exists. exists x. split; [assumption|apply str_eqb_refl].
Qed.

Lemma TIME_ORDER_NoDup : NoDup Data.TIME_ORDER.
Proof. apply distinct_NoDup. vm_compute. reflexivity. Qed.

Lemma categorical_code_position (i : nat) (a : str) :
  nth_error Data.TIME_ORDER i = Some a ->
  categorical_code Data.TIME_ORDER a = Z.of_nat i.
Proof.
  intros Hi. unfold categorical_code.
  now rewrite (get_loc_nth _ _ _ TIME_ORDER_NoDup Hi).
Qed.

Lemma na_last_position (n : Z) (i : nat) : na_last n (Z.of_nat i) = Z.of_nat i.
Proof.
  unfold na_last. destruct (Z.eqb_spec (Z.of_nat i) (-1)); [lia|reflexivity].
Qed.

(** ** Header normalisation *)

Lemma is_space_not_digit (c : char) : is_space c = true -> is_digit c = false.
Proof.
  unfold is_space. intros [w [Hin Hw]]%existsb_exists.
  apply N.eqb_eq in Hw. subst w.
  unfold whitespace in Hin. simpl in Hin.
  repeat (destruct Hin as [<-|Hin]; [reflexivity|]).
  contradiction.
Qed.

Lemma digit_not_space (c : char) : digit c -> is_space c = false.
Proof.
  unfold digit. intros Hd. destruct (is_space c) eqn:E; [|reflexivity].
  apply is_space_not_digit in E. congruence.
Qed.

Lemma digit_value_Some (c : char) : digit c -> exists d, digit_value c = Some d.
Proof.
  unfold digit, is_digit. destruct (digit_value c); [eauto|discriminate].
Qed.

Lemma span_digits_spec (s d r : str) :
  Py.span_digits s = (d, r) ->
  s = d ++ r /\ Forall digit d /\
  match r with [] => True | c :: _ => is_digit c = false end.
Proof.
  revert d r; induction s as [|c s IH]; simpl; intros d r.
  - intros [= <- <-]. auto.
  - destruct (is_digit c) eqn:E.
    + destruct (Py.span_digits s) as [d' r'].
      intros [= <- <-]. destruct (IH _ _ eq_refl) as (-> & Hd & Hr).
      repeat split; auto.
    + intros [= <- <-]. repeat split; auto.
Qed.

Lemma span_digits_app (d r : str) :
  Forall digit d ->
  match r with [] => True | c :: _ => is_digit c = false end ->
  Py.span_digits (d ++ r) = (d, r).
Proof.
  intros Hd Hr; induction Hd as [|c d Hc Hd IH]; simpl.
  - destruct r as [|c r]; simpl; [reflexivity|]. now rewrite Hr.
  - rewrite Hc, IH. reflexivity.
Qed.

Lemma match_here_sound (s h m : str) :
  Py.match_here s = Some (h, m) ->
  exists post, s = h ++ SI :: m ++ BUN :: post /\
               h <> [] /\ m <> [] /\ Forall digit h /\ Forall digit m.
Proof.
  unfold Py.match_here.
  destruct (Py.span_digits s) as [d1 r1] eqn:E1.
  destruct d1 as [|c d1]; [discriminate|].
  destruct r1 as [|c1 r1]; [discriminate|].
  destruct (N.eqb_spec c1 SI) as [->|]; [|discriminate].
  destruct (Py.span_digits r1) as [d2 r2] eqn:E2.
  destruct d2 as [|c' d2]; [discriminate|].
  destruct r2 as [|c2 r2]; [discriminate|].
  destruct (N.eqb_spec c2 BUN) as [->|]; [|discriminate].
  intros [= <- <-].
  apply span_digits_spec in E1 as (-> & H1 & _).
  apply span_digits_spec in E2 as (-> & H2 & _).
  exists r2. repeat split; auto; discriminate.
Qed.

Lemma match_here_complete (h m post : str) :
  h <> [] -> m <> [] -> Forall digit h -> Forall digit m ->
  Py.match_here (h ++ SI :: m ++ BUN :: post) = Some (h, m).
Proof.
  intros Hh Hm Dh Dm. unfold Py.match_here.
  rewrite (span_digits_app h (SI :: m ++ BUN :: post) Dh eq_refl).
  destruct h as [|c h]; [congruence|].
  rewrite N.eqb_refl.
  rewrite (span_digits_app m (BUN :: post) Dm eq_refl).
  destruct m as [|c' m]; [congruence|].
  now rewrite N.eqb_refl.
Qed.

Lemma match_here_nondigit (c : char) (s : str) :
  is_digit c = false -> Py.match_here (c :: s) = None.
Proof.
  intros Hc. unfold Py.match_here. simpl. now rewrite Hc.
Qed.

Lemma search_sound (s h m : str) :
  Py.search s = Some (h, m) ->
  exists pre post, s = pre ++ h ++ SI :: m ++ BUN :: post /\
                   h <> [] /\ m <> [] /\ Forall digit h /\ Forall digit m.
Proof.
  induction s as [|c s IH]; [discriminate|].
  cbn [Py.search].
  destruct (Py.match_here (c :: s)) as [[h' m']|] eqn:E.
  - intros [= -> ->]. apply match_here_sound in E as (post & Hs & Hrest).
    exists [], post. now split.
  - intros (pre & post & -> & Hrest)%IH.
    exists (c :: pre), post. now split.
Qed.


Lemma search_after_nondigits (pre h m post : str) :
  Forall (fun c => is_digit c = false) pre ->
  h <> [] -> m <> [] -> Forall digit h -> Forall digit m ->
  Py.search (pre ++ h ++ SI :: m ++ BUN :: post) = Some (h, m).
Proof.
  intros Hpre Hh Hm Dh Dm. induction Hpre as [|c pre Hc Hpre IH].
  - simpl. pose proof (match_here_complete h m post Hh Hm Dh Dm) as E.
    destruct h as [|c h]; [congruence|].
    simpl in *. now rewrite E.
  - cbn [Py.search app]. now rewrite (match_here_nondigit _ _ Hc).
Qed.

Lemma lstrip_digit (c : char) (s : str) :
  digit c -> Py.lstrip (c :: s) = c :: s.
Proof. intros Hc. simpl. now rewrite (digit_not_space _ Hc). Qed.

Lemma strip_digits (s : str) : Forall digit s -> Py.strip s = s.
Proof.
  intros Hs. unfold Py.strip, Py.rstrip.
  assert (forall t, Forall digit t -> Py.lstrip t = t) as Hl.
  { intros [|c t] Ht; [reflexivity|].
    apply lstrip_digit. now inversion Ht. }
  rewrite (Hl s Hs), Hl, rev_involutive; [reflexivity|].
  apply Forall_forall. intros x Hx%in_rev.
  rewrite Forall_forall in Hs. auto.
Qed.

Lemma digit_not_int_space (c : char) : digit c -> Py.is_int_space c = false.
Proof.
  intros Hc. unfold Py.is_int_space. now rewrite (digit_not_space _ Hc).
Qed.

Lemma skip_space_digit (c : char) (s : str) :
  digit c -> Py.skip_space (c :: s) = c :: s.
Proof. intros Hc. simpl. now rewrite (digit_not_int_space _ Hc). Qed.

Lemma int_scan_digits (s : str) (acc : N) (k : nat) (b : bool) :
  Forall digit s -> s <> [] \/ b = true ->
  exists n, Py.digits_value acc s = Some n /\
            Py.int_scan acc k b s = Some (n, (k + List.length s)%nat, []).
Proof.
  intros Hs; revert acc k b; induction Hs as [|c s Hc Hs IH]; intros acc k b Hb.
  - destruct Hb as [Hb| ->]; [congruence|]. simpl. rewrite Nat.add_0_r. eauto.
  - cbn [Py.int_scan Py.digits_value List.length].
    destruct (N.eqb_spec c Py.UNDERSCORE) as [->|_]; [discriminate Hc|].
    destruct (digit_value_Some _ Hc) as [d ->].
    destruct (IH (acc * 10 + d)%N (S k) true) as (n & Hn & E); [now right|].
    exists n. split; [exact Hn|]. rewrite E. do 3 f_equal. lia.
Qed.

(** On a non-empty run of decimal digits [int] raises for the length of
    the run only. *)
Lemma int_digits (s : str) :
  Forall digit s -> s <> [] ->
  exists n,
    Py.digits_value 0 s = Some n /\
    Py.int s =
    if (Py.int_max_str_digits <? List.length s)%nat
    then Raise (Py.exceeds_limit (List.length s))
    else Ok (Z.of_N n).
Proof.
  intros Hs Hne. unfold Py.int.
  destruct s as [|c r]; [congruence|].
  assert (digit c) as Hc by now inversion Hs.
  rewrite (skip_space_digit _ _ Hc). cbv zeta.
  destruct (N.eqb_spec c Py.MINUS) as [->|_]; [discriminate Hc|].
  destruct (N.eqb_spec c Py.PLUS) as [->|_]; [discriminate Hc|].
  cbn [orb].
  destruct (int_scan_digits (c :: r) 0 0 false Hs) as (n & Hn & ->);
    [left; discriminate|].
  exists n. split; [exact Hn|]. reflexivity.
Qed.

(** The two numbers of a header, as the normalised label shows them. *)
Lemma format_time_column_match (s g1 g2 : str) :
  Py.search s = Some (g1, g2) ->
  exists hour minute,
    Py.digits_value 0 g1 = Some hour /\ Py.digits_value 0 g2 = Some minute /\
    Data.format_time_column s =
    if (Py.int_max_str_digits <? List.length g1)%nat
    then Raise (Py.exceeds_limit (List.length g1))
    else if (Py.int_max_str_digits <? List.length g2)%nat
         then Raise (Py.exceeds_limit (List.length g2))
         else Ok (Py.format_02d (Z.of_N hour) ++ [COLON]
                    ++ Py.format_02d (Z.of_N minute)).
Proof.
  intros Hs.
  destruct (search_sound _ _ _ Hs) as (pre & post & _ & H1 & H2 & D1 & D2).
  destruct (int_digits _ D1 H1) as (hour & Hh & E1).
  destruct (int_digits _ D2 H2) as (minute & Hm & E2).
  exists hour, minute. split; [exact Hh|]. split; [exact Hm|].
  unfold Data.format_time_column. rewrite Hs, E1, E2.
  destruct (Py.int_max_str_digits <? List.length g1)%nat; [reflexivity|].
  destruct (Py.int_max_str_digits <? List.length g2)%nat; reflexivity.
Qed.

Lemma format_time_column_no_match (s : str) :
  Py.search s = None -> Data.format_time_column s = Ok s.
Proof. intros E. unfold Data.format_time_column. now rewrite E. Qed.

(** The three outcomes of a header whose leftmost match has the digit
    runs [h] and [m]. *)
Lemma format_time_column_cases (s h m : str) :
  Py.search s = Some (h, m) ->
  exists hour minute,
    Py.digits_value 0 h = Some hour /\ Py.digits_value 0 m = Some minute /\
    ((List.length h <= 4300)%nat -> (List.length m <= 4300)%nat ->
     Data.format_time_column s = Ok (hh_mm hour minute)) /\
    ((4300 < List.length h)%nat ->
     Data.format_time_column s = Raise (Py.exceeds_limit (List.length h))) /\
    ((List.length h <= 4300)%nat -> (4300 < List.length m)%nat ->
     Data.format_time_column s = Raise (Py.exceeds_limit (List.length m))).
Proof.
  intros Hs.
  destruct (format_time_column_match _ _ _ Hs) as (hour & minute & Hh & Hm & E).
  exists hour, minute. split; [exact Hh|]. split; [exact Hm|].
  rewrite E. unfold Py.int_max_str_digits.
  destruct (Nat.ltb_spec 4300 (List.length h));
    destruct (Nat.ltb_spec 4300 (List.length m));
    repeat split; intros; try lia; reflexivity.
Qed.





(** ** Comparisons and the stable sort *)

Section SortFacts.
Context {A : Type} (cmp : A -> A -> comparison) `{!WeakOrder cmp}.

Lemma cmp_eq_r (a b c : A) : cmp a b = Eq -> cmp c a = cmp c b.
Proof.
  intros E. rewrite (cmp_opp a c), (cmp_opp b c). f_equal.
  now apply cmp_eq_l.
Qed.

Lemma le_total (a b : A) : leb_of cmp a b = false -> le cmp b a.
Proof.
  unfold le, leb_of. rewrite (cmp_opp a b).
  destruct (cmp a b); simpl; congruence.
Qed.

Lemma le_trans (a b c : A) : le cmp a b -> le cmp b c -> le cmp a c.
Proof.
  unfold le, leb_of.
  destruct (cmp a b) eqn:Eab; [| |discriminate]; intros _.
  - now rewrite (cmp_eq_l a b c Eab).
  - destruct (cmp b c) eqn:Ebc; [| |discriminate]; intros _.
    + now rewrite <- (cmp_eq_r b c a Ebc), Eab.
    + now rewrite (cmp_lt_trans a b c Eab Ebc).
Qed.

Lemma insert_by_perm (x : A) (l : list A) :
  Permutation (insert_by cmp x l) (x :: l).
Proof.
  induction l as [|y l IH]; simpl; [reflexivity|].
  destruct (leb_of cmp x y); [reflexivity|].
  rewrite IH. apply perm_swap.
Qed.

Lemma stable_sort_perm (l : list A) : Permutation (stable_sort cmp l) l.
Proof.
  induction l as [|x l IH]; simpl; [reflexivity|].
  unfold stable_sort in *. simpl. rewrite insert_by_perm. now constructor.
Qed.

Lemma insert_by_sorted (x : A) (l : list A) :
  StronglySorted (le cmp) l -> StronglySorted (le cmp) (insert_by cmp x l).
Proof.
  induction 1 as [|y l Hs IH Hy]; simpl.
  - repeat constructor.
  - destruct (leb_of cmp x y) eqn:E.
    + constructor; [now constructor|].
      constructor; [exact E|].
      eapply Forall_impl; [|exact Hy]. intros z Hz.
      eapply le_trans; eauto.
    + constructor; [exact IH|].
      eapply Permutation_Forall; [symmetry; apply insert_by_perm|].
      constructor; [now apply le_total|exact Hy].
Qed.

Lemma stable_sort_sorted (l : list A) : StronglySorted (le cmp) (stable_sort cmp l).
Proof.
  induction l as [|x l IH]; [constructor|].
  unfold stable_sort in *. simpl. now apply insert_by_sorted.
Qed.

End SortFacts.

#[local] Instance WeakOrder_key {A B : Type} (f : A -> B)
  (cmp : B -> B -> comparison) `{!WeakOrder cmp} :
  WeakOrder (fun a b => cmp (f a) (f b)).
Proof.
  split; intros.
  - apply cmp_opp.
  - now apply cmp_eq_l.
  - eapply cmp_lt_trans; eauto.
Qed.

#[local] Instance WeakOrder_lex {A : Type} (c1 c2 : A -> A -> comparison)
  `{!WeakOrder c1} `{!WeakOrder c2} :
  WeakOrder (fun a b => lex (c1 a b) (c2 a b)).
Proof.
  split.
  - intros a b. rewrite (cmp_opp (cmp := c1) a b), (cmp_opp (cmp := c2) a b).
    destruct (c1 a b); reflexivity.
  - intros a b c. unfold lex.
    destruct (c1 a b) eqn:E1; try discriminate. intros E2.
    rewrite (cmp_eq_l a b c E1). destruct (c1 b c); auto.
    now apply cmp_eq_l.
  - intros a b c. unfold lex.
    destruct (c1 a b) eqn:E1; try discriminate;
      destruct (c1 b c) eqn:E2; try discriminate; intros H1 H2.
    + rewrite (cmp_eq_l a b c E1), E2. eapply cmp_lt_trans; eauto.
    + now rewrite (cmp_eq_l a b c E1), E2.
    + now rewrite <- (cmp_eq_r c1 b c a E2), E1.
    + now rewrite (cmp_lt_trans a b c E1 E2).
Qed.

#[local] Instance WeakOrder_Z : WeakOrder Z.compare.
Proof.
  split.
  - intros a b. apply Z.compare_antisym.
  - intros a b c ->%Z.compare_eq. reflexivity.
  - intros a b c H1 H2.
    change (a < b)%Z in H1. change (b < c)%Z in H2. change (a < c)%Z. lia.
Qed.

#[local] Instance WeakOrder_str : WeakOrder str_compare.
Proof.
  split.
  - intros a b. apply str_compare_opp.
  - intros a b c ->%str_compare_eq. reflexivity.
  - apply str_compare_lt_trans.
Qed.

#[local] Instance WeakOrder_Q : WeakOrder Qcompare.
Proof.
  split.
  - intros a b. symmetry. apply Qcompare_antisym.
  - intros a b c E%Qeq_alt. now rewrite E.
  - intros a b c H1%Qlt_alt H2%Qlt_alt. apply Qlt_alt.
    eapply Qlt_trans; eauto.
Qed.

#[local] Instance WeakOrder_cell : WeakOrder cell_compare.
Proof.
  split.
  - intros [s|x|] [t|y|]; simpl; try reflexivity; apply cmp_opp.
  - intros [s|x|] [t|y|] [r|z|]; simpl; try discriminate; try reflexivity;
      apply cmp_eq_l.
  - intros [s|x|] [t|y|] [r|z|]; simpl; try discriminate; try reflexivity;
      apply cmp_lt_trans.
Qed.

#[local] Instance WeakOrder_sort_key : WeakOrder Data.sort_key_compare.
Proof.
  unfold Data.sort_key_compare, code_compare.
  repeat (apply WeakOrder_lex; [apply (WeakOrder_key _ cell_compare)|]).
  apply (WeakOrder_key (fun r : Data.Observation =>
                          na_last _ (Data.time_slot r)) Z.compare).
Qed.

(** ** Positions of labels *)

Lemma positions_from_In (label : str) (labels : list str) (i0 p : nat) :
  In p (positions_from i0 label labels) <->
  (i0 <= p)%nat /\ nth_error labels (p - i0) = Some label.
Proof.
  revert i0; induction labels as [|l ls IH]; intros i0; simpl.
  - split; [contradiction|]. intros [_ E]. destruct (p - i0)%nat; discriminate.
  - destruct (str_eqb label l) eqn:E.
    + apply str_eqb_eq in E. subst l. simpl. rewrite IH. split.
      * intros [<-|[Hle Hn]].
        -- split; [lia|]. now rewrite Nat.sub_diag.
        -- split; [lia|]. replace (p - i0)%nat with (S (p - S i0)) by lia.
           exact Hn.
      * intros [Hle Hn].
        destruct (Nat.eq_dec i0 p) as [->|Hne]; [now left|]. right.
        split; [lia|]. replace (p - i0)%nat with (S (p - S i0)) in Hn by lia.
        exact Hn.
    + apply str_eqb_neq in E. rewrite IH. split.
      * intros [Hle Hn]. split; [lia|].
        replace (p - i0)%nat with (S (p - S i0)) by lia. exact Hn.
      * intros [Hle Hn].
        destruct (Nat.eq_dec i0 p) as [->|Hne].
        -- rewrite Nat.sub_diag in Hn. simpl in Hn. congruence.
        -- split; [lia|].
           replace (p - i0)%nat with (S (p - S i0)) in Hn by lia. exact Hn.
Qed.

Lemma positions_In (label : str) (labels : list str) (p : nat) :
  In p (positions label labels) <-> nth_error labels p = Some label.
Proof.
  unfold positions. rewrite positions_from_In, Nat.sub_0_r.
  split; [now intros [_ E]|]. intros E. split; [lia|exact E].
Qed.

Lemma positions_nil (label : str) (labels : list str) :
  positions label labels = [] <-> ~ In label labels.
Proof.
  split.
  - intros E [p Hp]%In_nth_error. apply positions_In in Hp.
    rewrite E in Hp. contradiction.
  - intros Hn. destruct (positions label labels) as [|p ps] eqn:E;
      [reflexivity|].
    exfalso. apply Hn. apply (nth_error_In labels p).
    apply positions_In. rewrite E. now left.
Qed.

Lemma positions_from_head (label : str) (labels : list str) (i0 : nat) :
  positions_from i0 label labels =
  match get_loc label labels with
  | Some i => (i0 + i)%nat :: List.tl (positions_from i0 label labels)
  | None => []
  end.
Proof.
  revert i0; induction labels as [|l ls IH]; intros i0; simpl; [reflexivity|].
  destruct (str_eqb label l); simpl; [now rewrite Nat.add_0_r|].
  rewrite (IH (S i0)). destruct (get_loc label ls); simpl; [|reflexivity].
  f_equal. lia.
Qed.


Lemma positions_absent (df : DataFrame) (label : str) :
  has_column df label = false -> positions label (columns df) = [].
Proof.
  unfold has_column, positions. intros Hc. rewrite positions_from_head.
  destruct (get_loc label (columns df)); [discriminate|reflexivity].
Qed.

Lemma is_frame_absent (df : DataFrame) (label : str) :
  has_column df label = false -> is_frame df label = false.
Proof.
  intros Hc. unfold is_frame. now rewrite (positions_absent _ _ Hc).
Qed.

Lemma unique_positions_In (l : list nat) (p : nat) :
  In p (unique_positions l) <-> In p l.
Proof.
  induction l as [|i l IH]; simpl; [reflexivity|].
  rewrite filter_In, IH, negb_true_iff, Nat.eqb_neq.
  split.
  - intros [->|[Hp _]]; auto.
  - intros [->|Hp]; [now left|].
    destruct (Nat.eq_dec i p) as [->|Hne]; [now left|]. right. split; auto.
Qed.

Lemma unique_positions_NoDup (l : list nat) : NoDup (unique_positions l).
Proof.
  induction l as [|i l IH]; simpl; constructor.
  - rewrite filter_In, negb_true_iff, Nat.eqb_neq. intros [_ Hne]. congruence.
  - now apply NoDup_filter.
Qed.

Lemma found_In (labels columns : list str) (p : nat) :
  In p (found (get_indexer_for labels columns)) <->
  exists l, In l labels /\ nth_error columns p = Some l.
Proof.
  unfold found, get_indexer_for. rewrite in_flat_map. split.
  - intros (o & (l & Hl & Ho)%in_flat_map & Hp).
    destruct o as [q|]; [|contradiction]. destruct Hp as [<-|[]].
    exists l. split; [exact Hl|]. apply positions_In.
    unfold indexer in Ho.
    destruct (positions l columns) as [|a ps].
    + destruct Ho as [Ho|[]]. discriminate Ho.
    + apply in_map_iff in Ho as (x & [= ->] & Hx). exact Hx.
  - intros (l & Hl & Hp). apply positions_In in Hp.
    exists (Some p). split; [|now left]. apply in_flat_map.
    exists l. split; [exact Hl|]. unfold indexer.
    destruct (positions l columns) as [|a ps]; [contradiction|].
    now apply (in_map Some).
Qed.

Lemma indexer_missing (labels columns : list str) :
  existsb is_missing (get_indexer_for labels columns) =
  existsb (fun l => negb (match get_loc l columns with
                          | Some _ => true
                          | None => false
                          end)) labels.
Proof.
  unfold get_indexer_for.
  induction labels as [|l ls IH]; cbn [flat_map existsb]; [reflexivity|].
  rewrite existsb_app, IH. f_equal.
  unfold positions. rewrite positions_from_head.
  destruct (get_loc l columns) as [i|]; [|reflexivity].
  cbn [indexer List.map existsb is_missing orb negb]. clear.
  induction (List.tl (positions_from 0 l columns)) as [|a r IH];
    simpl; auto.
Qed.

Lemma flat_map_map {A B C : Type} (f : B -> list C) (g : A -> B) (l : list A) :
  flat_map f (List.map g l) = flat_map (fun a => f (g a)) l.
Proof. induction l as [|a l IH]; simpl; [reflexivity|]. now rewrite IH. Qed.

Lemma flat_map_flat_map {A B C : Type} (f : B -> list C) (g : A -> list B)
      (l : list A) :
  flat_map f (flat_map g l) = flat_map (fun a => flat_map f (g a)) l.
Proof.
  induction l as [|a l IH]; simpl; [reflexivity|].
  now rewrite flat_map_app, IH.
Qed.

Lemma flat_map_Permutation {A B : Type} (f : A -> list B) (l l' : list A) :
  Permutation l l' -> Permutation (flat_map f l) (flat_map f l').
Proof.
  induction 1; simpl.
  - constructor.
  - now apply Permutation_app_head.
  - rewrite !app_assoc. apply Permutation_app_tail, Permutation_app_comm.
  - etransitivity; eassumption.
Qed.

(** ** The reshape *)

Section Reshape.
Context `{NumericText}.

Lemma id_cols_not_time (l : str) :
  In l Data.id_cols -> Data.is_time_col l = false.
Proof.
  unfold Data.id_cols. simpl.
  intros [<-|[<-|[<-|[<-|[<-|[]]]]]]; reflexivity.
Qed.

Lemma time_cols_In (df : DataFrame) (tc : str) :
  In tc (time_cols df) <-> In tc (columns df) /\ Data.is_time_col tc = true.
Proof. unfold time_cols. apply filter_In. Qed.

Lemma time_positions_In (df : DataFrame) (i : nat) :
  In i (time_positions df) <->
  nth_error (columns df) i = Some (label_at df i) /\
  Data.is_time_col (label_at df i) = true.
Proof.
  unfold time_positions. rewrite filter_In, in_seq. unfold label_at. split.
  - intros [[_ Hi] Ht]. split; [|exact Ht]. simpl in Hi.
    now apply nth_error_nth'.
  - intros [Hn Ht]. split; [|exact Ht]. split; [lia|]. simpl.
    apply nth_error_Some. congruence.
Qed.

Lemma time_positions_NoDup (df : DataFrame) : NoDup (time_positions df).
Proof. apply NoDup_filter, seq_NoDup. Qed.

Lemma time_positions_length (df : DataFrame) :
  List.length (time_positions df) = List.length (time_cols df).
Proof.
  unfold time_positions, time_cols, label_at.
  generalize (columns df). intros cols.
  assert (forall pre,
             List.length
               (List.filter (fun i => Data.is_time_col (nth i (pre ++ cols) []))
                            (seq (List.length pre) (List.length cols))) =
             List.length (List.filter Data.is_time_col cols)) as Hg.
  { induction cols as [|c cols IH]; intros pre; [reflexivity|].
    cbn [List.length seq List.filter].
    rewrite app_nth2, Nat.sub_diag by lia. cbn [nth].
    specialize (IH (pre ++ [c])).
    rewrite <- app_assoc, length_app, Nat.add_1_r in IH. cbn [app] in IH.
    destruct (Data.is_time_col c); cbn [List.length]; now rewrite IH. }
  exact (Hg []).
Qed.


Lemma value_columns_In (df : DataFrame) (i : nat) :
  In i (value_columns df) <-> In i (time_positions df).
Proof.
  unfold value_columns.
  rewrite filter_In, unique_positions_In, found_In, negb_true_iff,
    time_positions_In.
  split.
  - intros [(l & Hl & Hn) Hid].
    assert (label_at df i = l) as E by (unfold label_at; now apply nth_error_nth).
    rewrite E in *. split; [exact Hn|].
    apply in_app_or in Hl as [Hl|Hl].
    + exfalso. apply (proj2 (not_true_iff_false _) Hid).
      apply existsb_exists. exists l. split; [exact Hl|apply str_eqb_refl].
    + now apply time_cols_In in Hl.
  - intros [Hn Ht]. split.
    + exists (label_at df i). split; [|exact Hn]. apply in_or_app. right.
      apply time_cols_In. split; [|exact Ht]. eapply nth_error_In. exact Hn.
    + apply not_true_iff_false. intros (l & Hl & E%str_eqb_eq)%existsb_exists.
      rewrite E, (id_cols_not_time _ Hl) in Ht. discriminate.
Qed.

Lemma value_columns_perm (df : DataFrame) :
  Permutation (value_columns df) (time_positions df).
Proof.
  apply NoDup_Permutation.
  - apply NoDup_filter, unique_positions_NoDup.
  - apply time_positions_NoDup.
  - apply value_columns_In.
Qed.

Lemma time_cols_found (df : DataFrame) :
  existsb (fun l => negb (has_column df l)) (time_cols df) = false.
Proof.
  apply not_true_iff_false. intros (l & Hl & Hc)%existsb_exists.
  apply time_cols_In in Hl as [Hl _]. apply has_column_In in Hl.
  rewrite Hl in Hc. discriminate.
Qed.

Lemma missing_id_cols_nil (df : DataFrame) :
  existsb (fun l => negb (has_column df l)) Data.id_cols = false <->
  missing_id_cols df = [].
Proof.
  unfold missing_id_cols.
  induction Data.id_cols as [|l ls IH]; simpl; [tauto|].
  destruct (has_column df l); simpl; [exact IH|]. split; discriminate.
Qed.


(** The rows that [apply] and the steps after it make of the molten
    rows. *)
Lemma apply_time_slot_rows (molten : list (Data.LongRow str cell))
      (l : list (Data.LongRow str cell)) :
  Data.apply_time_slot Data.format_time_column molten = Ok l ->
  List.map (Data.set_time_slot (categorical_code Data.TIME_ORDER))
    (List.filter (fun r => negb (isna (of_float64 (Data.congestion r))))
       (List.map (Data.set_congestion to_numeric) l)) =
  flat_map
    (fun r =>
       match Data.format_time_column (Data.time_slot r),
             to_numeric (Data.congestion r) with
       | Ok label, Some q =>
         [ {| Data.day_type := Data.day_type r; Data.line := Data.line r;
              Data.station_id := Data.station_id r;
              Data.station := Data.station r;
              Data.direction := Data.direction r;
              Data.time_slot := categorical_code Data.TIME_ORDER label;
              Data.congestion := Some q |} ]
       | _, _ => []
       end)
    molten.
Proof.
  revert l; induction molten as [|r molten IH]; intros l.
  - now intros [= <-].
  - destruct r as [dt ln sid st dir ts cg].
    cbn [Data.apply_time_slot flat_map Data.time_slot Data.congestion].
    destruct (Data.format_time_column ts) as [label|e]; [|discriminate].
    cbn [bind].
    destruct (Data.apply_time_slot Data.format_time_column molten)
      as [rest|e]; [|discriminate]. cbn [bind].
    intros [= <-]. specialize (IH rest eq_refl).
    cbn [List.map Data.set_congestion Data.set_time_slot List.filter
         Data.congestion Data.time_slot Data.day_type Data.line
         Data.station_id Data.station Data.direction].
    destruct (to_numeric cg) as [q|] eqn:Eq;
      cbn [of_float64 isna negb List.map app]; [|exact IH].
    f_equal; [|exact IH].
    unfold Data.set_time_slot, Data.set_congestion.
    cbn [Data.congestion Data.time_slot Data.day_type Data.line
         Data.station_id Data.station Data.direction].
    now rewrite Eq.
Qed.



(** [melt_to_long], step by step. *)
Lemma melt_to_long_eq (df : DataFrame) :
  Data.melt_to_long df =
  if has_column df (u "congestion")
  then Raise (ValueError
                (u "value_name cannot match an element in the DataFrame columns."))
  else if existsb (fun l => negb (has_column df l)) Data.id_cols
  then Raise (KeyError (key_error_labels df))
  else if existsb (is_frame df) Data.id_cols then Raise AttributeError
  else
    df_long <- Data.apply_time_slot Data.format_time_column
                 (List.map Data.long_row (molten_rows df)) ;;
    Ok (stable_sort Data.sort_key_compare
          (List.map (Data.set_time_slot (categorical_code Data.TIME_ORDER))
             (List.filter
                (fun r => negb (isna (of_float64 (Data.congestion r))))
                (List.map (Data.set_congestion to_numeric) df_long)))).
Proof.
  unfold Data.melt_to_long, melt.
  destruct (has_column df (u "congestion")); [reflexivity|].
  fold (time_cols df). rewrite indexer_missing.
  change (fun l => negb match get_loc l (columns df) with
                        | Some _ => true
                        | None => false
                        end)
    with (fun l => negb (has_column df l)).
  rewrite existsb_app, time_cols_found, orb_false_r.
  fold (key_error_labels df).
  destruct (existsb (fun l => negb (has_column df l)) Data.id_cols);
    [reflexivity|].
  destruct (existsb (is_frame df) Data.id_cols); reflexivity.
Qed.

Lemma molten_cell_rows (df : DataFrame) (l : list (Data.LongRow str cell)) :
  Data.apply_time_slot Data.format_time_column
    (List.map Data.long_row (molten_rows df)) = Ok l ->
  List.map (Data.set_time_slot (categorical_code Data.TIME_ORDER))
    (List.filter (fun r => negb (isna (of_float64 (Data.congestion r))))
       (List.map (Data.set_congestion to_numeric) l)) =
  flat_map (fun i => flat_map (cell_rows df i) (rows df)) (value_columns df).
Proof.
  intros E. rewrite (apply_time_slot_rows _ _ E).
  unfold molten_rows. rewrite flat_map_map, flat_map_flat_map.
  apply flat_map_ext. intros i. rewrite flat_map_map.
  apply flat_map_ext. intros row.
  unfold cell_rows, observation, Data.long_row. cbn.
  reflexivity.
Qed.

(** What a call that returns has gone through, and what it returns. *)
Lemma melt_to_long_Ok (df : DataFrame) (out : list Data.Observation) :
  Data.melt_to_long df = Ok out ->
  has_column df (u "congestion") = false /\
  missing_id_cols df = [] /\ id_cols_once df /\
  exists l, Permutation l (observations df) /\
            out = stable_sort Data.sort_key_compare l.
Proof.
  rewrite melt_to_long_eq.
  destruct (has_column df (u "congestion")); [discriminate|].
  destruct (existsb (fun l => negb (has_column df l)) Data.id_cols) eqn:Em;
    [discriminate|].
  destruct (existsb (is_frame df) Data.id_cols) eqn:Ef; [discriminate|].
  destruct (Data.apply_time_slot _ _) as [l|e] eqn:El; [|discriminate].
  cbn [bind]. intros [= <-]. split; [reflexivity|].
  split; [now apply missing_id_cols_nil|]. split.
  - intros l' Hl'. apply not_true_iff_false. intros Hf.
    assert (existsb (is_frame df) Data.id_cols = true) as Hex
        by (apply existsb_exists; eauto).
    congruence.
  - eexists. split; [|reflexivity].
    rewrite (molten_cell_rows _ _ El). unfold observations.
    apply flat_map_Permutation, value_columns_perm.
Qed.

Lemma melt_to_long_perm (df : DataFrame) (out : list Data.Observation) :
  Data.melt_to_long df = Ok out -> Permutation out (observations df).
Proof.
  intros (_ & _ & _ & l & Hl & ->)%melt_to_long_Ok.
  etransitivity; [apply stable_sort_perm|exact Hl].
Qed.

Lemma melt_to_long_stable_sorted (df : DataFrame) (out : list Data.Observation) :
  Data.melt_to_long df = Ok out ->
  StronglySorted (le Data.sort_key_compare) out.
Proof.
  intros (_ & _ & _ & l & _ & ->)%melt_to_long_Ok.
  exact (stable_sort_sorted Data.sort_key_compare l).
Qed.

Lemma in_observations (df : DataFrame) (r : Data.Observation) :
  In r (observations df) <->
  exists i row label q,
    In i (time_positions df) /\ In row (rows df) /\
    Data.format_time_column (label_at df i) = Ok label /\
    to_numeric (cell_at row i) = Some q /\ r = observation df row label q.
Proof.
  unfold observations. rewrite in_flat_map. split.
  - intros (i & Hi & (row & Hrow & Hr)%in_flat_map).
    unfold cell_rows in Hr.
    destruct (Data.format_time_column (label_at df i)) as [label|e] eqn:El;
      [|contradiction].
    destruct (to_numeric (cell_at row i)) as [q|] eqn:E; [|contradiction].
    destruct Hr as [<-|[]]. exists i, row, label, q. auto.
  - intros (i & row & label & q & Hi & Hrow & El & E & ->).
    exists i. split; [assumption|]. apply in_flat_map.
    exists row. split; [assumption|]. unfold cell_rows. rewrite El, E.
    now left.
Qed.


Lemma molten_rows_label (df : DataFrame) (i : nat) :
  rows df <> [] -> In i (time_positions df) ->
  exists r, In r (List.map Data.long_row (molten_rows df)) /\
            Data.time_slot r = label_at df i.
Proof.
  intros Hrows Hi. destruct (rows df) as [|row rest] eqn:E; [congruence|].
  exists (Data.long_row
            {| id_values := List.map (fun l => get df l row) Data.id_cols;
               variable := label_at df i;
               value := cell_at row i |}).
  split; [|reflexivity].
  apply in_map. unfold molten_rows. apply in_flat_map. exists i.
  split; [now apply value_columns_In|]. rewrite E. now left.
Qed.

(** When there is a row, a call that returns has normalised every
    time-slot header. *)
Lemma melt_to_long_formats (df : DataFrame) (out : list Data.Observation)
      (i : nat) :
  Data.melt_to_long df = Ok out -> rows df <> [] ->
  In i (time_positions df) ->
  exists label, Data.format_time_column (label_at df i) = Ok label.
Proof.
  rewrite melt_to_long_eq. intros Hout Hrows Hi.
  destruct (has_column df (u "congestion")); [discriminate|].
  destruct (existsb (fun l => negb (has_column df l)) Data.id_cols);
    [discriminate|].
  destruct (existsb (is_frame df) Data.id_cols); [discriminate|].
  destruct (molten_rows_label df i Hrows Hi) as (r & Hr & Er).
  destruct (Data.format_time_column (label_at df i)) as [label|e] eqn:E;
    [eauto|].
  exfalso.
  destruct (Data.apply_time_slot _ _) as [l|e'] eqn:El; [|discriminate].
  clear Hout. revert l El.
  induction (List.map Data.long_row (molten_rows df)) as [|r' rs IH];
    [contradiction|].
  intros l. simpl.
  destruct Hr as [->|Hr].
  - rewrite Er, E. discriminate.
  - destruct (Data.format_time_column (Data.time_slot r')); [|discriminate].
    cbn [bind].
    destruct (Data.apply_time_slot Data.format_time_column rs) as [l'|];
      [|discriminate].
    intros _. now apply (IH Hr l').
Qed.

(** C3.  Every row of the reshaped frame has a congestion value that is
    present.  The frame holds exactly one row for every cell of a
    time-slot column whose value is a number, and none for a cell whose
    value fails the numeric conversion, be it a text such as "N/A" that
    does not parse or a missing cell; the value 0 is a number and its row
    is kept.  Columns are taken by position: two time-slot columns with
    the same header both give their rows. *)
Theorem melt_to_long_congestion_present
        (df : DataFrame) (out : list Data.Observation) :
  Data.melt_to_long df = Ok out ->
  Forall (fun r => exists q, Data.congestion r = Some q) out /\
  Permutation out (observations df) /\
  (rows df <> [] ->
   forall i, In i (time_positions df) ->
             exists label, Data.format_time_column (label_at df i) = Ok label) /\
  (forall i row,
      to_numeric (cell_at row i) = None -> cell_rows df i row = []) /\
  (forall i row s,
      cell_at row i = Str s -> parse_number s = None ->
      cell_rows df i row = []) /\
  (forall i row, cell_at row i = NaN -> cell_rows df i row = []) /\
  (forall i row,
      In i (time_positions df) -> In row (rows df) -> cell_at row i = Num 0 ->
      exists label,
        Data.format_time_column (label_at df i) = Ok label /\
        In (observation df row label 0) out).
Proof.
  intros Hout. pose proof (melt_to_long_perm _ _ Hout) as Hperm.
  split; [|split; [exact Hperm|]].
  - apply Forall_forall. intros r Hr.
    apply (Permutation_in _ Hperm), in_observations in Hr
      as (i & row & label & q & _ & _ & _ & _ & ->).
    now exists q.
  - split; [intros Hrows i Hi; exact (melt_to_long_formats _ _ _ Hout Hrows Hi)|].
    repeat split.
    + intros i row E. unfold cell_rows. rewrite E.
      now destruct (Data.format_time_column (label_at df i)).
    + intros i row s E Hs. unfold cell_rows. rewrite E. simpl. rewrite Hs.
      now destruct (Data.format_time_column (label_at df i)).
    + intros i row E. unfold cell_rows. rewrite E.
      now destruct (Data.format_time_column (label_at df i)).
    + intros i row Hi Hrow E.
      destruct (melt_to_long_formats _ _ i Hout) as [label El];
        [intros Hn; now rewrite Hn in Hrow|exact Hi|].
      exists label. split; [exact El|].
      apply (Permutation_in _ (Permutation_sym Hperm)), in_observations.
      exists i, row, label, 0. repeat split; auto. now rewrite E.
Qed.

(** What a code of the [time_slot] column shows. *)
Lemma categorical_value_code (l : str) :
  categorical_value Data.TIME_ORDER (categorical_code Data.TIME_ORDER l) =
  match get_loc l Data.TIME_ORDER with Some _ => Str l | None => NaN end.
Proof.
  unfold categorical_value, categorical_code.
  destruct (get_loc l Data.TIME_ORDER) as [i|] eqn:E; [|reflexivity].
  destruct (Z.ltb_spec (Z.of_nat i) 0); [lia|].
  now rewrite Nat2Z.id, (get_loc_Some _ _ _ E).
Qed.

Lemma categorical_code_missing (l : str) :
  ~ In l Data.TIME_ORDER -> categorical_code Data.TIME_ORDER l = (-1)%Z.
Proof.
  intros Hn%get_loc_None. unfold categorical_code. now rewrite Hn.
Qed.

(** C5, as the code has it.  Every row of the reshaped frame comes from
    a time-slot column, and its [time_slot] shows the normalised header
    of that column when this is one of the 39 labels and is missing
    otherwise: a [time_slot] that is present is one of the 39 labels.  A
    header that normalises to another label does not keep it, and its
    rows stay: every numeric cell of its column has its row in the frame,
    with a missing [time_slot]. *)
Theorem melt_to_long_time_slot_domain
        (df : DataFrame) (out : list Data.Observation) :
  Data.melt_to_long df = Ok out ->
  Forall
    (fun r =>
       exists i label,
         In i (time_positions df) /\
         Data.format_time_column (label_at df i) = Ok label /\
         Data.time_slot r = categorical_code Data.TIME_ORDER label /\
         ((In label Data.TIME_ORDER /\
           categorical_value Data.TIME_ORDER (Data.time_slot r) = Str label) \/
          (~ In label Data.TIME_ORDER /\
           categorical_value Data.TIME_ORDER (Data.time_slot r) = NaN)))
    out /\
  (forall i row label q,
      In i (time_positions df) -> In row (rows df) ->
      Data.format_time_column (label_at df i) = Ok label ->
      ~ In label Data.TIME_ORDER ->
      to_numeric (cell_at row i) = Some q ->
      exists r,
        In r out /\ r = observation df row label q /\
        Data.congestion r = Some q /\
        Data.time_slot r = (-1)%Z /\
        categorical_value Data.TIME_ORDER (Data.time_slot r) = NaN).
Proof.
  intros Hperm%melt_to_long_perm. split.
  - apply Forall_forall. intros r Hr.
    apply (Permutation_in _ Hperm), in_observations in Hr
      as (i & row & label & q & Hi & _ & El & _ & ->).
    exists i, label. split; [assumption|]. split; [assumption|].
    split; [reflexivity|].
    cbn [Data.time_slot observation]. rewrite categorical_value_code.
    destruct (get_loc label Data.TIME_ORDER) eqn:E.
    + left. split; [|reflexivity]. apply get_loc_In. eauto.
    + right. split; [|reflexivity]. now apply get_loc_None.
  - intros i row label q Hi Hrow El Hout Eq.
    exists (observation df row label q). split.
    + apply (Permutation_in _ (Permutation_sym Hperm)), in_observations.
      exists i, row, label, q. auto.
    + split; [reflexivity|]. split; [reflexivity|].
      cbn [Data.time_slot observation].
      rewrite (categorical_code_missing _ Hout). split; reflexivity.
Qed.

Lemma existsb_false_forall {A : Type} (p : A -> bool) (l : list A) :
  existsb p l = false <-> forall a, In a l -> p a = false.
Proof.
  split.
  - intros Hex a Ha. apply not_true_iff_false. intros Hp.
    assert (existsb p l = true) by (apply existsb_exists; eauto). congruence.
  - intros Hall. apply not_true_iff_false.
    intros (a & Ha & Hp)%existsb_exists. rewrite (Hall a Ha) in Hp.
    discriminate.
Qed.


End Reshape.

(** ** Cleaning *)

Section Cleaning.
Context `{NumericText}.

Lemma cell_at_nil (j : nat) : cell_at [] j = NaN.
Proof. now destruct j. Qed.

Lemma cell_at_update_at (i : nat) (f : cell -> cell) (row : list cell)
      (j : nat) :
  cell_at (update_at i f row) j =
  if Nat.eqb i j then f (cell_at row j) else cell_at row j.
Proof.
  unfold cell_at.
  assert (forall k, nth k (@nil cell) NaN = NaN) as Hnil by now intros [|k].
  revert row j; induction i as [|i IH]; intros [|c row] [|j]; simpl;
    try reflexivity.
  - apply Hnil.
  - now rewrite IH, Hnil.
  - now rewrite IH.
Qed.

Lemma step_eq (d : DataFrame) (c : str) (f : cell -> cell) :
  (if has_column d c then assign d c f else d) =
  {| columns := columns d;
     rows := List.map (row_step (columns d) c f) (rows d) |}.
Proof.
  unfold has_column, assign, row_step.
  destruct (get_loc c (columns d)); [reflexivity|].
  destruct d as [cols rs]; simpl. now rewrite map_id.
Qed.

Lemma clean_text_column_eq (d : DataFrame) (c : str) :
  Data.clean_text_column d c =
  if is_frame d c then Raise AttributeError
  else Ok {| columns := columns d;
             rows := List.map (row_step (columns d) c Data.clean_text)
                              (rows d) |}.
Proof.
  unfold Data.clean_text_column. rewrite <- step_eq.
  destruct (has_column d c) eqn:Hc.
  - now destruct (is_frame d c).
  - now rewrite (is_frame_absent _ _ Hc).
Qed.

(** [clean_data] in one equation: it raises when an identifying label
    stands on two columns once the labels are stripped, and otherwise
    returns the frame with the five columns cleaned. *)
Lemma clean_data_eq (df : DataFrame) :
  Data.clean_data df =
  if existsb (is_frame (stripped df)) text_cols then Raise AttributeError
  else if is_frame (stripped df) Data.STATION_ID then Raise TypeError
  else Ok (cleaned df).
Proof.
  unfold Data.clean_data, text_cols. cbn [fold_left existsb bind].
  fold (stripped df).
  rewrite (clean_text_column_eq (stripped df)).
  unfold stripped at 1.
  unfold is_frame. cbn [columns rows].
  destruct (1 <? List.length (positions Data.DAY_TYPE _))%nat;
    [reflexivity|]. cbn [bind orb].
  rewrite clean_text_column_eq. unfold is_frame. cbn [columns rows].
  destruct (1 <? List.length (positions Data.LINE _))%nat;
    [reflexivity|]. cbn [bind orb].
  rewrite clean_text_column_eq. unfold is_frame. cbn [columns rows].
  destruct (1 <? List.length (positions Data.STATION _))%nat;
    [reflexivity|]. cbn [bind orb].
  rewrite clean_text_column_eq. unfold is_frame. cbn [columns rows].
  destruct (1 <? List.length (positions Data.DIRECTION _))%nat;
    [reflexivity|]. cbn [bind orb].
  unfold is_frame. cbn [columns].
  match goal with
  | |- (if has_column ?d ?l then _ else _) = _ =>
    pose proof (step_eq d l (fun x => of_float64 (to_numeric x))) as Hs;
    pose proof (is_frame_absent d l) as Ha;
    destruct (has_column d l)
  end.
  - destruct (1 <? List.length (positions Data.STATION_ID _))%nat;
      [reflexivity|].
    rewrite Hs. unfold cleaned, clean_row, stripped. cbn [columns rows].
    now rewrite !map_map.
  - specialize (Ha eq_refl). unfold is_frame in Ha. cbn [columns] in Ha.
    rewrite Ha, Hs. unfold cleaned, clean_row, stripped. cbn [columns rows].
    now rewrite !map_map.
Qed.

Lemma id_cols_text_cols (l : str) :
  In l Data.id_cols <-> In l text_cols \/ l = Data.STATION_ID.
Proof. unfold Data.id_cols, text_cols. simpl. intuition. Qed.

(** A call of [clean_data] that returns has found every identifying
    label at most once, and returns the cleaned frame. *)
Lemma clean_data_Ok (df df_clean : DataFrame) :
  Data.clean_data df = Ok df_clean <->
  id_cols_once (stripped df) /\ df_clean = cleaned df.
Proof.
  rewrite clean_data_eq. unfold id_cols_once. split.
  - destruct (existsb (is_frame (stripped df)) text_cols) eqn:Et;
      [discriminate|].
    destruct (is_frame (stripped df) Data.STATION_ID) eqn:Es; [discriminate|].
    intros [= <-]. split; [|reflexivity].
    intros l [Hl| ->]%id_cols_text_cols; [|exact Es].
    rewrite existsb_false_forall in Et. now apply Et.
  - intros [Ho ->].
    assert (existsb (is_frame (stripped df)) text_cols = false) as ->.
    { apply existsb_false_forall. intros l Hl. apply Ho.
      apply id_cols_text_cols. now left. }
    rewrite Ho; [reflexivity|]. apply id_cols_text_cols. now right.
Qed.

Lemma cleaned_once (df : DataFrame) :
  id_cols_once (stripped df) <-> id_cols_once (cleaned df).
Proof. reflexivity. Qed.

Lemma cell_at_row_step_same (cols : list str) (c : str) (f : cell -> cell)
      (row : list cell) (j : nat) :
  get_loc c cols = Some j ->
  cell_at (row_step cols c f row) j = f (cell_at row j).
Proof.
  intros E. unfold row_step. rewrite E, cell_at_update_at.
  now rewrite Nat.eqb_refl.
Qed.

Lemma cell_at_row_step_other (cols : list str) (c c' : str)
      (f : cell -> cell) (row : list cell) (j : nat) :
  get_loc c' cols = Some j -> c <> c' ->
  cell_at (row_step cols c f row) j = cell_at row j.
Proof.
  intros E Hne. unfold row_step.
  destruct (get_loc c cols) as [i|] eqn:Ei; [|reflexivity].
  rewrite cell_at_update_at.
  destruct (Nat.eqb_spec i j) as [->|]; [|reflexivity].
  apply get_loc_Some in E, Ei. congruence.
Qed.

Lemma clean_row_text (cols : list str) (l : str) (row : list cell) (j : nat) :
  In l text_cols -> get_loc l cols = Some j ->
  cell_at (clean_row cols row) j = Data.clean_text (cell_at row j).
Proof.
  intros Hl E. unfold clean_row, text_cols in *. simpl in Hl.
  destruct Hl as [<-|[<-|[<-|[<-|[]]]]];
    repeat first
      [ rewrite (cell_at_row_step_same _ _ _ _ _ E)
      | rewrite (cell_at_row_step_other _ _ _ _ _ _ E) by discriminate ];
    reflexivity.
Qed.

Lemma get_cleaned_text (df : DataFrame) (l : str) (row : list cell) :
  In l text_cols -> has_column (cleaned df) l = true ->
  exists j,
    get_loc l (List.map Py.strip (columns df)) = Some j /\
    get (cleaned df) l (clean_row (List.map Py.strip (columns df)) row) =
    Data.clean_text (cell_at row j).
Proof.
  intros Hl. unfold has_column, get, cleaned. cbn [columns].
  destruct (get_loc l (List.map Py.strip (columns df))) as [j|] eqn:E;
    [|discriminate].
  intros _. exists j. split; [reflexivity|]. now apply clean_row_text with l.
Qed.

Lemma melt_to_long_id_cols (df : DataFrame) (out : list Data.Observation)
      (l : str) :
  Data.melt_to_long df = Ok out -> In l Data.id_cols ->
  has_column df l = true.
Proof.
  intros (_ & E & _)%melt_to_long_Ok Hl.
  destruct (has_column df l) eqn:Hc; [reflexivity|].
  assert (In l (missing_id_cols df)) as Hin
      by (apply filter_In; now rewrite Hc).
  rewrite E in Hin. contradiction.
Qed.

Lemma text_field_observation (df : DataFrame) (l label : str)
      (row : list cell) (q : Q) :
  In l text_cols -> text_field l (observation df row label q) = get df l row.
Proof.
  unfold text_cols. simpl.
  intros [<-|[<-|[<-|[<-|[]]]]]; reflexivity.
Qed.

(** Every row of the pipeline output is the observation of a cleaned
    wide row. *)
Lemma pipeline_rows (df : DataFrame) (out : list Data.Observation)
      (r : Data.Observation) :
  Data.melt_to_long (cleaned df) = Ok out -> In r out ->
  exists row label q,
    In row (rows df) /\
    r = observation (cleaned df)
          (clean_row (List.map Py.strip (columns df)) row) label q.
Proof.
  intros Hout Hr.
  apply (Permutation_in _ (melt_to_long_perm _ _ Hout)), in_observations
    in Hr as (i & row' & label & q & _ & Hrow & _ & _ & ->).
  unfold cleaned in Hrow. cbn [rows] in Hrow.
  apply in_map_iff in Hrow as (row & <- & Hrow).
  now exists row, label, q.
Qed.

Lemma pipeline_text_is_str (df : DataFrame) (out : list Data.Observation)
      (r : Data.Observation) (l : str) :
  Data.melt_to_long (cleaned df) = Ok out -> In r out ->
  In l text_cols -> exists s, text_field l r = Str s.
Proof.
  intros Hout Hr Hl.
  destruct (pipeline_rows _ _ _ Hout Hr) as (row & label & q & _ & ->).
  rewrite (text_field_observation _ _ _ _ _ Hl).
  assert (has_column (cleaned df) l = true) as Hc.
  { apply (melt_to_long_id_cols _ _ _ Hout).
    unfold text_cols in Hl. simpl in *. tauto. }
  destruct (get_cleaned_text df l row Hl Hc) as (j & _ & ->).
  unfold Data.clean_text. eauto.
Qed.

(** C10.  When [clean_data] returns, it has turned a missing cell of one
    of the text columns 요일구분, 호선, 출발역, 상하구분 (headers read
    after stripping) into the text "nan".  The pipeline output therefore
    never has a missing value in the fields made from these columns: they
    are always texts, and the observations of such a wide row carry the
    text "nan". *)
Theorem clean_data_missing_text_is_nan
        (df df_clean : DataFrame) (l : str) (j i : nat) (row : list cell) :
  Data.clean_data df = Ok df_clean ->
  In l text_cols ->
  get_loc l (List.map Py.strip (columns df)) = Some j ->
  nth_error (rows df) i = Some row ->
  cell_at row j = NaN ->
  exists row',
    nth_error (rows df_clean) i = Some row' /\
    get df_clean l row' = Str (u "nan") /\
    forall out,
      Data.melt_to_long df_clean = Ok out ->
      Forall (fun r => forall l', In l' text_cols ->
                                  exists s, text_field l' r = Str s) out /\
      forall p label q,
        In p (time_positions df_clean) ->
        Data.format_time_column (label_at df_clean p) = Ok label ->
        to_numeric (cell_at row' p) = Some q ->
        exists r, In r out /\ text_field l r = Str (u "nan") /\
                  Data.time_slot r = categorical_code Data.TIME_ORDER label /\
                  Data.congestion r = Some q.
Proof.
  intros [_ ->]%clean_data_Ok Hl Hj Hi Hnan.
  exists (clean_row (List.map Py.strip (columns df)) row).
  assert (get (cleaned df) l
              (clean_row (List.map Py.strip (columns df)) row) =
          Str (u "nan")) as Hget.
  { unfold get, cleaned. cbn [columns]. rewrite Hj.
    rewrite (clean_row_text _ _ _ _ Hl Hj), Hnan. reflexivity. }
  split; [|split; [exact Hget|]].
  - unfold cleaned. cbn [rows]. now apply map_nth_error.
  - intros out Hout. split.
    + apply Forall_forall. intros r Hr l' Hl'.
      now apply (pipeline_text_is_str df out).
    + intros p label q Hp El Hq.
      exists (observation (cleaned df)
                (clean_row (List.map Py.strip (columns df)) row) label q).
      split; [|split; [|split; reflexivity]].
      * apply (Permutation_in _ (Permutation_sym (melt_to_long_perm _ _ Hout))).
        apply in_observations.
        exists p, (clean_row (List.map Py.strip (columns df)) row), label, q.
        repeat split; auto.
        unfold cleaned. cbn [rows]. apply in_map.
        eapply nth_error_In, Hi.
      * now rewrite text_field_observation.
Qed.

End Cleaning.

(** ** The order of the output rows *)

Lemma cell_compare_text (c d : cell) :
  (exists s, c = Str s) -> (exists s, d = Str s) ->
  match cell_compare c d with
  | Lt => text_lt c d
  | Eq => c = d
  | Gt => True
  end.
Proof.
  intros [s ->] [t ->]. simpl.
  destruct (str_compare s t) eqn:E; [| |exact I].
  - apply str_compare_eq in E. now subst.
  - now exists s, t.
Qed.

Lemma sort_key_le_spec (a b : Data.Observation) :
  text_keys a -> text_keys b ->
  le Data.sort_key_compare a b -> key_le a b.
Proof.
  intros (La & Sa & Da) (Lb & Sb & Db).
  unfold le, leb_of, Data.sort_key_compare, key_le, lex.
  pose proof (cell_compare_text _ _ La Lb) as H1.
  pose proof (cell_compare_text _ _ Sa Sb) as H2.
  pose proof (cell_compare_text _ _ Da Db) as H3.
  destruct (cell_compare (Data.line a) (Data.line b));
    [|now left|discriminate].
  right. split; [assumption|].
  destruct (cell_compare (Data.station a) (Data.station b));
    [|now left|discriminate].
  right. split; [assumption|].
  destruct (cell_compare (Data.direction a) (Data.direction b));
    [|now left|discriminate].
  right. split; [assumption|].
  unfold slot_position.
  match goal with
  | Hc : match code_compare _ _ _ with _ => _ end = true |- _ =>
    unfold code_compare, na_last in Hc;
    change (Z.of_nat (List.length Data.TIME_ORDER)) with 39%Z in Hc;
    destruct (Z.compare_spec
                (if (Data.time_slot a =? -1)%Z then 39%Z else Data.time_slot a)
                (if (Data.time_slot b =? -1)%Z then 39%Z else Data.time_slot b));
    [lia|lia|discriminate Hc]
  end.
Qed.

Lemma StronglySorted_on {A : Type} (P : A -> Prop) (R R' : A -> A -> Prop)
      (l : list A) :
  (forall a b, P a -> P b -> R a b -> R' a b) ->
  Forall P l -> StronglySorted R l -> StronglySorted R' l.
Proof.
  intros Himp HP Hs. induction Hs as [|a l Hs IH Ha]; [constructor|].
  inversion HP as [|? ? Pa Pl]; subst.
  constructor; [now apply IH|].
  rewrite Forall_forall in *. intros b Hb. apply Himp; auto.
Qed.

Lemma StronglySorted_nth {A : Type} (R : A -> A -> Prop) (l : list A) :
  StronglySorted R l ->
  forall i j a b, (i < j)%nat ->
                  nth_error l i = Some a -> nth_error l j = Some b -> R a b.
Proof.
  induction 1 as [|x l Hs IH Hx]; intros i j a b Hij Hi Hj.
  - destruct i; discriminate.
  - destruct j as [|j]; [lia|]. simpl in Hj.
    destruct i as [|i]; simpl in Hi.
    + injection Hi as <-. rewrite Forall_forall in Hx.
      eapply Hx, nth_error_In, Hj.
    + apply (IH i j); [lia|assumption|assumption].
Qed.

Lemma text_lt_irrefl (c : cell) : ~ text_lt c c.
Proof.
  intros (s & t & -> & [= <-] & E). rewrite str_compare_refl in E. discriminate.
Qed.

Section Sorting.
Context `{NumericText}.

Lemma pipeline_text_keys (df : DataFrame) (out : list Data.Observation) :
  Data.melt_to_long (cleaned df) = Ok out -> Forall text_keys out.
Proof.
  intros Hout. apply Forall_forall. intros r Hr.
  pose proof (fun l => pipeline_text_is_str df out r l Hout Hr) as Ht.
  repeat split.
  - apply (Ht Data.LINE). simpl; tauto.
  - apply (Ht Data.STATION). simpl; tauto.
  - apply (Ht Data.DIRECTION). simpl; tauto.
Qed.

Lemma pipeline_key_sorted (df : DataFrame) (out : list Data.Observation) :
  Data.melt_to_long (cleaned df) = Ok out -> StronglySorted key_le out.
Proof.
  intros Hout.
  apply (StronglySorted_on text_keys (le Data.sort_key_compare)).
  - intros a b. apply sort_key_le_spec.
  - now apply (pipeline_text_keys df).
  - now apply (melt_to_long_stable_sorted (cleaned df)).
Qed.

(** C4.  The rows of the pipeline output are sorted ascending by the key
    (line, station, direction, time_slot): the three texts compare by
    code point and [time_slot] by position in the canonical sequence
    (a missing slot last).  Hence rows that agree on line, station and
    direction follow one another with [time_slot] ascending in canonical
    order. *)
Theorem melt_to_long_sorted
        (df df_clean : DataFrame) (out : list Data.Observation) :
  Data.clean_data df = Ok df_clean ->
  Data.melt_to_long df_clean = Ok out ->
  StronglySorted key_le out /\
  (forall i j a b,
      (i < j)%nat -> nth_error out i = Some a -> nth_error out j = Some b ->
      key_le a b /\
      (Data.line a = Data.line b -> Data.station a = Data.station b ->
       Data.direction a = Data.direction b ->
       (slot_position (Data.time_slot a) <=
        slot_position (Data.time_slot b))%Z)).
Proof.
  intros [_ ->]%clean_data_Ok Hout.
  pose proof (pipeline_key_sorted _ _ Hout) as Hs.
  split; [exact Hs|].
  intros i j a b Hij Hi Hj.
  pose proof (StronglySorted_nth _ _ Hs i j a b Hij Hi Hj) as Hle.
  split; [exact Hle|]. intros El Es Ed.
  destruct Hle as [Hlt|[_ [Hlt|[_ [Hlt|[_ Hle]]]]]]; [| | |exact Hle].
  - rewrite El in Hlt. now apply text_lt_irrefl in Hlt.
  - rewrite Es in Hlt. now apply text_lt_irrefl in Hlt.
  - rewrite Ed in Hlt. now apply text_lt_irrefl in Hlt.
Qed.

End Sorting.

(** ** The raw loader *)

Lemma try_encodings_all_fail (read_csv : str -> Data.attempt)
      (encs : list str) (path : str) :
  Forall (decode_error read_csv) encs ->
  Data.try_encodings read_csv encs path =
  (List.map Data.ReadCsv encs,
   Data.NoSupportedEncoding (Data.unsupported_message path)).
Proof.
  induction 1 as [|enc encs He _ IH]; simpl; [reflexivity|].
  now rewrite He, IH.
Qed.

Lemma try_encodings_first_success (read_csv : str -> Data.attempt)
      (before after : list str) (enc path : str) (df : DataFrame) :
  Forall (decode_error read_csv) before ->
  read_csv enc = Data.Parsed df ->
  Data.try_encodings read_csv (before ++ enc :: after) path =
  (List.map Data.ReadCsv (before ++ [enc]), Data.Returned df).
Proof.
  intros Hb He. induction Hb as [|e before Hd _ IH]; simpl.
  - now rewrite He.
  - now rewrite Hd, IH.
Qed.

Lemma try_encodings_first_error (read_csv : str -> Data.attempt)
      (before after : list str) (enc path : str) (e : exn) :
  Forall (decode_error read_csv) before ->
  read_csv enc = Data.Raises e -> e <> UnicodeDecodeError ->
  snd (Data.try_encodings read_csv (before ++ enc :: after) path) =
  Data.Propagated e /\
  reads (fst (Data.try_encodings read_csv (before ++ enc :: after) path)) =
  before ++ [enc] /\
  (In (Data.StError e)
      (fst (Data.try_encodings read_csv (before ++ enc :: after) path)) <->
   forall n, e <> NotAnException n).
Proof.
  intros Hb He Hne. induction Hb as [|e' before Hd _ IH]; simpl.
  - rewrite He. destruct e; try congruence; simpl;
      (split; [reflexivity|split; [reflexivity|]]);
      try (split; [discriminate|tauto]).
    split; [intros [[=]|[]]|]. intros Hn. now destruct (Hn name).
  - rewrite Hd.
    destruct (Data.try_encodings read_csv (before ++ enc :: after) path)
      as [evs out]. simpl in *.
    destruct IH as (-> & -> & Hst). split; [reflexivity|].
    split; [reflexivity|].
    rewrite <- Hst. split; [intros [[=]|]|]; tauto.
Qed.

Lemma try_encodings_unsupported (read_csv : str -> Data.attempt)
      (encs : list str) (path msg : str) :
  snd (Data.try_encodings read_csv encs path) = Data.NoSupportedEncoding msg ->
  Forall (decode_error read_csv) encs.
Proof.
  induction encs as [|enc encs IH]; simpl; [constructor|].
  destruct (read_csv enc) as [df|e] eqn:E; [discriminate|].
  destruct e; try discriminate.
  destruct (Data.try_encodings read_csv encs path) as [evs out]. simpl in *.
  intros Hout. constructor; [exact E|]. now apply IH.
Qed.

(** C7.  [load_raw_data] hands the file to [read_csv] with the encodings
    cp949, euc-kr, utf-8-sig, utf-8 in this order.  It returns the frame of
    the first attempt that succeeds, after decode errors only and without a
    further attempt.  An attempt that raises anything else ends the load
    with that error and no further attempt (errors of class [Exception] are
    shown with [st.error] first).  The "no supported encoding" error is
    raised exactly when all four attempts raise a decode error. *)
Theorem load_raw_data_encodings
        (read_csv : str -> str -> Data.attempt) (csv_path : str) :
  Data.encodings = [u "cp949"; u "euc-kr"; u "utf-8-sig"; u "utf-8"] /\
  (forall before enc after df,
      Data.encodings = before ++ enc :: after ->
      Forall (decode_error (read_csv csv_path)) before ->
      read_csv csv_path enc = Data.Parsed df ->
      Data.load_raw_data read_csv csv_path =
      (List.map Data.ReadCsv (before ++ [enc]), Data.Returned df)) /\
  (forall before enc after e,
      Data.encodings = before ++ enc :: after ->
      Forall (decode_error (read_csv csv_path)) before ->
      read_csv csv_path enc = Data.Raises e -> e <> UnicodeDecodeError ->
      snd (Data.load_raw_data read_csv csv_path) = Data.Propagated e /\
      reads (fst (Data.load_raw_data read_csv csv_path)) = before ++ [enc] /\
      (In (Data.StError e) (fst (Data.load_raw_data read_csv csv_path)) <->
       forall n, e <> NotAnException n)) /\
  ((exists msg,
       snd (Data.load_raw_data read_csv csv_path) =
       Data.NoSupportedEncoding msg) <->
   Forall (decode_error (read_csv csv_path)) Data.encodings) /\
  (Forall (decode_error (read_csv csv_path)) Data.encodings ->
   Data.load_raw_data read_csv csv_path =
   (List.map Data.ReadCsv Data.encodings,
    Data.NoSupportedEncoding (Data.unsupported_message csv_path))).
Proof.
  unfold Data.load_raw_data.
  split; [reflexivity|]. split; [|split; [|split]].
  - intros before enc after df -> Hb He.
    now apply try_encodings_first_success.
  - intros before enc after e -> Hb He Hne.
    now apply try_encodings_first_error.
  - split.
    + intros [msg Hm]. eapply try_encodings_unsupported, Hm.
    + intros Hall. rewrite (try_encodings_all_fail _ _ _ Hall). simpl. eauto.
  - apply try_encodings_all_fail.
Qed.

(** ** The filter *)

Lemma frame_old (h fresh : Ui.heap) (l : Ui.ref) :
  (l < List.length h)%nat -> Ui.frame (h ++ fresh) l = Ui.frame h l.
Proof. intros Hl. unfold Ui.frame. now apply app_nth1. Qed.

Lemma frame_new (h : Ui.heap) (content : list Data.Observation) :
  Ui.frame (h ++ [content]) (List.length h) = content.
Proof. unfold Ui.frame. now rewrite app_nth2, Nat.sub_diag by lia. Qed.

Lemma filter_both {A : Type} (p q : A -> bool) (l : list A) :
  List.filter q (List.filter p l) = List.filter (fun r => p r && q r) l.
Proof.
  induction l as [|x l IH]; simpl; [reflexivity|].
  destruct (p x); simpl; [destruct (q x)|]; now rewrite IH.
Qed.

Lemma filter_true {A : Type} (l : list A) :
  List.filter (fun _ => true) l = l.
Proof. induction l as [|x l IH]; simpl; congruence. Qed.

Lemma filter_twice {A : Type} (p : A -> bool) (l : list A) :
  List.filter p (List.filter p l) = List.filter p l.
Proof.
  rewrite filter_both. apply filter_ext. intros a. now destruct (p a).
Qed.

Lemma selects_ret : selects Ui.ret (Ok (fun _ => true)).
Proof.
  intros h l Hl. exists []. rewrite app_nil_r. split; [reflexivity|].
  exists l. now rewrite filter_true.
Qed.

Lemma selects_getitem (mask : Data.Observation -> bool) :
  selects (fun l => Ui.getitem l mask) (Ok mask).
Proof.
  intros h l Hl. exists [List.filter mask (Ui.frame h l)].
  split; [reflexivity|]. exists (List.length h). split; [reflexivity|].
  split; [rewrite length_app; simpl; lia|apply frame_new].
Qed.

Lemma selects_bind (m k : Ui.ref -> Ui.M Ui.ref)
      (p q : result (Data.Observation -> bool)) :
  selects m p -> selects k q ->
  selects (fun l => Ui.bindM (m l) k) (both p q).
Proof.
  intros Hm Hk h l Hl. destruct (Hm h l Hl) as (f1 & Hh1 & Hr1).
  unfold Ui.bindM. destruct (m l h) as [h1 r1]. simpl in Hh1, Hr1. subst h1.
  destruct p as [p|e]; simpl.
  - destruct Hr1 as (l1 & -> & Hl1 & Hf1).
    destruct (Hk (h ++ f1) l1 Hl1) as (f2 & Hh2 & Hr2).
    exists (f1 ++ f2). rewrite app_assoc. split; [exact Hh2|].
    destruct q as [q|e]; simpl; [|exact Hr2].
    destruct Hr2 as (l2 & E2 & Hl2 & Hf2).
    exists l2. split; [exact E2|]. split; [exact Hl2|].
    now rewrite Hf2, Hf1, filter_both.
  - subst r1. exists f1. now split.
Qed.

Lemma selects_ext (m m' : Ui.ref -> Ui.M Ui.ref)
      (p p' : result (Data.Observation -> bool)) :
  (forall l h, m l h = m' l h) ->
  match p, p' with
  | Ok a, Ok b => forall r, a r = b r
  | Raise e, Raise e' => e = e'
  | _, _ => False
  end ->
  selects m p -> selects m' p'.
Proof.
  intros Hm Hp Hs h l Hl. destruct (Hs h l Hl) as (fresh & Hh & Hr).
  exists fresh. rewrite <- Hm. split; [exact Hh|].
  destruct p as [a|e], p' as [b|e']; try contradiction.
  - destruct Hr as (l' & E & Hl' & Hf). exists l'. repeat split; auto.
    rewrite Hf. now apply filter_ext.
  - now subst.
Qed.

Lemma selects_when_given {A : Type} (o : option (list A))
      (mask : list A -> Data.Observation -> bool) :
  selects (fun l => match o with
                    | Some ((_ :: _) as v) => Ui.getitem l (mask v)
                    | _ => Ui.ret l
                    end)
          (Ok (fun r => when_given o (fun v => mask v r))).
Proof.
  destruct o as [[|a v]|]; simpl; try apply selects_ret.
  apply selects_getitem.
Qed.

Lemma selects_time (filters : Ui.Filters) :
  selects
    (fun l =>
       match Ui.f_time_range filters with
       | Some (start_time, end_time) =>
         Ui.bindM
           (Ui.lift (categorical_cmp_scalar Z.geb Data.TIME_ORDER start_time))
           (fun ge =>
              Ui.bindM
                (Ui.lift (categorical_cmp_scalar Z.leb Data.TIME_ORDER end_time))
                (fun le =>
                   Ui.getitem l
                     (fun r => ge (Data.time_slot r) && le (Data.time_slot r))))
       | None => Ui.ret l
       end)
    (time_selection filters).
Proof.
  unfold time_selection.
  destruct (Ui.f_time_range filters) as [[s e]|]; [|apply selects_ret].
  destruct (categorical_cmp_scalar Z.geb Data.TIME_ORDER s) as [ge|x];
    [|intros h l Hl; exists []; now rewrite app_nil_r].
  destruct (categorical_cmp_scalar Z.leb Data.TIME_ORDER e) as [le|x];
    [|intros h l Hl; exists []; now rewrite app_nil_r].
  apply (selects_getitem
           (fun r => ge (Data.time_slot r) && le (Data.time_slot r))).
Qed.

Lemma selects_congestion (filters : Ui.Filters) :
  selects
    (fun l =>
       match Ui.f_congestion_range filters with
       | Some (min_cong, max_cong) =>
         Ui.getitem l
           (fun r => Ui.between min_cong max_cong (Data.congestion r))
       | None => Ui.ret l
       end)
    (Ok (congestion_selection filters)).
Proof.
  unfold congestion_selection.
  destruct (Ui.f_congestion_range filters) as [[lo hi]|];
    [apply selects_getitem|apply selects_ret].
Qed.

(** The steps of [filter_data] after the copy. *)
Lemma filter_steps_select (filters : Ui.Filters) :
  exists steps,
    (forall df h,
        Ui.filter_data df filters h = Ui.bindM (Ui.copy df) steps h) /\
    selects steps (selection filters).
Proof.
  eexists. split; [intros df h; unfold Ui.filter_data; reflexivity|].
  eapply selects_ext; [reflexivity| |].
  2:{ apply selects_bind; [apply (selects_when_given (Ui.f_day_type filters)
                                    (fun d r => eq_str d (Data.day_type r)))|].
      apply selects_bind; [apply (selects_when_given (Ui.f_lines filters)
                                    (fun v r => isin v (Data.line r)))|].
      apply selects_bind; [apply (selects_when_given (Ui.f_stations filters)
                                    (fun v r => isin v (Data.station r)))|].
      apply selects_bind; [apply (selects_when_given (Ui.f_directions filters)
                                    (fun v r => isin v (Data.direction r)))|].
      apply selects_bind; [apply selects_time|].
      apply selects_bind; [apply selects_congestion|].
      apply selects_ret. }
  unfold selection, both. cbn [bind].
  destruct (time_selection filters) as [tm|e]; cbn [bind]; [|reflexivity].
  intros r. now rewrite andb_true_r, !andb_assoc.
Qed.

(** [filter_data] on a heap: it only allocates, and its result holds the
    selected rows of its argument. *)
Lemma filter_data_run (h : Ui.heap) (df : Ui.ref) (filters : Ui.Filters) :
  exists fresh,
    fst (Ui.filter_data df filters h) = h ++ fresh /\
    match selection filters with
    | Ok p =>
      exists out, snd (Ui.filter_data df filters h) = Ok out /\
                  (out < List.length (h ++ fresh))%nat /\
                  Ui.frame (h ++ fresh) out = List.filter p (Ui.frame h df)
    | Raise e => snd (Ui.filter_data df filters h) = Raise e
    end.
Proof.
  destruct (filter_steps_select filters) as (steps & Heq & Hsel).
  rewrite Heq. unfold Ui.bindM, Ui.copy, Ui.alloc.
  destruct (Hsel (h ++ [Ui.frame h df]) (List.length h)) as (fresh & Hh & Hr);
    [rewrite length_app; simpl; lia|].
  exists ([Ui.frame h df] ++ fresh). rewrite app_assoc. split; [exact Hh|].
  destruct (selection filters) as [p|e]; [|exact Hr].
  destruct Hr as (out & E & Hout & Hf). exists out.
  now rewrite Hf, frame_new.
Qed.

(** C9.  Applying [filter_data] to its own result with the same
    configuration returns a frame with the same rows, and no application
    changes a frame that existed before: the heap only grows.  When the
    configuration is invalid (a time bound that is not a time slot) the
    first application already raises. *)
Theorem filter_data_idempotent
        (h : Ui.heap) (df : Ui.ref) (filters : Ui.Filters) :
  exists fresh,
    fst (Ui.filter_data df filters h) = h ++ fresh /\
    match snd (Ui.filter_data df filters h) with
    | Ok once =>
      exists p fresh' twice,
        selection filters = Ok p /\
        Ui.frame (h ++ fresh) once = List.filter p (Ui.frame h df) /\
        fst (Ui.filter_data once filters (h ++ fresh)) = (h ++ fresh) ++ fresh' /\
        snd (Ui.filter_data once filters (h ++ fresh)) = Ok twice /\
        Ui.frame ((h ++ fresh) ++ fresh') twice = Ui.frame (h ++ fresh) once /\
        Ui.frame ((h ++ fresh) ++ fresh') once = Ui.frame (h ++ fresh) once
    | Raise e => selection filters = Raise e
    end.
Proof.
  destruct (filter_data_run h df filters) as (fresh & Hh & Hr).
  exists fresh. split; [exact Hh|].
  destruct (selection filters) as [p|e] eqn:Esel.
  - destruct Hr as (once & -> & Hlt & Hf).
    destruct (filter_data_run (h ++ fresh) once filters) as (fresh' & Hh' & Hr').
    rewrite Esel in Hr'. destruct Hr' as (twice & E2 & _ & Hf2).
    exists p, fresh', twice. repeat split; auto.
    now rewrite Hf2, Hf, filter_twice.
    now apply frame_old.
  - now rewrite Hr.
Qed.

(** ** The order of the time slots, in the pipeline *)

Lemma time_slot_compare_position (i j : nat) (a b : str) :
  nth_error Data.TIME_ORDER i = Some a ->
  nth_error Data.TIME_ORDER j = Some b ->
  time_slot_compare a b = Nat.compare i j.
Proof.
  intros Ha Hb. unfold time_slot_compare, code_compare.
  rewrite (categorical_code_position _ _ Ha), (categorical_code_position _ _ Hb).
  rewrite !na_last_position. apply Nat2Z.inj_compare.
Qed.

Lemma sort_key_compare_group (r1 r2 : Data.Observation) (i j : nat) :
  same_group r1 r2 ->
  Data.time_slot r1 = Z.of_nat i -> Data.time_slot r2 = Z.of_nat j ->
  Data.sort_key_compare r1 r2 = Nat.compare i j.
Proof.
  intros (El & Es & Ed) Ei Ej. unfold Data.sort_key_compare.
  rewrite El, Es, Ed, Ei, Ej. cbn [lex]. unfold code_compare.
  rewrite !na_last_position. apply Nat2Z.inj_compare.
Qed.

Lemma selection_time_range_only (i j : nat) (a b : str) :
  nth_error Data.TIME_ORDER i = Some a ->
  nth_error Data.TIME_ORDER j = Some b ->
  exists p, selection (time_range_only a b) = Ok p /\
            forall r, p r = between_positions i j r.
Proof.
  intros Ha Hb. unfold selection, time_selection, time_range_only.
  cbn [Ui.f_time_range Ui.f_day_type Ui.f_lines Ui.f_stations
       Ui.f_directions Ui.f_congestion_range].
  unfold categorical_cmp_scalar.
  rewrite (get_loc_nth _ _ _ TIME_ORDER_NoDup Ha),
    (get_loc_nth _ _ _ TIME_ORDER_NoDup Hb).
  cbn [bind]. eexists. split; [reflexivity|].
  intros r. unfold when_given, congestion_selection, between_positions.
  cbn [Ui.f_congestion_range andb]. rewrite andb_true_r.
  rewrite Z.geb_leb.
  destruct (Z.eqb_spec (Data.time_slot r) (-1)) as [E|E]; cbn [negb andb].
  - rewrite E. symmetry. apply andb_false_iff. left.
    apply Z.leb_gt. lia.
  - reflexivity.
Qed.

Section TimeOrder.
Context `{NumericText}.

(** C1.  The order the pipeline attaches to [time_slot] is the position
    in [TIME_ORDER].  The reshape stores, for a header that normalises to
    a canonical label, the position of that label; the sort key compares
    two rows of the same line, station and direction by these positions,
    so that in the output such rows follow one another by position; and
    the time range of the filter keeps the rows whose position lies
    between the positions of its two bounds.  It is not the order of the
    strings: "00:30" is greater than "23:30" although the string "00:30"
    is smaller, and "05:30" is below or equal to every canonical
    label. *)
Theorem time_order_by_position :
  (forall (i j : nat) (a b : str),
      nth_error Data.TIME_ORDER i = Some a ->
      nth_error Data.TIME_ORDER j = Some b ->
      time_slot_compare a b = Nat.compare i j /\
      (exists le ge,
          categorical_cmp_scalar Z.leb Data.TIME_ORDER b = Ok le /\
          categorical_cmp_scalar Z.geb Data.TIME_ORDER b = Ok ge /\
          le (categorical_code Data.TIME_ORDER a) = (i <=? j)%nat /\
          ge (categorical_code Data.TIME_ORDER a) = (j <=? i)%nat)) /\
  time_slot_compare (u "00:30") (u "23:30") = Gt /\
  str_compare (u "00:30") (u "23:30") = Lt /\
  time_slot_compare (u "00:30") (u "05:30") = Gt /\
  (forall a : str, In a Data.TIME_ORDER ->
                   time_slot_compare (u "05:30") a <> Gt) /\
  (forall (df : DataFrame) (out : list Data.Observation) (p : nat)
          (row : list cell) (a : str) (i : nat) (q : Q),
      Data.melt_to_long df = Ok out ->
      In p (time_positions df) -> In row (rows df) ->
      Data.format_time_column (label_at df p) = Ok a ->
      nth_error Data.TIME_ORDER i = Some a ->
      to_numeric (cell_at row p) = Some q ->
      exists r, In r out /\ r = observation df row a q /\
                Data.time_slot r = Z.of_nat i /\
                Data.congestion r = Some q) /\
  (forall (r1 r2 : Data.Observation) (i j : nat),
      same_group r1 r2 ->
      Data.time_slot r1 = Z.of_nat i -> Data.time_slot r2 = Z.of_nat j ->
      Data.sort_key_compare r1 r2 = Nat.compare i j) /\
  (forall (df : DataFrame) (out : list Data.Observation) (n m i j : nat)
          (r1 r2 : Data.Observation),
      Data.melt_to_long df = Ok out ->
      (n < m)%nat -> nth_error out n = Some r1 -> nth_error out m = Some r2 ->
      same_group r1 r2 ->
      Data.time_slot r1 = Z.of_nat i -> Data.time_slot r2 = Z.of_nat j ->
      (i <= j)%nat) /\
  (forall (h : Ui.heap) (df : Ui.ref) (i j : nat) (a b : str),
      nth_error Data.TIME_ORDER i = Some a ->
      nth_error Data.TIME_ORDER j = Some b ->
      exists fresh out,
        Ui.filter_data df (time_range_only a b) h = (h ++ fresh, Ok out) /\
        Ui.frame (h ++ fresh) out =
        List.filter (between_positions i j) (Ui.frame h df)).
Proof.
  split; [|split; [reflexivity|split; [reflexivity|split; [reflexivity|
          split; [|split; [|split; [exact sort_key_compare_group|split]]]]]]].
  - intros i j a b Ha Hb. split; [now apply time_slot_compare_position|].
    unfold categorical_cmp_scalar.
    rewrite (get_loc_nth _ _ _ TIME_ORDER_NoDup Hb).
    do 2 eexists. split; [reflexivity|]. split; [reflexivity|].
    rewrite (categorical_code_position _ _ Ha).
    destruct (Z.eqb_spec (Z.of_nat i) (-1)); [lia|]. simpl.
    split.
    + destruct (Nat.leb_spec i j), (Z.leb_spec (Z.of_nat i) (Z.of_nat j));
        try reflexivity; lia.
    + unfold Z.geb. rewrite Nat2Z.inj_compare.
      destruct (Nat.leb_spec j i), (Nat.compare_spec i j);
        try reflexivity; lia.
  - intros a [i Hi]%(In_nth_error Data.TIME_ORDER).
    rewrite (time_slot_compare_position 0%nat i (u "05:30") a eq_refl Hi).
    destruct i; discriminate.
  - intros df out p row a i q Hout Hp Hrow Ea Hi Eq.
    exists (observation df row a q). split; [|split; [reflexivity|split]].
    + apply (Permutation_in _ (Permutation_sym (melt_to_long_perm _ _ Hout))).
      apply in_observations. exists p, row, a, q. auto.
    + cbn [observation Data.time_slot]. now apply categorical_code_position.
    + reflexivity.
  - intros df out n m i j r1 r2 Hout Hnm H1 H2 Hg E1 E2.
    pose proof (StronglySorted_nth _ _ (melt_to_long_stable_sorted _ _ Hout)
                                   n m r1 r2 Hnm H1 H2) as Hle.
    unfold le, leb_of in Hle.
    rewrite (sort_key_compare_group _ _ _ _ Hg E1 E2) in Hle.
    destruct (Nat.compare_spec i j); [lia|lia|discriminate].
  - intros h df i j a b Ha Hb.
    destruct (selection_time_range_only i j a b Ha Hb) as (p & Ep & Hp).
    destruct (filter_data_run h df (time_range_only a b)) as (fresh & Ef & Hr).
    rewrite Ep in Hr. destruct Hr as (out & Eo & _ & Efr).
    exists fresh, out. split.
    + rewrite <- Ef, <- Eo. now destruct (Ui.filter_data _ _ _).
    + rewrite Efr. now apply filter_ext.
Qed.

End TimeOrder.

(** ** Distinct values *)

Lemma cell_eqb_text (c d : cell) :
  text c -> (cell_eqb d c = true <-> d = c).
Proof.
  destruct c as [s| |]; try discriminate. intros _.
  destruct d as [t| |]; simpl; try (split; discriminate).
  rewrite str_eqb_eq. split; congruence.
Qed.

Lemma unique_incl (l : list cell) (v : cell) : In v (unique l) -> In v l.
Proof.
  revert v; induction l as [|c l IH]; simpl; [tauto|].
  intros v [->|Hv%filter_In]; [now left|]. right. apply IH, Hv.
Qed.

Lemma unique_complete (l : list cell) (v : cell) :
  Forall text l -> In v l -> In v (unique l).
Proof.
  induction 1 as [|c l Hc Hl IH]; simpl; [tauto|].
  intros [->|Hv]; [now left|].
  destruct (cell_eqb v c) eqn:E.
  - left. symmetry. now apply (cell_eqb_text c v Hc).
  - right. apply filter_In. split; [now apply IH|]. now rewrite E.
Qed.

Lemma unique_NoDup (l : list cell) : Forall text l -> NoDup (unique l).
Proof.
  induction 1 as [|c l Hc Hl IH]; simpl; constructor.
  - intros [_ Hn]%filter_In.
    rewrite (proj2 (cell_eqb_text c c Hc) eq_refl) in Hn. discriminate.
  - now apply NoDup_filter.
Qed.

Lemma in_dropna (l : list cell) (v : cell) :
  In v (dropna l) <-> In v l /\ isna v = false.
Proof.
  unfold dropna. now rewrite filter_In, negb_true_iff.
Qed.

Lemma keyed_Ok (l : list cell) :
  Forall keyed_label l ->
  exists ks, Data.keyed l = Ok ks /\ List.map snd ks = l /\
             Forall (fun p => Data.line_key (snd p) = Ok (fst p)) ks.
Proof.
  induction 1 as [|c l [k Hk] _ (ks & E & Hm & Hf)]; simpl.
  - exists []. repeat split; constructor.
  - rewrite Hk, E. cbn [bind]. exists ((k, c) :: ks).
    repeat split; [simpl; now rewrite Hm|]. now constructor.
Qed.

Lemma StronglySorted_map {A B : Type} (f : A -> B) (R : B -> B -> Prop)
      (l : list A) :
  StronglySorted (fun a b => R (f a) (f b)) l -> StronglySorted R (List.map f l).
Proof.
  induction 1 as [|a l Hs IH Ha]; simpl; constructor; [exact IH|].
  now apply Forall_map.
Qed.

Lemma forallb_text (l : list cell) : Forall text l -> forallb Data.is_str l = true.
Proof. intros Hl. apply forallb_forall. now apply Forall_forall. Qed.

Lemma line_key_sentinel (s : str) :
  Py.contains Data.LINE s = false -> Data.line_key (Str s) = Ok 999%Z.
Proof. intros E. simpl. now rewrite E. Qed.

Lemma cell_eqb_refl (c : cell) : isna c = false -> cell_eqb c c = true.
Proof.
  destruct c as [s|q|]; simpl; [intros _|intros _|discriminate].
  - apply str_eqb_refl.
  - apply Qeq_bool_iff. reflexivity.
Qed.

Lemma cell_eqb_sym (a b : cell) : cell_eqb a b = cell_eqb b a.
Proof.
  destruct a as [s|x|], b as [t|y|]; simpl; try reflexivity.
  - destruct (str_eqb s t) eqn:E.
    + apply str_eqb_eq in E. subst t. symmetry. apply str_eqb_refl.
    + symmetry. apply str_eqb_neq. apply str_eqb_neq in E. congruence.
  - destruct (Qeq_bool x y) eqn:E.
    + symmetry. apply Qeq_bool_iff. symmetry. now apply Qeq_bool_iff.
    + symmetry. apply not_true_iff_false. intros E'%Qeq_bool_iff.
      apply not_true_iff_false in E. apply E, Qeq_bool_iff. now symmetry.
Qed.

Lemma cell_eqb_trans (a b c : cell) :
  cell_eqb a b = true -> cell_eqb b c = true -> cell_eqb a c = true.
Proof.
  destruct a as [s|x|], b as [t|y|], c as [w|z|]; simpl; try discriminate.
  - intros ->%str_eqb_eq. auto.
  - intros E1%Qeq_bool_iff E2%Qeq_bool_iff. apply Qeq_bool_iff.
    now rewrite E1.
Qed.

Lemma cell_eqb_kind (a b : cell) :
  cell_eqb a b = true ->
  (exists s, a = Str s /\ b = Str s) \/
  (exists x y, a = Num x /\ b = Num y /\ x == y).
Proof.
  destruct a as [s|x|], b as [t|y|]; simpl; try discriminate.
  - intros ->%str_eqb_eq. left. eauto.
  - intros E%Qeq_bool_iff. right. eauto.
Qed.

Lemma dropna_present (l : list cell) : Forall (fun c => isna c = false) (dropna l).
Proof. apply Forall_forall. intros c Hc. now apply in_dropna in Hc. Qed.

Lemma unique_NoDup_present (l : list cell) :
  Forall (fun c => isna c = false) l -> NoDup (unique l).
Proof.
  induction 1 as [|c l Hc Hl IH]; simpl; constructor.
  - intros [_ Hn]%filter_In. rewrite (cell_eqb_refl _ Hc) in Hn. discriminate.
  - now apply NoDup_filter.
Qed.

(** No two values of [unique] are equal. *)
Lemma unique_distinct (l : list cell) (v w : cell) :
  In v (unique l) -> In w (unique l) -> cell_eqb v w = true -> v = w.
Proof.
  revert v w; induction l as [|c l IH]; simpl; [tauto|].
  intros v w [<-|Hv%filter_In] [<-|Hw%filter_In] E.
  - reflexivity.
  - destruct Hw as [_ Hw]. rewrite cell_eqb_sym, E in Hw. discriminate.
  - destruct Hv as [_ Hv]. rewrite E in Hv. discriminate.
  - apply IH; tauto.
Qed.

(** Every value has an equal one in [unique]. *)
Lemma unique_represents (l : list cell) (v : cell) :
  Forall (fun c => isna c = false) l -> In v l ->
  exists w, In w (unique l) /\ cell_eqb w v = true.
Proof.
  induction 1 as [|c l Hc Hl IH]; simpl; [tauto|].
  intros [->|Hv].
  - exists v. split; [now left|now apply cell_eqb_refl].
  - destruct (IH Hv) as (w & Hw & E).
    destruct (cell_eqb w c) eqn:Ec.
    + exists c. split; [now left|].
      apply cell_eqb_trans with w; [now rewrite cell_eqb_sym|exact E].
    + exists w. split; [|exact E]. right. apply filter_In. now rewrite Ec.
Qed.

Lemma keyed_inv (l : list cell) (ks : list (Z * cell)) :
  Data.keyed l = Ok ks ->
  List.map snd ks = l /\
  Forall (fun p => Data.line_key (snd p) = Ok (fst p)) ks.
Proof.
  revert ks; induction l as [|c l IH]; simpl; intros ks.
  - intros [= <-]. split; constructor.
  - destruct (Data.line_key c) as [k|e] eqn:Ek; [|discriminate]. cbn [bind].
    destruct (Data.keyed l) as [ks'|e]; [|discriminate]. cbn [bind].
    intros [= <-]. destruct (IH ks' eq_refl) as [Hm Hf].
    split; [simpl; now rewrite Hm|]. now constructor.
Qed.

Lemma keyed_Raise (l : list cell) (e : exn) :
  Data.keyed l = Raise e -> exists v, In v l /\ Data.line_key v = Raise e.
Proof.
  induction l as [|c l IH]; simpl; [discriminate|].
  destruct (Data.line_key c) as [k|e'] eqn:Ek; cbn [bind].
  - destruct (Data.keyed l) as [ks'|e']; cbn [bind]; [discriminate|].
    intros [= <-]. destruct (IH eq_refl) as (v & Hv & E). eauto.
  - intros [= <-]. eauto.
Qed.

Lemma keyed_unkeyed (l : list cell) (v : cell) :
  In v l -> ~ keyed_label v -> exists e, Data.keyed l = Raise e.
Proof.
  induction l as [|c l IH]; simpl; [tauto|].
  intros Hv Hk. destruct (Data.line_key c) as [k|e] eqn:Ek; cbn [bind]; [|eauto].
  destruct Hv as [->|Hv]; [exfalso; apply Hk; now exists k|].
  destruct (IH Hv Hk) as [e ->]. cbn [bind]. eauto.
Qed.

Lemma line_key_eqb (v w : cell) :
  cell_eqb w v = true -> Data.line_key w = Data.line_key v.
Proof.
  intros [(s & -> & ->)|(x & y & -> & -> & _)]%cell_eqb_kind; reflexivity.
Qed.

(** [sorted] raises exactly on a list that holds a text and a number. *)
Lemma sorted_cases (l : list cell) :
  Forall (fun c => isna c = false) l ->
  (Forall text l \/ Forall number l) /\
  Data.sorted l = Ok (stable_sort cell_compare l) \/
  (exists s q, In (Str s) l /\ In (Num q) l) /\
  Data.sorted l = Raise TypeError.
Proof.
  intros Hp. unfold Data.sorted.
  destruct (forallb Data.is_str l) eqn:Es.
  { left. split; [|reflexivity]. left. apply Forall_forall.
    rewrite forallb_forall in Es. exact Es. }
  destruct (forallb Data.is_num l) eqn:En.
  { left. split; [|reflexivity]. right. apply Forall_forall.
    rewrite forallb_forall in En. exact En. }
  right. split; [|reflexivity].
  assert (forall (p : cell -> bool),
             forallb p l = false -> exists c, In c l /\ p c = false) as Hex.
  { intros p. clear. induction l as [|c l IH]; simpl; [discriminate|].
    destruct (p c) eqn:E; simpl.
    - intros (c' & Hc' & E')%IH. eauto.
    - intros _. eauto. }
  destruct (Hex _ Es) as (a & Ha & Na). destruct (Hex _ En) as (b & Hb & Nb).
  rewrite Forall_forall in Hp.
  pose proof (Hp a Ha) as Pa. pose proof (Hp b Hb) as Pb.
  destruct a as [s|q|]; try discriminate.
  destruct b as [t|y|]; try discriminate.
  exists t, q. auto.
Qed.

Lemma stable_sort_text (l : list cell) :
  Forall text l -> StronglySorted text_le (stable_sort cell_compare l).
Proof.
  intros Ht.
  apply (StronglySorted_on text (le cell_compare)).
  - intros [s| |] [t| |]; try discriminate. intros _ _ Hle.
    exists s, t. repeat split. unfold le, leb_of in Hle. simpl in Hle.
    intros E. now rewrite E in Hle.
  - eapply Permutation_Forall; [symmetry; apply stable_sort_perm|exact Ht].
  - apply stable_sort_sorted. apply WeakOrder_cell.
Qed.

Lemma stable_sort_number (l : list cell) :
  Forall number l -> StronglySorted num_le (stable_sort cell_compare l).
Proof.
  intros Hn.
  apply (StronglySorted_on number (le cell_compare)).
  - intros [|x|] [|y|]; try discriminate. intros _ _ Hle.
    exists x, y. repeat split. unfold le, leb_of in Hle. simpl in Hle.
    apply Qnot_lt_le. intros Hlt%Qgt_alt. now rewrite Hlt in Hle.
  - eapply Permutation_Forall; [symmetry; apply stable_sort_perm|exact Hn].
  - apply stable_sort_sorted. apply WeakOrder_cell.
Qed.

Lemma stable_sort_keys (ks : list (Z * cell)) :
  Forall (fun p => Data.line_key (snd p) = Ok (fst p)) ks ->
  StronglySorted line_le
    (List.map snd (stable_sort (fun a b => (fst a ?= fst b)%Z) ks)).
Proof.
  intros Hf.
  set (cmp := fun a b : Z * cell => (fst a ?= fst b)%Z).
  assert (WeakOrder cmp) as Hwo by apply (WeakOrder_key fst Z.compare).
  apply StronglySorted_map.
  apply (StronglySorted_on
           (fun p => Data.line_key (snd p) = Ok (fst p)) (le cmp)).
  - intros a b Ha Hb Hle. exists (fst a), (fst b).
    split; [exact Ha|]. split; [exact Hb|].
    unfold le, leb_of, cmp in Hle.
    destruct (Z.compare_spec (fst a) (fst b)); [lia|lia|discriminate].
  - eapply Permutation_Forall; [symmetry; apply stable_sort_perm|exact Hf].
  - now apply stable_sort_sorted.
Qed.

(** What [get_unique_values] returns is a rearrangement of the distinct
    values that are present. *)
Lemma get_unique_values_perm (df : list Data.Observation) (name : str)
      (col : Data.Observation -> cell) (res : list cell) :
  Data.column name = Some col ->
  Data.get_unique_values df name = Ok res ->
  Permutation res (unique (dropna (List.map col df))).
Proof.
  intros Ecol. unfold Data.get_unique_values. rewrite Ecol.
  destruct (str_eqb name (u "line")).
  - destruct (Data.keyed _) as [ks|e] eqn:Ek; [|discriminate]. cbn [bind].
    intros [= <-]. destruct (keyed_inv _ _ Ek) as [Hm _].
    rewrite <- Hm. apply Permutation_map.
    apply stable_sort_perm.
  - unfold Data.sorted. destruct (_ || _); [|discriminate].
    intros [= <-]. apply stable_sort_perm.
Qed.

(** C8, as the code has it.  [get_unique_values] returns the distinct
    values of the column that are present, or raises.  For the column
    line every label must have a key: a label with 호선 must read as an
    integer once 호선 is removed (or the call raises the [ValueError] of
    [int]), and a value that is no text raises [TypeError].  The result is
    in the order of the keys, where a label without 호선 has the key 999:
    it follows every line numbered below 999 and precedes every line
    numbered above.  For another column the result is in code-point order
    when the values are texts and in numeric order when they are numbers;
    a column that holds both raises [TypeError].  A name that is not a
    column gives the empty list, and the labels 10호선, 2호선, 1호선 come
    out as 1호선, 2호선, 10호선. *)
Theorem get_unique_values_sorted :
  (forall (df : list Data.Observation) (name : str)
          (col : Data.Observation -> cell) (res : list cell),
      Data.column name = Some col ->
      Data.get_unique_values df name = Ok res ->
      NoDup res /\
      (forall v w, In v res -> In w res -> cell_eqb v w = true -> v = w) /\
      (forall v, In v res -> In v (List.map col df) /\ isna v = false) /\
      (forall v, In v (List.map col df) -> isna v = false ->
                 exists w, In w res /\ cell_eqb w v = true) /\
      (forall v, text v ->
                 (In v res <-> In v (List.map col df) /\ isna v = false)) /\
      (name = u "line" -> StronglySorted line_le res) /\
      (name <> u "line" ->
       (Forall text res /\ StronglySorted text_le res) \/
       (Forall number res /\ StronglySorted num_le res))) /\
  (forall (df : list Data.Observation) (name : str)
          (col : Data.Observation -> cell),
      Data.column name = Some col -> name <> u "line" ->
      ((Forall text (dropna (List.map col df)) \/
        Forall number (dropna (List.map col df))) ->
       exists res, Data.get_unique_values df name = Ok res) /\
      (forall e, Data.get_unique_values df name = Raise e <->
                 e = TypeError /\
                 exists s q, In (Str s) (List.map col df) /\
                             In (Num q) (List.map col df))) /\
  (forall (df : list Data.Observation),
      (Forall keyed_label (dropna (List.map (fun r => Data.line r) df)) ->
       exists res, Data.get_unique_values df (u "line") = Ok res) /\
      (forall e, Data.get_unique_values df (u "line") = Raise e ->
                 exists v, In v (List.map (fun r => Data.line r) df) /\
                           isna v = false /\ Data.line_key v = Raise e) /\
      (forall v, In v (List.map (fun r => Data.line r) df) ->
                 isna v = false -> ~ keyed_label v ->
                 exists e, Data.get_unique_values df (u "line") = Raise e)) /\
  (forall s, Py.contains Data.LINE s = false ->
             Data.line_key (Str s) = Ok 999%Z) /\
  (forall s, Py.contains Data.LINE s = true ->
             Data.line_key (Str s) = Py.int (Py.replace Data.LINE [] s)) /\
  (forall q, Data.line_key (Num q) = Raise TypeError) /\
  (forall df name, Data.column name = None ->
                   Data.get_unique_values df name = Ok []) /\
  Data.get_unique_values (line_rows ["10호선"; "2호선"; "1호선"]%string)
                         (u "line") =
  Ok [Str (u "1호선"); Str (u "2호선"); Str (u "10호선")].
Proof.
  split; [|split; [|split; [|split; [exact line_key_sentinel|
                                     split; [|split; [reflexivity|
                                                      split; [|reflexivity]]]]]]].
  - intros df name col res Ecol Eres.
    pose proof (get_unique_values_perm _ _ _ _ Ecol Eres) as Hperm.
    set (vals := dropna (List.map col df)) in *.
    pose proof (dropna_present (List.map col df)) as Hp. fold vals in Hp.
    assert (forall v, In v res <-> In v (unique vals)) as Hin.
    { intros v. split; apply Permutation_in; [exact Hperm|now symmetry]. }
    split; [|split; [|split; [|split; [|split; [|split]]]]].
    + eapply Permutation_NoDup; [symmetry; exact Hperm|].
      now apply unique_NoDup_present.
    + intros v w Hv%Hin Hw%Hin. now apply (unique_distinct vals).
    + intros v Hv%Hin%unique_incl. now apply in_dropna.
    + intros v Hv Hn.
      destruct (unique_represents vals v Hp) as (w & Hw & E);
        [now apply in_dropna|].
      exists w. split; [now apply Hin|exact E].
    + intros v Hv. rewrite Hin, <- in_dropna. fold vals. split.
      * apply unique_incl.
      * intros Hin'. destruct (unique_represents vals v Hp Hin') as (w & Hw & E).
        apply (cell_eqb_text v w Hv) in E. now subst w.
    + intros ->. unfold Data.get_unique_values in Eres. rewrite Ecol in Eres.
      cbn [str_eqb] in Eres. rewrite (str_eqb_refl (u "line")) in Eres.
      fold vals in Eres.
      destruct (Data.keyed (unique vals)) as [ks|e] eqn:Ek; [|discriminate].
      cbn [bind] in Eres. injection Eres as <-.
      apply stable_sort_keys. now apply keyed_inv in Ek.
    + intros Hn. unfold Data.get_unique_values in Eres. rewrite Ecol in Eres.
      apply str_eqb_neq in Hn. rewrite Hn in Eres. fold vals in Eres.
      assert (Forall (fun c => isna c = false) (unique vals)) as Hpu.
      { apply Forall_forall. intros v Hv%unique_incl.
        rewrite Forall_forall in Hp. auto. }
      destruct (sorted_cases _ Hpu) as [[Hk E]|[_ E]];
        rewrite E in Eres; [|discriminate].
      injection Eres as <-.
      destruct Hk as [Hk|Hk]; [left|right]; split.
      * eapply Permutation_Forall; [symmetry; apply stable_sort_perm|exact Hk].
      * now apply stable_sort_text.
      * eapply Permutation_Forall; [symmetry; apply stable_sort_perm|exact Hk].
      * now apply stable_sort_number.
  - intros df name col Ecol Hn.
    unfold Data.get_unique_values. rewrite Ecol.
    apply str_eqb_neq in Hn. rewrite Hn.
    set (vals := dropna (List.map col df)).
    pose proof (dropna_present (List.map col df)) as Hp. fold vals in Hp.
    assert (Forall (fun c => isna c = false) (unique vals)) as Hpu.
    { apply Forall_forall. intros v Hv%unique_incl.
      rewrite Forall_forall in Hp. auto. }
    assert (forall P : cell -> Prop, Forall P vals -> Forall P (unique vals))
      as Hsub.
    { intros P HP. apply Forall_forall. intros v Hv%unique_incl.
      rewrite Forall_forall in HP. auto. }
    destruct (sorted_cases _ Hpu) as [[Hk E]|[(s & q & Hs & Hq) E]];
      rewrite E.
    + split; [eauto|]. intros e. split; [discriminate|].
      intros (_ & s & q & Hs & Hq). exfalso.
      assert (In (Str s) vals) as Hs' by now apply in_dropna.
      assert (In (Num q) vals) as Hq' by now apply in_dropna.
      destruct (unique_represents vals _ Hp Hs') as (a & Ha & Ea).
      destruct (unique_represents vals _ Hp Hq') as (b & Hb & Eb).
      destruct a as [s'| |]; try discriminate.
      destruct b as [|q'|]; try discriminate.
      destruct Hk as [Hk|Hk]; rewrite Forall_forall in Hk.
      * now specialize (Hk _ Hb).
      * now specialize (Hk _ Ha).
    + split.
      * intros [Hk|Hk]; apply Hsub in Hk; rewrite Forall_forall in Hk.
        -- now specialize (Hk _ Hq).
        -- now specialize (Hk _ Hs).
      * intros e. split.
        -- intros [= <-]. split; [reflexivity|].
           apply unique_incl, in_dropna in Hs. apply unique_incl, in_dropna in Hq.
           exists s, q. tauto.
        -- now intros [-> _].
  - intros df. unfold Data.get_unique_values.
    change (Data.column (u "line")) with (Some (fun r : Data.Observation => Data.line r)).
    cbv beta iota. rewrite (str_eqb_refl (u "line")).
    unfold Data.Observation in *.
    set (vals := dropna (List.map (fun r : Data.LongRow Z float64 => Data.line r)
                                  df)).
    pose proof (dropna_present
                  (List.map (fun r : Data.LongRow Z float64 => Data.line r) df))
      as Hp.
    fold vals in Hp.
    split; [|split].
    + intros Hk.
      assert (Forall keyed_label (unique vals)) as Hku.
      { apply Forall_forall. intros v Hv%unique_incl.
        rewrite Forall_forall in Hk. auto. }
      destruct (keyed_Ok _ Hku) as (ks & -> & _). cbn [bind]. eauto.
    + intros e. destruct (Data.keyed (unique vals)) as [ks|e'] eqn:Ek;
        cbn [bind]; [discriminate|].
      intros [= <-]. apply keyed_Raise in Ek as (v & Hv & E).
      apply unique_incl, in_dropna in Hv. exists v. tauto.
    + intros v Hv Hn Hk.
      assert (In v vals) as Hv' by now apply in_dropna.
      destruct (unique_represents vals v Hp Hv') as (w & Hw & E).
      destruct (keyed_unkeyed (unique vals) w Hw) as [e ->]; [|cbn [bind]; eauto].
      intros [k Ek]. apply Hk. exists k. now rewrite <- (line_key_eqb _ _ E).
  - intros s E. simpl. now rewrite E.
  - intros df name E. unfold Data.get_unique_values. now rewrite E.
Qed.

(** ** Runs on concrete tables *)

Lemma time_order_by_position_witness :
  nth_error Data.TIME_ORDER 37 = Some (u "00:00") /\
  nth_error Data.TIME_ORDER 14 = Some (u "12:30") /\
  time_slot_compare (u "00:00") (u "12:30") = Nat.compare 37 14 /\
  exists fresh out,
    Ui.filter_data 0%nat (time_range_only (u "12:30") (u "00:00")) [Demo.long] =
    ([Demo.long] ++ fresh, Ok out) /\
    List.length (Ui.frame ([Demo.long] ++ fresh) out) = 2%nat.
Proof.
  split; [reflexivity|]. split; [reflexivity|]. split.
  - apply (proj1 time_order_by_position 37%nat 14%nat); reflexivity.
  - destruct (proj2 (proj2 (proj2 (proj2 (proj2 (proj2 (proj2 (proj2
                time_order_by_position)))))))
                [Demo.long] 0%nat 14%nat 37%nat (u "12:30") (u "00:00")
                eq_refl eq_refl) as (fresh & out & E & Ef).
    exists fresh, out. split; [exact E|]. rewrite Ef. reflexivity.
Defined.

Lemma melt_to_long_congestion_present_witness :
  exists df_clean,
    Data.clean_data Demo.wide = Ok df_clean /\
    Data.melt_to_long df_clean = Ok Demo.long /\
    Forall (fun r => exists q, Data.congestion r = Some q) Demo.long /\
    List.length Demo.long = 4%nat.
Proof.
  exists (cleaned Demo.wide).
  assert (Data.melt_to_long (cleaned Demo.wide) = Ok Demo.long) as E
      by (vm_compute; reflexivity).
  split; [vm_compute; reflexivity|].
  split; [exact E|]. split; [|reflexivity].
  exact (proj1 (melt_to_long_congestion_present _ _ E)).
Defined.

Lemma melt_to_long_sorted_witness :
  exists df_clean,
    Data.clean_data Demo.wide = Ok df_clean /\
    Data.melt_to_long df_clean = Ok Demo.long /\
    StronglySorted key_le Demo.long.
Proof.
  exists (cleaned Demo.wide).
  assert (Data.clean_data Demo.wide = Ok (cleaned Demo.wide)) as Ec
      by (vm_compute; reflexivity).
  assert (Data.melt_to_long (cleaned Demo.wide) = Ok Demo.long) as E
      by (vm_compute; reflexivity).
  split; [exact Ec|]. split; [exact E|].
  exact (proj1 (melt_to_long_sorted _ _ _ Ec E)).
Defined.

Lemma melt_to_long_time_slot_domain_witness :
  exists r,
    Data.melt_to_long Demo.odd_header = Ok [r] /\
    In 5%nat (time_positions Demo.odd_header) /\
    Data.format_time_column (label_at Demo.odd_header 5) = Ok (u "01:00") /\
    ~ In (u "01:00") Data.TIME_ORDER /\
    Data.congestion r = Some 7 /\
    categorical_value Data.TIME_ORDER (Data.time_slot r) = NaN.
Proof.
  assert (Data.melt_to_long Demo.odd_header =
          Ok [observation Demo.odd_header
                          [Str (u "평일"); Str (u "2호선"); Num 222;
                           Str (u "강남"); Str (u "상선"); Num 7]
                          (u "01:00") 7]) as E
      by (vm_compute; reflexivity).
  assert (In 5%nat (time_positions Demo.odd_header)) as Hp
      by (vm_compute; now left).
  assert (~ In (u "01:00") Data.TIME_ORDER) as Hn.
  { apply get_loc_None. reflexivity. }
  destruct (proj2 (melt_to_long_time_slot_domain _ _ E)
                  5%nat
                  [Str (u "평일"); Str (u "2호선"); Num 222;
                   Str (u "강남"); Str (u "상선"); Num 7]
                  (u "01:00") 7 Hp (or_introl eq_refl) eq_refl Hn eq_refl)
    as (r & _ & -> & Hc & _ & Hv).
  eexists. split; [exact E|]. split; [exact Hp|].
  split; [reflexivity|]. split; [exact Hn|]. split; [exact Hc|exact Hv].
Defined.

(** The header 1시00분 normalises to 01:00, which is not a time slot;
    its row is kept, with a missing [time_slot]. *)
Lemma time_slot_domain_counterexample :
  exists r,
    (df_clean <- Data.clean_data Demo.odd_header ;;
     Data.melt_to_long df_clean) = Ok [r] /\
    Data.format_time_column (u "1시00분") = Ok (u "01:00") /\
    categorical_value Data.TIME_ORDER (Data.time_slot r) = NaN /\
    forall l, In l Data.TIME_ORDER ->
              categorical_value Data.TIME_ORDER (Data.time_slot r) <> Str l.
Proof.
  eexists. split; [vm_compute; reflexivity|].
  split; [reflexivity|]. split; [reflexivity|].
  intros l _. discriminate.
Qed.



(** The two other failures of the reshape: a table whose line label
    stands on two columns, and a table whose time-slot header has 4301
    digits. *)
Example melt_to_long_label_twice :
  Data.melt_to_long (stripped Demo.colliding_headers) = Raise AttributeError.
Proof. vm_compute. reflexivity. Qed.

Example melt_to_long_long_digit_run :
  Data.melt_to_long Demo.long_header = Raise (Py.exceeds_limit 4301).
Proof. vm_compute. reflexivity. Qed.

(** [clean_data] on headers that are equal once stripped: it raises for
    an identifying label, and keeps both columns of a time slot, which
    the reshape then both turns into rows. *)
Example clean_data_colliding_headers :
  Data.clean_data Demo.colliding_headers = Raise AttributeError.
Proof. vm_compute. reflexivity. Qed.

Example melt_to_long_colliding_time_headers :
  option_map (List.map (fun r => Data.congestion r))
    match df_clean <- Data.clean_data Demo.colliding_time_headers ;;
          Data.melt_to_long df_clean with
    | Ok out => Some out
    | Raise _ => None
    end =
  Some [Some 1; Some 2].
Proof. vm_compute. reflexivity. Qed.

Lemma load_raw_data_encodings_witness :
  Data.encodings = [u "cp949"; u "euc-kr"; u "utf-8-sig"] ++ u "utf-8" :: [] /\
  Forall (decode_error (Demo.utf8_only (u "a.csv")))
         [u "cp949"; u "euc-kr"; u "utf-8-sig"] /\
  Data.load_raw_data Demo.utf8_only (u "a.csv") =
  (List.map Data.ReadCsv Data.encodings, Data.Returned Demo.wide).
Proof.
  assert (Forall (decode_error (Demo.utf8_only (u "a.csv")))
                 [u "cp949"; u "euc-kr"; u "utf-8-sig"]) as Hb
      by (repeat constructor).
  split; [reflexivity|]. split; [exact Hb|].
  exact (proj1 (proj2 (load_raw_data_encodings Demo.utf8_only (u "a.csv")))
               [u "cp949"; u "euc-kr"; u "utf-8-sig"] (u "utf-8") []
               Demo.wide eq_refl Hb eq_refl).
Defined.

Lemma get_unique_values_sorted_witness :
  exists res,
    Data.get_unique_values (line_rows ["공항철도"; "2호선"; "2호선"]%string)
                           (u "line") = Ok res /\
    res = [Str (u "2호선"); Str (u "공항철도")] /\
    StronglySorted line_le res.
Proof.
  assert (Data.get_unique_values
            (line_rows ["공항철도"; "2호선"; "2호선"]%string) (u "line") =
          Ok [Str (u "2호선"); Str (u "공항철도")]) as E
      by (vm_compute; reflexivity).
  eexists. split; [exact E|]. split; [reflexivity|].
  exact (proj1 (proj2 (proj2 (proj2 (proj2 (proj2
           (proj1 get_unique_values_sorted
                  (line_rows ["공항철도"; "2호선"; "2호선"]%string) (u "line")
                  (fun r => Data.line r) _ eq_refl E)))))) eq_refl).
Defined.

(** With a line numbered above the sentinel 999, the label without a
    number comes first, not last. *)
Lemma line_sentinel_counterexample :
  Data.get_unique_values (line_rows ["1000호선"; "공항철도"]%string)
                         (u "line") =
  Ok [Str (u "공항철도"); Str (u "1000호선")].
Proof. vm_compute. reflexivity. Qed.

(** A label with 호선 that is not a number makes the call raise, and so
    does one in which a separator that [int] does not skip follows the
    number. *)
Example line_key_not_a_number :
  Data.get_unique_values (line_rows ["2호선 지선"; "1호선"]%string)
                         (u "line") =
  Raise Py.invalid_literal.
Proof. vm_compute. reflexivity. Qed.

Example line_key_separator :
  Data.line_key (Str ([50; 28] ++ Data.LINE)%N) = Raise Py.invalid_literal /\
  Data.line_key (Str ([50; 32] ++ Data.LINE)%N) = Ok 2%Z.
Proof. split; vm_compute; reflexivity. Qed.

Lemma clean_data_missing_text_is_nan_witness :
  nth_error (rows Demo.wide) 1 =
  Some [NaN; Str (u "1호선"); Str (u "x"); Str (u "서울역");
        Str (u "하선"); Str (u "12.5"); NaN; Num 3] /\
  exists df_clean row',
    Data.clean_data Demo.wide = Ok df_clean /\
    nth_error (rows df_clean) 1 = Some row' /\
    get df_clean Data.DAY_TYPE row' = Str (u "nan").
Proof.
  split; [reflexivity|].
  assert (Data.clean_data Demo.wide = Ok (cleaned Demo.wide)) as Ec
      by (vm_compute; reflexivity).
  destruct (clean_data_missing_text_is_nan
              Demo.wide (cleaned Demo.wide) Data.DAY_TYPE 0 1
              [NaN; Str (u "1호선"); Str (u "x"); Str (u "서울역");
               Str (u "하선"); Str (u "12.5"); NaN; Num 3] Ec)
    as (row' & Hi & Hg & _);
    [now left|reflexivity|reflexivity|reflexivity|].
  exists (cleaned Demo.wide), row'. now split.
Defined.

(** The filter on the demonstration table: weekday rows of line 2 between
    05:30 and 23:30. *)
Example filter_data_run_example :
  let filters :=
      {| Ui.f_day_type := Some (u "평일"); Ui.f_lines := Some [u "2호선"];
         Ui.f_stations := Some []; Ui.f_directions := None;
         Ui.f_time_range := Some (u "05:30", u "23:30");
         Ui.f_congestion_range := Some (0, 200) |} in
  let (h1, r1) := Ui.filter_data 0%nat filters [Demo.long] in
  Ui.frame h1 0%nat = Demo.long /\
  match r1 with
  | Ok out => List.length (Ui.frame h1 out) = 2%nat
  | Raise _ => False
  end.
Proof. vm_compute. split; reflexivity. Qed.


(* ================================================================== *)
(** * Part III: further properties of the code                         *)
(* ================================================================== *)

(** ** Header normalisation, continued *)

Lemma uint_chars_ascii (d : Decimal.uint) : Forall ascii_char (Py.uint_chars d).
Proof.
  induction d; simpl; constructor; auto; unfold ascii_char; lia.
Qed.

Lemma uint_chars_digits (d : Decimal.uint) : Forall digit (Py.uint_chars d).
Proof.
  induction d; simpl; constructor; auto; reflexivity.
Qed.

Lemma format_02d_ascii (z : Z) : Forall ascii_char (Py.format_02d z).
Proof.
  unfold Py.format_02d. rewrite !Forall_app. repeat split.
  - destruct (z <? 0)%Z; repeat constructor.
  - apply Forall_forall. intros c ->%repeat_spec. reflexivity.
  - apply uint_chars_ascii.
Qed.

Lemma search_needs_SI (s : str) (g : str * str) :
  Py.search s = Some g -> In SI s.
Proof.
  destruct g as [h m]. intros (pre & post & -> & _)%search_sound.
  rewrite !in_app_iff. right. right. now left.
Qed.

Lemma format_time_column_without_SI (s : str) :
  ~ In SI s -> Data.format_time_column s = Ok s.
Proof.
  intros Hn. apply format_time_column_no_match.
  destruct (Py.search s) as [[g1 g2]|] eqn:E; [|reflexivity].
  exfalso. eapply Hn, search_needs_SI, E.
Qed.

Lemma ascii_not_SI (s : str) : Forall ascii_char s -> ~ In SI s.
Proof.
  intros Hs Hin. rewrite Forall_forall in Hs. apply Hs in Hin.
  unfold ascii_char in Hin. vm_compute in Hin. discriminate.
Qed.

Lemma contains_char_In (c : char) (s : str) :
  Py.contains [c] s = true -> In c s.
Proof.
  induction s as [|x t IH]; [discriminate|].
  cbn [Py.contains Py.starts_with].
  intros [Hx|Ht]%orb_prop.
  - apply andb_prop in Hx as [Hx%N.eqb_eq _]. now left.
  - right. now apply IH.
Qed.

Lemma format_time_column_ascii (s t : str) (g : str * str) :
  Py.search s = Some g -> Data.format_time_column s = Ok t ->
  Forall ascii_char t.
Proof.
  destruct g as [g1 g2]. intros E Et.
  destruct (format_time_column_match _ _ _ E) as (hr & mi & _ & _ & Ef).
  rewrite Ef in Et.
  destruct (_ <? _)%nat; [discriminate|].
  destruct (_ <? _)%nat; [discriminate|]. injection Et as <-.
  rewrite !Forall_app.
  split; [apply format_02d_ascii|].
  constructor; [reflexivity|apply format_02d_ascii].
Qed.

(** X1.  Normalising a label that [format_time_column] returned gives
    the same label again, and does not raise: a normalised label holds
    digits and a colon only, and any text without 시 is left as it is. *)
Theorem format_time_column_idempotent :
  (forall s t : str,
      Data.format_time_column s = Ok t ->
      Data.format_time_column t = Ok t) /\
  (forall (s t : str) (g : str * str),
      Py.search s = Some g ->
      Data.format_time_column s = Ok t ->
      Forall ascii_char t /\ Data.is_time_col t = false).
Proof.
  split.
  - intros s t Et. destruct (Py.search s) as [g|] eqn:E.
    + apply format_time_column_without_SI, ascii_not_SI.
      eapply format_time_column_ascii; eassumption.
    + rewrite (format_time_column_no_match _ E) in Et. injection Et as <-.
      now apply format_time_column_no_match.
  - intros s t g E Et.
    pose proof (format_time_column_ascii _ _ _ E Et) as Ha.
    split; [exact Ha|].
    unfold Data.is_time_col.
    destruct (Py.contains [SI] t) eqn:Ec; [|reflexivity].
    exfalso. apply (ascii_not_SI _ Ha). now apply contains_char_In.
Qed.

Lemma digits_value_uint_acc (d : Decimal.uint) (acc : positive) :
  Py.digits_value (Npos acc) (Py.uint_chars d) =
  Some (Npos (Pos.of_uint_acc d acc)).
Proof.
  revert acc; induction d; intros acc; simpl Py.uint_chars;
    [reflexivity|..];
    cbn [Py.digits_value];
    match goal with
    | |- context [digit_value ?c] =>
      let v := eval vm_compute in (digit_value c) in
      change (digit_value c) with v
    end;
    cbv beta iota; cbn [Pos.of_uint_acc]; rewrite <- IHd; f_equal; lia.
Qed.

Lemma digits_value_uint (d : Decimal.uint) :
  Py.digits_value 0 (Py.uint_chars d) = Some (Pos.of_uint d).
Proof.
  induction d; simpl Py.uint_chars; [reflexivity|..];
    cbn [Py.digits_value];
    match goal with
    | |- context [digit_value ?c] =>
      let v := eval vm_compute in (digit_value c) in
      change (digit_value c) with v
    end;
    cbv beta iota; simpl Pos.of_uint;
    [exact IHd|..]; apply digits_value_uint_acc.
Qed.

Lemma str_of_N_value (n : N) : Py.digits_value 0 (Py.str_of_N n) = Some n.
Proof.
  unfold Py.str_of_N. rewrite digits_value_uint.
  f_equal. apply DecimalN.Unsigned.of_to.
Qed.

Lemma str_of_N_nonempty (n : N) : Py.str_of_N n <> [].
Proof.
  unfold Py.str_of_N.
  assert (N.to_uint n <> Decimal.Nil) as Hn.
  { destruct n as [|p]; [discriminate|].
    apply DecimalPos.Unsigned.to_uint_nonnil. }
  destruct (N.to_uint n); simpl; congruence.
Qed.

Lemma digits_value_zeros (k : nat) (s : str) :
  Py.digits_value 0 (List.repeat ZERO k ++ s) = Py.digits_value 0 s.
Proof. induction k as [|k IH]; [reflexivity|exact IH]. Qed.

Lemma format_02d_value (n : N) :
  Forall digit (Py.format_02d (Z.of_N n)) /\
  Py.format_02d (Z.of_N n) <> [] /\
  Py.digits_value 0 (Py.format_02d (Z.of_N n)) = Some n.
Proof.
  unfold Py.format_02d.
  destruct (Z.ltb_spec (Z.of_N n) 0) as [Hneg|_]; [lia|].
  rewrite Zabs2N.id. cbn [app List.length].
  split; [|split].
  - apply Forall_app. split; [|apply uint_chars_digits].
    apply Forall_forall. intros c ->%repeat_spec. reflexivity.
  - intros E%app_eq_nil. now apply (str_of_N_nonempty n).
  - rewrite digits_value_zeros. apply str_of_N_value.
Qed.

Lemma format_02d_length (n : N) :
  List.length (Py.format_02d (Z.of_N n)) =
  Nat.max 2 (List.length (Py.str_of_N n)).
Proof.
  unfold Py.format_02d.
  destruct (Z.ltb_spec (Z.of_N n) 0) as [Hneg|_]; [lia|].
  rewrite Zabs2N.id. cbn [app List.length].
  rewrite length_app, repeat_length. lia.
Qed.

Lemma format_time_column_digits (h m : str) (hour minute : N) :
  Forall digit h -> Forall digit m -> h <> [] -> m <> [] ->
  Py.digits_value 0 h = Some hour -> Py.digits_value 0 m = Some minute ->
  (List.length h <= 4300)%nat -> (List.length m <= 4300)%nat ->
  Data.format_time_column (h ++ SI :: m ++ [BUN]) = Ok (hh_mm hour minute).
Proof.
  intros Dh Dm Hh Hm Eh Em Lh Lm.
  pose proof (search_after_nondigits [] h m [] (Forall_nil _) Hh Hm Dh Dm) as E.
  simpl in E.
  destruct (format_time_column_cases _ _ _ E) as (hr & mi & Eh' & Em' & Ef & _).
  rewrite (Ef Lh Lm). congruence.
Qed.

(** X2.  An hour and a minute of at most 4300 digits survive the
    normalisation, whether the header writes them plainly ("5시30분") or
    zero-padded ("05시30분"): both headers become the two numbers,
    zero-padded to two digits, around a colon.  In particular [int] reads
    back what [str] printed; beyond 4300 digits it raises. *)
Theorem format_time_column_round_trip (hour minute : N) :
  (List.length (Py.str_of_N hour) <= 4300)%nat ->
  (List.length (Py.str_of_N minute) <= 4300)%nat ->
  Data.format_time_column
    (Py.str_of_N hour ++ SI :: Py.str_of_N minute ++ [BUN]) =
  Ok (hh_mm hour minute) /\
  Data.format_time_column
    (Py.format_02d (Z.of_N hour) ++ SI :: Py.format_02d (Z.of_N minute)
                   ++ [BUN]) =
  Ok (hh_mm hour minute) /\
  Py.int (Py.str_of_N hour) = Ok (Z.of_N hour) /\
  forall n : N,
    (4300 < List.length (Py.str_of_N n))%nat ->
    Py.int (Py.str_of_N n) =
    Raise (Py.exceeds_limit (List.length (Py.str_of_N n))).
Proof.
  intros Lh Lm. split; [|split; [|split]].
  - apply format_time_column_digits;
      try apply uint_chars_digits; try apply str_of_N_nonempty;
      try apply str_of_N_value; assumption.
  - apply format_time_column_digits; try apply format_02d_value;
      rewrite format_02d_length; lia.
  - destruct (int_digits (Py.str_of_N hour) (uint_chars_digits _)
                         (str_of_N_nonempty hour)) as (n & En & ->).
    rewrite str_of_N_value in En. injection En as <-.
    unfold Py.int_max_str_digits.
    destruct (Nat.ltb_spec 4300 (List.length (Py.str_of_N hour)));
      [lia|reflexivity].
  - intros n Hn.
    destruct (int_digits (Py.str_of_N n) (uint_chars_digits _)
                         (str_of_N_nonempty n)) as (k & _ & ->).
    unfold Py.int_max_str_digits.
    destruct (Nat.ltb_spec 4300 (List.length (Py.str_of_N n)));
      [reflexivity|lia].
Qed.

(** ** Cleaning, continued *)

Lemma lstrip_head (s : str) :
  match Py.lstrip s with [] => True | c :: _ => is_space c = false end.
Proof.
  induction s as [|c s IH]; simpl; [exact I|].
  destruct (is_space c) eqn:E; [exact IH|exact E].
Qed.

Lemma lstrip_fixed (s : str) :
  match s with [] => True | c :: _ => is_space c = false end ->
  Py.lstrip s = s.
Proof. destruct s as [|c s]; simpl; [reflexivity|]. now intros ->. Qed.

Lemma lstrip_idempotent (s : str) : Py.lstrip (Py.lstrip s) = Py.lstrip s.
Proof. apply lstrip_fixed, lstrip_head. Qed.

Lemma lstrip_snoc (a : str) (c : char) :
  is_space c = false -> Py.lstrip (a ++ [c]) = Py.lstrip a ++ [c].
Proof.
  intros Hc. induction a as [|x a IH]; simpl; [now rewrite Hc|].
  destruct (is_space x); [exact IH|reflexivity].
Qed.

Lemma rstrip_keeps_head (c : char) (s : str) :
  is_space c = false -> exists t, Py.rstrip (c :: s) = c :: t.
Proof.
  intros Hc. unfold Py.rstrip. simpl List.rev.
  rewrite (lstrip_snoc _ _ Hc), rev_app_distr. simpl. eauto.
Qed.

Lemma strip_idempotent (s : str) : Py.strip (Py.strip s) = Py.strip s.
Proof.
  unfold Py.strip.
  assert (Py.lstrip (Py.rstrip (Py.lstrip s)) = Py.rstrip (Py.lstrip s)) as ->.
  { pose proof (lstrip_head s) as Hh.
    destruct (Py.lstrip s) as [|c t]; [reflexivity|].
    destruct (rstrip_keeps_head c t Hh) as [t' ->].
    simpl. now rewrite Hh. }
  unfold Py.rstrip. now rewrite rev_involutive, lstrip_idempotent.
Qed.

Lemma update_at_length (i : nat) (f : cell -> cell) (row : list cell) :
  (i < List.length (update_at i f row))%nat /\
  (List.length row <= List.length (update_at i f row))%nat.
Proof.
  revert row; induction i as [|i IH]; intros [|c row]; simpl; try lia.
  - destruct (IH []). simpl in *. lia.
  - destruct (IH row). lia.
Qed.

Lemma update_at_fixed (i : nat) (f : cell -> cell) (row : list cell) :
  (i < List.length row)%nat -> f (cell_at row i) = cell_at row i ->
  update_at i f row = row.
Proof.
  unfold cell_at.
  revert row; induction i as [|i IH]; intros [|c row]; simpl; try lia.
  - now intros _ ->.
  - intros Hi Hf. f_equal. apply IH; [lia|exact Hf].
Qed.

Lemma row_step_length (cols : list str) (c : str) (f : cell -> cell)
      (row : list cell) :
  (List.length row <= List.length (row_step cols c f row))%nat /\
  (forall i, get_loc c cols = Some i ->
             (i < List.length (row_step cols c f row))%nat).
Proof.
  unfold row_step. destruct (get_loc c cols) as [i|].
  - destruct (update_at_length i f row). split; [assumption|].
    now intros ? [= <-].
  - split; [lia|discriminate].
Qed.

Lemma row_step_fixed (cols : list str) (c : str) (f : cell -> cell)
      (row : list cell) :
  (forall i, get_loc c cols = Some i ->
             (i < List.length row)%nat /\ f (cell_at row i) = cell_at row i) ->
  row_step cols c f row = row.
Proof.
  unfold row_step. destruct (get_loc c cols) as [i|]; [|reflexivity].
  intros Hi. destruct (Hi i eq_refl). now apply update_at_fixed.
Qed.

Lemma cell_at_row_step_position (cols : list str) (c l : str)
      (f : cell -> cell) (row : list cell) (j : nat) :
  nth_error cols j = Some l -> l <> c ->
  cell_at (row_step cols c f row) j = cell_at row j.
Proof.
  intros Hj Hne. unfold row_step.
  destruct (get_loc c cols) as [i|] eqn:Ei; [|reflexivity].
  rewrite cell_at_update_at.
  destruct (Nat.eqb_spec i j) as [->|]; [|reflexivity].
  apply get_loc_Some in Ei. congruence.
Qed.

Section CleaningMore.
Context `{NumericText}.

Lemma clean_text_idempotent (c : cell) :
  Data.clean_text (Data.clean_text c) = Data.clean_text c.
Proof.
  unfold Data.clean_text. simpl. now rewrite strip_idempotent.
Qed.

Lemma to_numeric_idempotent (c : cell) :
  of_float64 (to_numeric (of_float64 (to_numeric c))) =
  of_float64 (to_numeric c).
Proof. destruct (to_numeric c); reflexivity. Qed.

Lemma clean_row_station_id (cols : list str) (row : list cell) (j : nat) :
  get_loc Data.STATION_ID cols = Some j ->
  cell_at (clean_row cols row) j = of_float64 (to_numeric (cell_at row j)).
Proof.
  intros E. unfold clean_row.
  rewrite (cell_at_row_step_same _ _ _ _ _ E).
  now rewrite !(cell_at_row_step_other _ _ _ _ _ _ E) by discriminate.
Qed.

Lemma clean_row_length (cols : list str) (row : list cell) (l : str) (i : nat) :
  In l Data.id_cols -> get_loc l cols = Some i ->
  (i < List.length (clean_row cols row))%nat.
Proof.
  intros Hl E. unfold clean_row.
  repeat match goal with
         | |- context [row_step cols ?c ?f ?r] =>
           lazymatch goal with
           | _ : (List.length r <= List.length (row_step cols c f r))%nat |- _ =>
             fail
           | _ =>
             let Hle := fresh "Hle" in
             let Hlt := fresh "Hlt" in
             destruct (row_step_length cols c f r) as [Hle Hlt]
           end
         end.
  unfold Data.id_cols in Hl. simpl in Hl.
  destruct Hl as [<-|[<-|[<-|[<-|[<-|[]]]]]];
    match goal with
    | Hlt : forall i, get_loc ?c cols = Some i -> _ |- _ =>
      match type of E with
      | get_loc c cols = _ => specialize (Hlt _ E)
      end
    end; lia.
Qed.

Lemma clean_row_idempotent (cols : list str) (row : list cell) :
  clean_row cols (clean_row cols row) = clean_row cols row.
Proof.
  set (R := clean_row cols row).
  assert (forall l i, In l text_cols -> get_loc l cols = Some i ->
                      (i < List.length R)%nat /\
                      Data.clean_text (cell_at R i) = cell_at R i) as Htext.
  { intros l i Hl E. split.
    - apply (clean_row_length cols row l); [|exact E].
      unfold text_cols in Hl. simpl in *. tauto.
    - unfold R. rewrite (clean_row_text _ _ _ _ Hl E).
      apply clean_text_idempotent. }
  assert (forall i, get_loc Data.STATION_ID cols = Some i ->
                    (i < List.length R)%nat /\
                    of_float64 (to_numeric (cell_at R i)) = cell_at R i)
    as Hid.
  { intros i E. split.
    - apply (clean_row_length cols row Data.STATION_ID); [|exact E].
      simpl. tauto.
    - unfold R. rewrite (clean_row_station_id _ _ _ E).
      apply to_numeric_idempotent. }
  unfold clean_row at 1.
  rewrite (row_step_fixed cols Data.DAY_TYPE)
    by (intros i E; apply (Htext Data.DAY_TYPE i); [simpl; tauto|exact E]).
  rewrite (row_step_fixed cols Data.LINE)
    by (intros i E; apply (Htext Data.LINE i); [simpl; tauto|exact E]).
  rewrite (row_step_fixed cols Data.STATION)
    by (intros i E; apply (Htext Data.STATION i); [simpl; tauto|exact E]).
  rewrite (row_step_fixed cols Data.DIRECTION)
    by (intros i E; apply (Htext Data.DIRECTION i); [simpl; tauto|exact E]).
  now apply row_step_fixed.
Qed.

Lemma cleaned_cleaned (df : DataFrame) : cleaned (cleaned df) = cleaned df.
Proof.
  unfold cleaned. cbn [columns rows].
  assert (List.map Py.strip (List.map Py.strip (columns df)) =
          List.map Py.strip (columns df)) as ->.
  { rewrite map_map. apply map_ext. intros a. apply strip_idempotent. }
  f_equal. rewrite map_map. apply map_ext. intros row.
  apply clean_row_idempotent.
Qed.

Lemma stripped_cleaned_once (df : DataFrame) :
  id_cols_once (stripped df) -> id_cols_once (stripped (cleaned df)).
Proof.
  unfold id_cols_once, is_frame, stripped, cleaned. cbn [columns].
  assert (List.map Py.strip (List.map Py.strip (columns df)) =
          List.map Py.strip (columns df)) as ->; [|auto].
  rewrite map_map. apply map_ext. intros a. apply strip_idempotent.
Qed.

(** X3.  Cleaning the table that [clean_data] returned returns the same
    table once more, and does not raise. *)
Theorem clean_data_idempotent (df df_clean : DataFrame) :
  Data.clean_data df = Ok df_clean ->
  Data.clean_data df_clean = Ok df_clean.
Proof.
  intros [Ho ->]%clean_data_Ok. apply clean_data_Ok.
  split; [now apply stripped_cleaned_once|].
  symmetry. apply cleaned_cleaned.
Qed.

(** X4.  When [clean_data] returns, it has kept the number of rows and
    of columns, and left the cells of every column other than the five
    identifying ones as they were: in particular it never touches an
    observation. *)
Theorem clean_data_keeps_other_columns (df df_clean : DataFrame) :
  Data.clean_data df = Ok df_clean ->
  List.length (rows df_clean) = List.length (rows df) /\
  columns df_clean = List.map Py.strip (columns df) /\
  List.length (columns df_clean) = List.length (columns df) /\
  (forall (i j : nat) (row : list cell) (l : str),
      nth_error (rows df) i = Some row ->
      nth_error (List.map Py.strip (columns df)) j = Some l ->
      ~ In l Data.id_cols ->
      exists row',
        nth_error (rows df_clean) i = Some row' /\
        cell_at row' j = cell_at row j).
Proof.
  intros [_ ->]%clean_data_Ok.
  unfold cleaned. cbn [columns rows]. rewrite !length_map.
  repeat split.
  intros i j row l Hi Hj Hl.
  exists (clean_row (List.map Py.strip (columns df)) row).
  split; [now apply map_nth_error|].
  unfold clean_row.
  rewrite !(cell_at_row_step_position _ _ l _ _ _ Hj);
    try reflexivity;
    intros ->; apply Hl; simpl; tauto.
Qed.

(** X5.  In the table [clean_data] returns the station number of every
    row is a number or missing, never a text, and each of the four text
    columns that the table has holds a text in every row. *)
Theorem clean_data_column_types (df df_clean : DataFrame) (row' : list cell) :
  Data.clean_data df = Ok df_clean ->
  In row' (rows df_clean) ->
  (forall s, get df_clean Data.STATION_ID row' <> Str s) /\
  (forall l, In l text_cols -> has_column df_clean l = true ->
             exists s, get df_clean l row' = Str s).
Proof.
  intros [_ ->]%clean_data_Ok Hin.
  pose proof Hin as Hin'. unfold cleaned in Hin'. cbn [rows] in Hin'.
  apply in_map_iff in Hin' as (row & <- & _).
  split.
  - intros s. unfold get, cleaned. cbn [columns].
    destruct (get_loc Data.STATION_ID (List.map Py.strip (columns df)))
      as [j|] eqn:E; [|discriminate].
    rewrite (clean_row_station_id _ _ _ E).
    destruct (to_numeric (cell_at row j)); discriminate.
  - intros l Hl Hc.
    destruct (get_cleaned_text df l row Hl Hc) as (j & _ & ->).
    unfold Data.clean_text. eauto.
Qed.

Lemma positions_from_sorted (label : str) (labels : list str) (i0 : nat) :
  StronglySorted lt (positions_from i0 label labels).
Proof.
  revert i0; induction labels as [|l ls IH]; intros i0; simpl; [constructor|].
  destruct (str_eqb label l); [|apply IH].
  constructor; [apply IH|]. apply Forall_forall.
  intros p [Hp _]%positions_from_In. lia.
Qed.

(** A label gives a frame exactly when it stands on two columns. *)
Lemma is_frame_twice (df : DataFrame) (label : str) :
  is_frame df label = true <->
  exists i j, i <> j /\ nth_error (columns df) i = Some label /\
              nth_error (columns df) j = Some label.
Proof.
  unfold is_frame.
  pose proof (positions_from_sorted label (columns df) 0) as Hs.
  fold (positions label (columns df)) in Hs.
  pose proof (positions_In label (columns df)) as Hin.
  destruct (positions label (columns df)) as [|a [|b ps]]; simpl.
  - split; [discriminate|]. intros (i & _ & _ & Hi & _).
    now apply Hin in Hi.
  - split; [discriminate|]. intros (i & j & Hne & Hi%Hin & Hj%Hin).
    simpl in Hi, Hj. intuition congruence.
  - split; [intros _|reflexivity]. exists a, b. split.
    + inversion Hs as [|? ? _ Ha]; subst. inversion Ha; subst. lia.
    + split; apply Hin; simpl; auto.
Qed.

(** X20.  [clean_data] raises exactly when, once the headers are
    stripped, an identifying label stands on two columns: for one of the
    four text labels it raises [AttributeError], and otherwise, for the
    station number, [TypeError].  Headers that collide on another label
    do not make it raise. *)
Theorem clean_data_failures (df : DataFrame) :
  ((exists df_clean, Data.clean_data df = Ok df_clean) <->
   forall l i j, In l Data.id_cols ->
                 nth_error (List.map Py.strip (columns df)) i = Some l ->
                 nth_error (List.map Py.strip (columns df)) j = Some l ->
                 i = j) /\
  (Data.clean_data df = Raise AttributeError <->
   exists l i j, In l text_cols /\ i <> j /\
                 nth_error (List.map Py.strip (columns df)) i = Some l /\
                 nth_error (List.map Py.strip (columns df)) j = Some l) /\
  (Data.clean_data df = Raise TypeError <->
   (forall l i j, In l text_cols ->
                  nth_error (List.map Py.strip (columns df)) i = Some l ->
                  nth_error (List.map Py.strip (columns df)) j = Some l ->
                  i = j) /\
   exists i j, i <> j /\
               nth_error (List.map Py.strip (columns df)) i =
               Some Data.STATION_ID /\
               nth_error (List.map Py.strip (columns df)) j =
               Some Data.STATION_ID) /\
  (forall e, Data.clean_data df = Raise e ->
             e = AttributeError \/ e = TypeError).
Proof.
  assert (forall l,
             is_frame (stripped df) l = false <->
             forall i j,
               nth_error (List.map Py.strip (columns df)) i = Some l ->
               nth_error (List.map Py.strip (columns df)) j = Some l ->
               i = j) as Honce.
  { intros l. rewrite <- not_true_iff_false, is_frame_twice.
    unfold stripped. cbn [columns]. split.
    - intros Hn i j Hi Hj. destruct (Nat.eq_dec i j) as [E|E]; [exact E|].
      exfalso. apply Hn. eauto.
    - intros Hall (i & j & Hne & Hi & Hj). apply Hne. now apply Hall. }
  assert (existsb (is_frame (stripped df)) text_cols = false <->
          forall l i j, In l text_cols ->
                        nth_error (List.map Py.strip (columns df)) i = Some l ->
                        nth_error (List.map Py.strip (columns df)) j = Some l ->
                        i = j) as Htext.
  { rewrite existsb_false_forall. split.
    - intros Hall l i j Hl. now apply Honce, Hall.
    - intros Hall l Hl. apply Honce. intros i j. now apply Hall. }
  split; [|split; [|split]].
  - split.
    + intros [d [Ho _]%clean_data_Ok] l i j Hl. now apply Honce, Ho.
    + intros Hall. exists (cleaned df). apply clean_data_Ok.
      split; [|reflexivity]. intros l Hl. apply Honce. intros i j.
      now apply Hall.
  - rewrite clean_data_eq.
    destruct (existsb (is_frame (stripped df)) text_cols) eqn:Et.
    + split; [intros _|reflexivity].
      apply existsb_exists in Et as (l & Hl & Hf).
      apply is_frame_twice in Hf as (i & j & Hne & Hi & Hj).
      exists l, i, j. auto.
    + split.
      * destruct (is_frame (stripped df) Data.STATION_ID); discriminate.
      * intros (l & i & j & Hl & Hne & Hi & Hj). exfalso. apply Hne.
        now apply (proj1 Htext eq_refl l).
  - rewrite clean_data_eq.
    destruct (existsb (is_frame (stripped df)) text_cols) eqn:Et.
    + split; [discriminate|]. intros [Hall _].
      apply Htext in Hall. discriminate Hall.
    + destruct (is_frame (stripped df) Data.STATION_ID) eqn:Es.
      * split; [intros _|reflexivity]. split; [now apply Htext|].
        now apply is_frame_twice in Es.
      * split; [discriminate|]. intros [_ (i & j & Hne & Hi & Hj)].
        exfalso. apply Hne. now apply (proj1 (Honce _) Es).
  - intros e. rewrite clean_data_eq.
    destruct (existsb (is_frame (stripped df)) text_cols);
      [intros [= <-]; now left|].
    destruct (is_frame (stripped df) Data.STATION_ID);
      [intros [= <-]; now right|discriminate].
Qed.

End CleaningMore.

(** ** The reshape, continued *)

Lemma flat_map_length_le {A B : Type} (f : A -> list B) (k : nat)
      (l : list A) :
  (forall x, In x l -> (List.length (f x) <= k)%nat) ->
  (List.length (flat_map f l) <= k * List.length l)%nat.
Proof.
  induction l as [|x l IH]; simpl; [lia|].
  intros Hf. rewrite length_app.
  assert (List.length (f x) <= k)%nat by (apply Hf; now left).
  assert (List.length (flat_map f l) <= k * List.length l)%nat
    by (apply IH; intros y Hy; apply Hf; now right).
  lia.
Qed.

Lemma flat_map_length_eq {A B : Type} (f : A -> list B) (k : nat)
      (l : list A) :
  (forall x, In x l -> List.length (f x) = k) ->
  List.length (flat_map f l) = (k * List.length l)%nat.
Proof.
  induction l as [|x l IH]; simpl; [lia|].
  intros Hf. rewrite length_app, (Hf x) by now left.
  rewrite IH by (intros y Hy; apply Hf; now right). lia.
Qed.

Section ReshapeMore.
Context `{NumericText}.

Lemma cell_rows_length (df : DataFrame) (i : nat) (row : list cell) :
  (List.length (cell_rows df i row) <= 1)%nat.
Proof.
  unfold cell_rows.
  destruct (Data.format_time_column (label_at df i)); [|simpl; lia].
  destruct (to_numeric (cell_at row i)); simpl; lia.
Qed.

(** X6.  The long frame has at most one row for every pair of a wide row
    and a time-slot column, and exactly that many when every observation
    is a number. *)
Theorem melt_to_long_row_count (df : DataFrame) (out : list Data.Observation) :
  Data.melt_to_long df = Ok out ->
  (List.length out <=
   List.length (rows df) * List.length (time_cols df))%nat /\
  ((forall i row, In i (time_positions df) -> In row (rows df) ->
                  to_numeric (cell_at row i) <> None) ->
   List.length out =
   (List.length (rows df) * List.length (time_cols df))%nat).
Proof.
  intros Hout. pose proof (melt_to_long_perm _ _ Hout) as Hperm.
  rewrite (Permutation_length Hperm), <- time_positions_length.
  unfold observations. split.
  - apply flat_map_length_le. intros i _.
    pose proof (flat_map_length_le (cell_rows df i) 1 (rows df)
                  (fun row _ => cell_rows_length df i row)).
    lia.
  - intros Hnum. apply flat_map_length_eq. intros i Hi.
    rewrite (flat_map_length_eq (cell_rows df i) 1); [lia|].
    intros row Hrow. unfold cell_rows.
    destruct (melt_to_long_formats _ _ i Hout) as [label ->];
      [intros Hn; now rewrite Hn in Hrow|exact Hi|].
    specialize (Hnum i row Hi Hrow).
    destruct (to_numeric (cell_at row i)); [reflexivity|congruence].
Qed.

Lemma melt_to_long_present (df : DataFrame) (out : list Data.Observation) :
  Data.melt_to_long df = Ok out -> Forall present out.
Proof.
  intros Hperm%melt_to_long_perm. apply Forall_forall. intros r Hr.
  apply (Permutation_in _ Hperm), in_observations in Hr
    as (i & row & label & q & _ & _ & _ & _ & ->).
  now exists q.
Qed.

Lemma nan_count_present (out : list Data.Observation) :
  Forall present out -> Callers.nan_count out = 0%nat.
Proof.
  unfold Callers.nan_count.
  induction 1 as [|r out [q Hq] _ IH]; simpl; [reflexivity|].
  now rewrite Hq.
Qed.

Lemma pipeline_sorted (out : list Data.Observation) :
  pipeline_output out -> StronglySorted key_le out.
Proof.
  intros (df & d & [_ ->]%clean_data_Ok & Hout).
  now apply (pipeline_key_sorted df).
Qed.

(** ** The cached entry point *)

Lemma get_data_body_Ok (fs : Api.FileSystem) (csv_path : str)
      (evs : list Api.event) (out : list Data.Observation) :
  Api.get_data_body fs csv_path = (evs, Ok out) ->
  Api.path_exists fs csv_path = true /\ pipeline_output out.
Proof.
  unfold Api.get_data_body.
  destruct (Api.path_exists fs csv_path); simpl; [|discriminate].
  destruct (Data.load_raw_data (Api.read_csv fs) csv_path) as [levs lout].
  destruct lout as [df|e|msg]; intros [= _ E]; try discriminate.
  split; [reflexivity|].
  destruct (Data.clean_data df) as [df_clean|e] eqn:Ec; [|discriminate].
  now exists df, df_clean.
Qed.

(** X7.  [get_data] fails fast on a file that does not exist: it shows the
    message, raises [FileNotFoundError] and hands nothing to [read_csv].
    Whatever the failure, a call that raises leaves the cache as it was,
    so the next call tries again. *)
Theorem get_data_failure
        (fs : Api.FileSystem) (c : Api.cache) (csv_path : str) :
  (Api.cached csv_path c = None ->
   Api.path_exists fs csv_path = false ->
   Api.get_data fs c csv_path =
   (c,
    [Api.PathExists csv_path;
     Api.Error (Api.not_found_message csv_path);
     Api.Info (u "현재 작업 디렉토리에 CSV 파일이 있는지 확인해주세요.")],
    Raise Api.FileNotFoundError)) /\
  (forall c' evs e,
      Api.get_data fs c csv_path = (c', evs, Raise e) ->
      c' = c /\ Api.cached csv_path c = None).
Proof.
  unfold Api.get_data. split.
  - intros -> Hex. unfold Api.get_data_body. now rewrite Hex.
  - intros c' evs e. destruct (Api.cached csv_path c); [discriminate|].
    destruct (Api.get_data_body fs csv_path) as [bevs [out|e']];
      [discriminate|].
    intros [= <- _ _]. now split.
Qed.

(** X8.  [get_data] is memoized by path: once a call has returned a
    frame, every later call for the same path returns that frame without
    touching the file system, even when the file has changed or has been
    removed since, and leaves the cache as it is. *)
Theorem get_data_memoized
        (fs fs' : Api.FileSystem) (c c' : Api.cache) (csv_path : str)
        (evs : list Api.event) (out : list Data.Observation) :
  Api.get_data fs c csv_path = (c', evs, Ok out) ->
  Api.get_data fs' c' csv_path = (c', [], Ok out).
Proof.
  unfold Api.get_data.
  destruct (Api.cached csv_path c) as [v|] eqn:Ec.
  - intros [= <- _ <-]. now rewrite Ec.
  - destruct (Api.get_data_body fs csv_path) as [bevs [v|e]];
      intros [= <- _ <-]; simpl. now rewrite str_eqb_refl.
Qed.

(** X9.  Starting from a cache that holds pipeline frames only, whatever
    [get_data] returns is a pipeline frame and the cache stays such: the
    rows are sorted by (line, station, direction, time slot), every row
    has its congestion, and the data-quality page counts no missing
    value. *)
Theorem get_data_invariants
        (fs : Api.FileSystem) (c c' : Api.cache) (csv_path : str)
        (evs : list Api.event) (out : list Data.Observation) :
  cache_ok c ->
  Api.get_data fs c csv_path = (c', evs, Ok out) ->
  cache_ok c' /\ pipeline_output out /\
  StronglySorted key_le out /\ Forall present out /\
  Callers.nan_count out = 0%nat.
Proof.
  intros Hc Hget.
  assert (cache_ok c' /\ pipeline_output out) as [Hc' Hout].
  { unfold Api.get_data in Hget.
    destruct (Api.cached csv_path c) as [v|] eqn:Ec.
    - injection Hget as <- _ <-. split; [exact Hc|].
      clear - Hc Ec. induction Hc as [|[k w] c Hk _ IH]; [discriminate|].
      simpl in Ec. destruct (str_eqb csv_path k); [|now apply IH].
      now injection Ec as <-.
    - destruct (Api.get_data_body fs csv_path) as [bevs [v|e]] eqn:Eb;
        [|discriminate].
      injection Hget as <- _ <-.
      destruct (get_data_body_Ok _ _ _ _ Eb) as [_ Hv].
      split; [now constructor|exact Hv]. }
  split; [exact Hc'|]. split; [exact Hout|].
  split; [now apply pipeline_sorted|].
  destruct Hout as (df & df_clean & _ & Hdf).
  pose proof (melt_to_long_present _ _ Hdf) as Hp.
  split; [exact Hp|now apply nan_count_present].
Qed.

End ReshapeMore.

(** ** Distinct values, continued *)

Lemma sorted_unique_text (l : list cell) :
  Forall text (dropna l) ->
  exists res,
    Data.sorted (unique (dropna l)) = Ok res /\
    NoDup res /\ StronglySorted text_le res /\
    forall v, In v res <-> In v l /\ isna v = false.
Proof.
  intros Htext. set (vals := dropna l) in *.
  assert (Forall text (unique vals)) as Htu.
  { apply Forall_forall. intros v Hv%unique_incl.
    rewrite Forall_forall in Htext. auto. }
  unfold Data.sorted. rewrite (forallb_text _ Htu). cbn [orb].
  pose proof (stable_sort_perm cell_compare (unique vals)) as Hperm.
  eexists. split; [reflexivity|]. split; [|split].
  - eapply Permutation_NoDup; [symmetry; exact Hperm|].
    now apply unique_NoDup.
  - apply (StronglySorted_on text (le cell_compare)).
    + intros [s| |] [t| |]; try discriminate. intros _ _ Hle.
      exists s, t. repeat split. unfold le, leb_of in Hle. simpl in Hle.
      intros E. now rewrite E in Hle.
    + eapply Permutation_Forall; [symmetry; exact Hperm|exact Htu].
    + apply stable_sort_sorted. apply WeakOrder_cell.
  - intros v. rewrite <- in_dropna. fold vals. split.
    + intros Hv. apply unique_incl. eapply Permutation_in; eauto.
    + intros Hv. eapply Permutation_in; [symmetry; exact Hperm|].
      now apply unique_complete.
Qed.

Lemma sorted_unique_num (l : list cell) :
  Forall (fun c => Data.is_num c = true) l ->
  exists res, Data.sorted (unique l) = Ok res.
Proof.
  intros Hnum. unfold Data.sorted.
  assert (forallb Data.is_num (unique l) = true) as ->.
  { apply forallb_forall. intros v Hv%unique_incl.
    rewrite Forall_forall in Hnum. auto. }
  rewrite orb_true_r. eauto.
Qed.

(** X10.  On a frame whose station names are texts, as the pipeline
    makes them, [get_stations_by_line] returns the station names of the
    rows of the line, each once and in code-point order; with no line (or
    with the empty string) it returns those of all rows, so the stations of
    a line are always among the stations of the whole frame. *)
Theorem get_stations_by_line_sorted
        (df : list Data.Observation) (line : option str) :
  Forall (fun r => text (Data.station r)) df ->
  exists res all,
    Api.get_stations_by_line df line = Ok res /\
    Api.get_stations_by_line df None = Ok all /\
    NoDup res /\ StronglySorted text_le res /\
    (forall v, In v res <->
               exists r, In r df /\ Data.station r = v /\ line_matches line r) /\
    incl res all.
Proof.
  intros Htext.
  assert (forall rows : list Data.Observation,
             incl rows df ->
             Forall text (dropna (List.map (fun r => Data.station r) rows)))
    as Hsub.
  { intros rs Hrs. apply Forall_forall.
    intros v [(r & <- & Hr)%in_map_iff _]%in_dropna.
    rewrite Forall_forall in Htext. auto. }
  assert (forall v, text v -> isna v = false) as Hna
      by (intros [s| |]; try discriminate; reflexivity).
  unfold Api.get_stations_by_line.
  set (sel := match line with
              | Some ((_ :: _) as l) =>
                List.filter (fun r => eq_str l (Data.line r)) df
              | _ => df
              end).
  assert (forall r, In r sel <-> In r df /\ line_matches line r) as Hsel.
  { intros r. unfold sel, line_matches.
    destruct line as [[|a l]|]; try tauto. apply filter_In. }
  assert (incl sel df) as Hincl by (intros r Hr; now apply Hsel).
  destruct (sorted_unique_text _ (Hsub sel Hincl))
    as (res & -> & Hnd & Hs & Hin).
  destruct (sorted_unique_text _ (Hsub df (incl_refl df)))
    as (all & -> & _ & _ & Hall).
  exists res, all. repeat split; auto.
  - intros (Hv & _)%Hin. apply in_map_iff in Hv as (r & <- & Hr).
    apply Hsel in Hr as [Hr Hm]. now exists r.
  - intros (r & Hr & <- & Hm). apply Hin. split.
    + apply in_map. now apply Hsel.
    + apply Hna. rewrite Forall_forall in Htext. auto.
  - intros v (Hv & Hn)%Hin. apply Hall. split; [|exact Hn].
    apply in_map_iff in Hv as (r & <- & Hr). apply in_map. now apply Hincl.
Qed.

Section ValuesOfPipeline.
Context `{NumericText}.

Lemma pipeline_station_id (df : DataFrame) (out : list Data.Observation)
      (r : Data.Observation) :
  Data.melt_to_long (cleaned df) = Ok out -> In r out ->
  forall s, Data.station_id r <> Str s.
Proof.
  intros Hout Hr s.
  destruct (pipeline_rows _ _ _ Hout Hr) as (row & label & q & _ & ->).
  cbn [Data.station_id observation].
  unfold get, cleaned. cbn [columns].
  destruct (get_loc Data.STATION_ID (List.map Py.strip (columns df)))
    as [j|] eqn:E; [|discriminate].
  rewrite (clean_row_station_id _ _ _ E).
  destruct (to_numeric (cell_at row j)); discriminate.
Qed.

Lemma categorical_value_text_or_missing (code : Z) :
  (exists l, categorical_value Data.TIME_ORDER code = Str l /\
             In l Data.TIME_ORDER) \/
  categorical_value Data.TIME_ORDER code = NaN.
Proof.
  unfold categorical_value. destruct (code <? 0)%Z; [now right|].
  destruct (nth_error Data.TIME_ORDER (Z.to_nat code)) as [l|] eqn:E;
    [left|now right].
  exists l. split; [reflexivity|]. eapply nth_error_In, E.
Qed.

(** X11.  On a frame of the pipeline [get_unique_values] raises for no
    column other than line: the text columns and the time slots give
    their distinct values in code-point order, the numeric columns their
    distinct numbers.  The time slots so listed are labels of the
    canonical sequence, but in the order of the strings, so that 00:00
    and 00:30 come first and not last. *)
Theorem get_unique_values_of_pipeline
        (df df_clean : DataFrame) (out : list Data.Observation) (name : str) :
  Data.clean_data df = Ok df_clean ->
  Data.melt_to_long df_clean = Ok out ->
  name <> u "line" ->
  exists res,
    Data.get_unique_values out name = Ok res /\
    (name = u "time_slot" ->
     StronglySorted text_le res /\ NoDup res /\
     forall v, In v res -> exists l, v = Str l /\ In l Data.TIME_ORDER).
Proof.
  intros [_ ->]%clean_data_Ok Hout Hname.
  assert (forall col : Data.Observation -> cell,
             (forall r, In r out -> text (col r) \/ col r = NaN) ->
             Forall text (dropna (List.map col out))) as Htext.
  { intros col Hcol. apply Forall_forall.
    intros v [(r & <- & Hr)%in_map_iff Hn]%in_dropna.
    destruct (Hcol r Hr) as [Ht|Hm]; [exact Ht|]. rewrite Hm in Hn.
    discriminate. }
  assert (forall col : Data.Observation -> cell,
             (forall r, In r out -> forall s, col r <> Str s) ->
             Forall (fun c => Data.is_num c = true)
                    (dropna (List.map col out))) as Hnum.
  { intros col Hcol. apply Forall_forall.
    intros v [(r & <- & Hr)%in_map_iff Hn]%in_dropna.
    specialize (Hcol r Hr). destruct (col r); try reflexivity;
      [now destruct (Hcol s)|discriminate]. }
  assert (forall l r, In l text_cols -> In r out ->
                      text (text_field l r)) as Hfield.
  { intros l r Hl Hr.
    destruct (pipeline_text_is_str df out r l Hout Hr Hl) as [s ->].
    reflexivity. }
  unfold Data.get_unique_values, Data.column.
  apply str_eqb_neq in Hname. rewrite !Hname.
  destruct (str_eqb name (u "day_type")) eqn:E1; cbv beta iota.
  { destruct (sorted_unique_text (List.map (fun r => Data.day_type r) out))
      as (res & Eres & _); [|exists res; split; [exact Eres|]].
    - apply Htext. intros r Hr. left.
      apply (Hfield Data.DAY_TYPE r); [simpl; tauto|exact Hr].
    - intros ->. discriminate. }
  destruct (str_eqb name (u "station_id")) eqn:E3; cbv beta iota.
  { destruct (sorted_unique_num
                (dropna (List.map (fun r => Data.station_id r) out)))
      as (res & Eres); [|exists res; split; [exact Eres|]].
    - apply Hnum. intros r Hr. now apply (pipeline_station_id df out).
    - intros ->. discriminate. }
  destruct (str_eqb name (u "station")) eqn:E4; cbv beta iota.
  { destruct (sorted_unique_text (List.map (fun r => Data.station r) out))
      as (res & Eres & _); [|exists res; split; [exact Eres|]].
    - apply Htext. intros r Hr. left.
      apply (Hfield Data.STATION r); [simpl; tauto|exact Hr].
    - intros ->. discriminate. }
  destruct (str_eqb name (u "direction")) eqn:E5; cbv beta iota.
  { destruct (sorted_unique_text (List.map (fun r => Data.direction r) out))
      as (res & Eres & _); [|exists res; split; [exact Eres|]].
    - apply Htext. intros r Hr. left.
      apply (Hfield Data.DIRECTION r); [simpl; tauto|exact Hr].
    - intros ->. discriminate. }
  destruct (str_eqb name (u "time_slot")) eqn:E6; cbv beta iota.
  { destruct (sorted_unique_text
                (List.map (fun r => categorical_value Data.TIME_ORDER
                                      (Data.time_slot r)) out))
      as (res & Eres & Hnd & Hs & Hin).
    - apply Htext. intros r _.
      destruct (categorical_value_text_or_missing (Data.time_slot r))
        as [(l & -> & _)| ->]; [now left|now right].
    - exists res. split; [exact Eres|]. intros _.
      split; [exact Hs|]. split; [exact Hnd|].
      intros v [(r & <- & _)%in_map_iff Hn]%Hin.
      destruct (categorical_value_text_or_missing (Data.time_slot r))
        as [(l & El & Hl)|Em]; [exists l; now split|].
      rewrite Em in Hn. discriminate. }
  destruct (str_eqb name (u "congestion")) eqn:E7; cbv beta iota.
  { destruct (sorted_unique_num
                (dropna (List.map (fun r => of_float64 (Data.congestion r))
                                  out)))
      as (res & Eres); [|exists res; split; [exact Eres|]].
    - apply Hnum. intros r _ s. destruct (Data.congestion r); discriminate.
    - intros ->. discriminate. }
  exists []. split; [reflexivity|]. intros ->. discriminate.
Qed.

End ValuesOfPipeline.

(** ** The raw loader, continued *)

Lemma try_encodings_trace (read_csv : str -> Data.attempt)
      (encs : list str) (path : str) :
  exists k tail,
    fst (Data.try_encodings read_csv encs path) =
    List.map Data.ReadCsv (firstn k encs) ++ tail /\
    (k <= List.length encs)%nat /\
    (encs <> [] -> (1 <= k)%nat) /\
    (tail = [] \/
     exists e, tail = [Data.StError e] /\
               snd (Data.try_encodings read_csv encs path) =
               Data.Propagated e).
Proof.
  induction encs as [|enc encs IH]; simpl.
  - exists 0%nat, []. repeat split; auto. congruence.
  - destruct (read_csv enc) as [df|e].
    + exists 1%nat, []. simpl. repeat split; auto; lia.
    + destruct IH as (k & tail & Hev & Hk & _ & Htail).
      destruct e;
        try (exists 1%nat; eexists [Data.StError _]; simpl;
             repeat split; try lia; right; eexists; split; reflexivity).
      * destruct (Data.try_encodings read_csv encs path) as [evs out].
        simpl in *. exists (S k), tail. simpl. rewrite Hev.
        repeat split; auto; lia.
      * exists 1%nat, []. simpl. repeat split; auto; lia.
Qed.

(** X12.  Whatever [read_csv] does, [load_raw_data] makes between one and
    four attempts, with the encodings in their fixed order and none
    skipped or repeated, and shows at most one error message, as its last
    act before passing the error on. *)
Theorem load_raw_data_trace
        (read_csv : str -> str -> Data.attempt) (csv_path : str) :
  exists k tail,
    fst (Data.load_raw_data read_csv csv_path) =
    List.map Data.ReadCsv (firstn k Data.encodings) ++ tail /\
    (1 <= k <= 4)%nat /\
    (tail = [] \/
     exists e, tail = [Data.StError e] /\
               snd (Data.load_raw_data read_csv csv_path) =
               Data.Propagated e).
Proof.
  unfold Data.load_raw_data.
  destruct (try_encodings_trace (read_csv csv_path) Data.encodings csv_path)
    as (k & tail & Hev & Hk & Hk1 & Htail).
  exists k, tail. split; [exact Hev|]. split; [|exact Htail].
  split; [apply Hk1; discriminate|exact Hk].
Qed.

(** ** The filter, continued *)

Lemma filter_data_Ok (h h' : Ui.heap) (df out : Ui.ref)
      (filters : Ui.Filters) :
  Ui.filter_data df filters h = (h', Ok out) ->
  exists p, selection filters = Ok p /\
            Ui.frame h' out = List.filter p (Ui.frame h df).
Proof.
  intros E. destruct (filter_data_run h df filters) as (fresh & Hh & Hr).
  rewrite E in Hh, Hr. simpl in Hh, Hr. subst h'.
  destruct (selection filters) as [p|e]; [|discriminate].
  destruct Hr as (out' & [= <-] & _ & Hf). now exists p.
Qed.

Lemma filter_data_Raise (h : Ui.heap) (df : Ui.ref) (filters : Ui.Filters)
      (e : exn) :
  snd (Ui.filter_data df filters h) = Raise e <-> selection filters = Raise e.
Proof.
  destruct (filter_data_run h df filters) as (fresh & _ & Hr).
  destruct (selection filters) as [p|e'].
  - destruct Hr as (out & -> & _). split; discriminate.
  - rewrite Hr. split; now intros [= ->].
Qed.

Lemma StronglySorted_filter {A : Type} (R : A -> A -> Prop) (p : A -> bool)
      (l : list A) :
  StronglySorted R l -> StronglySorted R (List.filter p l).
Proof.
  induction 1 as [|a l Hs IH Ha]; simpl; [constructor|].
  destruct (p a); [|exact IH]. constructor; [exact IH|].
  rewrite Forall_forall in *. intros b [Hb _]%filter_In. auto.
Qed.

Lemma cmp_scalar_Ok (op : Z -> Z -> bool) (l : str) (i : nat) :
  nth_error Data.TIME_ORDER i = Some l ->
  categorical_cmp_scalar op Data.TIME_ORDER l =
  Ok (fun code => negb (code =? -1)%Z && op code (Z.of_nat i)).
Proof.
  intros Hi. unfold categorical_cmp_scalar.
  now rewrite (get_loc_nth _ _ _ TIME_ORDER_NoDup Hi).
Qed.

Lemma cmp_scalar_Raise (op : Z -> Z -> bool) (l : str) :
  ~ In l Data.TIME_ORDER ->
  categorical_cmp_scalar op Data.TIME_ORDER l = Raise TypeError.
Proof.
  intros Hl%get_loc_None. unfold categorical_cmp_scalar. now rewrite Hl.
Qed.

(** X13.  The frame [filter_data] returns holds rows of its argument
    only, in their order: it is never longer, and when the argument is
    sorted by (line, station, direction, time slot), as the frame of the
    pipeline is, so is the result. *)
Theorem filter_data_keeps_order
        (h h' : Ui.heap) (df out : Ui.ref) (filters : Ui.Filters) :
  Ui.filter_data df filters h = (h', Ok out) ->
  incl (Ui.frame h' out) (Ui.frame h df) /\
  (List.length (Ui.frame h' out) <= List.length (Ui.frame h df))%nat /\
  (StronglySorted key_le (Ui.frame h df) ->
   StronglySorted key_le (Ui.frame h' out)) /\
  (Ui.frame h df = [] -> Ui.frame h' out = []).
Proof.
  intros (p & _ & ->)%filter_data_Ok. repeat split.
  - apply incl_filter.
  - apply filter_length_le.
  - apply StronglySorted_filter.
  - now intros ->.
Qed.




Lemma eq_str_spec (s : str) (c : cell) : eq_str s c = true <-> c = Str s.
Proof.
  unfold eq_str. destruct c as [t|q|]; simpl; try (split; discriminate).
  rewrite str_eqb_eq. split; congruence.
Qed.

Lemma isin_spec (values : list str) (c : cell) :
  isin values c = true <-> one_of values c.
Proof.
  unfold isin, one_of. rewrite existsb_exists. split.
  - intros (v & Hv & ->%eq_str_spec). eauto.
  - intros (s & -> & Hs). exists s. split; [exact Hs|now apply eq_str_spec].
Qed.

Lemma when_given_spec {A : Type} (o : option (list A))
      (test : list A -> bool) :
  when_given o test = true <->
  forall l, o = Some l -> l <> [] -> test l = true.
Proof.
  destruct o as [[|a t]|]; simpl.
  - split; [|reflexivity]. intros _ l [= <-] Hne. congruence.
  - split.
    + intros Ht l [= <-] _. exact Ht.
    + intros Ht. apply Ht; [reflexivity|discriminate].
  - split; [discriminate|reflexivity].
Qed.

Lemma between_spec (lo hi : Q) (x : float64) :
  Ui.between lo hi x = true <-> exists q, x = Some q /\ lo <= q /\ q <= hi.
Proof.
  unfold Ui.between. destruct x as [q|].
  - rewrite andb_true_iff, !Qle_bool_iff. split.
    + intros [? ?]. now exists q.
    + intros (q' & [= <-] & ? & ?). now split.
  - split; [discriminate|]. intros (q & [=] & _).
Qed.

Lemma time_selection_spec (filters : Ui.Filters)
      (tm : Data.Observation -> bool) (r : Data.Observation) :
  time_selection filters = Ok tm ->
  (tm r = true <->
   forall s e i j,
     Ui.f_time_range filters = Some (s, e) ->
     nth_error Data.TIME_ORDER i = Some s ->
     nth_error Data.TIME_ORDER j = Some e ->
     (Z.of_nat i <= Data.time_slot r <= Z.of_nat j)%Z).
Proof.
  unfold time_selection, categorical_cmp_scalar.
  destruct (Ui.f_time_range filters) as [[s e]|].
  - destruct (get_loc s Data.TIME_ORDER) as [i|] eqn:Ei; [|discriminate].
    destruct (get_loc e Data.TIME_ORDER) as [j|] eqn:Ej; [|discriminate].
    cbn [bind]. intros [= <-].
    apply get_loc_Some in Ei as Hi. apply get_loc_Some in Ej as Hj.
    assert (negb (Data.time_slot r =? -1)%Z &&
            (Data.time_slot r >=? Z.of_nat i)%Z &&
            (negb (Data.time_slot r =? -1)%Z &&
             (Data.time_slot r <=? Z.of_nat j)%Z) = true <->
            (Z.of_nat i <= Data.time_slot r <= Z.of_nat j)%Z) as Hb.
    { rewrite !andb_true_iff, !negb_true_iff, Z.eqb_neq, Z.geb_le, Z.leb_le.
      lia. }
    rewrite Hb. split.
    + intros Hr s' e' i' j' [= <- <-] Hi' Hj'.
      rewrite (get_loc_nth _ _ _ TIME_ORDER_NoDup Hi') in Ei.
      rewrite (get_loc_nth _ _ _ TIME_ORDER_NoDup Hj') in Ej.
      injection Ei as ->. injection Ej as ->. exact Hr.
    + intros Hr. exact (Hr s e i j eq_refl Hi Hj).
  - intros [= <-]. split; [discriminate|reflexivity].
Qed.

Lemma selection_spec (filters : Ui.Filters) (p : Data.Observation -> bool)
      (r : Data.Observation) :
  selection filters = Ok p -> (p r = true <-> satisfies filters r).
Proof.
  unfold selection.
  destruct (time_selection filters) as [tm|e] eqn:Et; [|discriminate].
  cbn [bind]. intros [= <-].
  rewrite !andb_true_iff, !when_given_spec, (time_selection_spec _ _ r Et).
  unfold satisfies, congestion_selection.
  assert ((match Ui.f_congestion_range filters with
           | Some (lo, hi) => Ui.between lo hi (Data.congestion r)
           | None => true
           end = true) <->
          (forall lo hi,
              Ui.f_congestion_range filters = Some (lo, hi) ->
              exists q, Data.congestion r = Some q /\ lo <= q /\ q <= hi))
    as ->.
  { destruct (Ui.f_congestion_range filters) as [[lo hi]|].
    - rewrite between_spec. split.
      + now intros Hq ? ? [= <- <-].
      + intros Hq. now apply Hq.
    - split; [discriminate|reflexivity]. }
  setoid_rewrite eq_str_spec. setoid_rewrite isin_spec. tauto.
Qed.

(** X15.  [filter_data] keeps exactly the rows of its argument that meet
    every constraint given: the day type, membership in the lines,
    stations and directions chosen, a time slot between the two bounds by
    position in the canonical sequence, a congestion within the inclusive
    range.  So a row whose time slot is missing never passes a time range,
    and a range whose start comes after its end keeps nothing. *)
Theorem filter_data_selects
        (h h' : Ui.heap) (df out : Ui.ref) (filters : Ui.Filters) :
  Ui.filter_data df filters h = (h', Ok out) ->
  (forall r, In r (Ui.frame h' out) <->
             In r (Ui.frame h df) /\ satisfies filters r) /\
  (forall s e, Ui.f_time_range filters = Some (s, e) ->
               exists i j,
                 nth_error Data.TIME_ORDER i = Some s /\
                 nth_error Data.TIME_ORDER j = Some e /\
                 Forall (fun r => Data.time_slot r <> (-1)%Z /\
                                  (Z.of_nat i <= Data.time_slot r
                                   <= Z.of_nat j)%Z)
                        (Ui.frame h' out) /\
                 ((j < i)%nat -> Ui.frame h' out = [])).
Proof.
  intros (p & Hsel & Hf)%filter_data_Ok.
  assert (forall r, In r (Ui.frame h' out) <->
                    In r (Ui.frame h df) /\ satisfies filters r) as Hin.
  { intros r. rewrite Hf, filter_In, (selection_spec _ _ r Hsel).
    reflexivity. }
  split; [exact Hin|].
  intros s e Ht.
  assert (exists i j, nth_error Data.TIME_ORDER i = Some s /\
                      nth_error Data.TIME_ORDER j = Some e)
    as (i & j & Hi & Hj).
  { unfold selection, time_selection, categorical_cmp_scalar in Hsel.
    rewrite Ht in Hsel.
    destruct (get_loc s Data.TIME_ORDER) as [i|] eqn:Ei; [|discriminate].
    destruct (get_loc e Data.TIME_ORDER) as [j|] eqn:Ej; [|discriminate].
    exists i, j. split; now apply get_loc_Some. }
  exists i, j. split; [exact Hi|]. split; [exact Hj|].
  assert (Forall (fun r => Data.time_slot r <> (-1)%Z /\
                           (Z.of_nat i <= Data.time_slot r <= Z.of_nat j)%Z)
                 (Ui.frame h' out)) as Hall.
  { apply Forall_forall. intros r [_ Hs]%Hin.
    destruct Hs as (_ & _ & _ & _ & Htime & _).
    specialize (Htime s e i j Ht Hi Hj). lia. }
  split; [exact Hall|].
  intros Hji. destruct (Ui.frame h' out) as [|r l]; [reflexivity|].
  inversion Hall as [|? ? [_ Hr] _]; subst. lia.
Qed.

(** X16.  [filter_data] raises only for a time range with a bound that
    is not a time slot, and then it raises [TypeError]; no other
    configuration and no data make it fail. *)
Theorem filter_data_raises
        (h : Ui.heap) (df : Ui.ref) (filters : Ui.Filters) (e : exn) :
  snd (Ui.filter_data df filters h) = Raise e <->
  e = TypeError /\
  exists s t, Ui.f_time_range filters = Some (s, t) /\
              (~ In s Data.TIME_ORDER \/ ~ In t Data.TIME_ORDER).
Proof.
  rewrite filter_data_Raise.
  unfold selection, time_selection, categorical_cmp_scalar.
  destruct (Ui.f_time_range filters) as [[s t]|].
  - destruct (get_loc s Data.TIME_ORDER) as [i|] eqn:Ei.
    + destruct (get_loc t Data.TIME_ORDER) as [j|] eqn:Ej; cbn [bind].
      * split; [discriminate|].
        intros (_ & s' & t' & [= <- <-] & [Hs|Ht]).
        -- apply get_loc_None in Hs. congruence.
        -- apply get_loc_None in Ht. congruence.
      * split.
        -- intros [= <-]. split; [reflexivity|].
           exists s, t. split; [reflexivity|]. right. now apply get_loc_None.
        -- now intros (-> & _).
    + cbn [bind]. split.
      * intros [= <-]. split; [reflexivity|].
        exists s, t. split; [reflexivity|]. left. now apply get_loc_None.
      * now intros (-> & _).
  - cbn [bind]. split; [discriminate|]. intros (_ & s & t & [=] & _).
Qed.

(** X17.  Two filter configurations can be applied in either order: the
    rows that remain are the same. *)
Theorem filter_data_commutes
        (h h1 h2 k1 k2 : Ui.heap) (df a ab b ba : Ui.ref)
        (f g : Ui.Filters) :
  Ui.filter_data df f h = (h1, Ok a) ->
  Ui.filter_data a g h1 = (h2, Ok ab) ->
  Ui.filter_data df g h = (k1, Ok b) ->
  Ui.filter_data b f k1 = (k2, Ok ba) ->
  Ui.frame h2 ab = Ui.frame k2 ba.
Proof.
  intros (pf & Hf & E1)%filter_data_Ok (pg & Hg & E2)%filter_data_Ok
         (pg' & Hg' & E3)%filter_data_Ok (pf' & Hf' & E4)%filter_data_Ok.
  rewrite Hf in Hf'. rewrite Hg in Hg'.
  injection Hf' as <-. injection Hg' as <-.
  rewrite E2, E1, E4, E3, !filter_both.
  apply filter_ext. intros r. apply andb_comm.
Qed.

(** ** The callers *)

(** X18.  The time range that [render_filters] builds from the two
    positions of its slider is made of time slots whenever both positions
    are below 39, and indexing fails otherwise.  With such a range
    [filter_data] never raises, and it keeps rows whose slot lies between
    the two positions only. *)
Theorem slider_time_range_valid (a b : nat) :
  (Callers.slider_time_range (a, b) = Raise Callers.IndexError <->
   (39 <= a \/ 39 <= b)%nat) /\
  ((a < 39)%nat -> (b < 39)%nat ->
   exists s e,
     Callers.slider_time_range (a, b) = Ok (s, e) /\
     nth_error Data.TIME_ORDER a = Some s /\
     nth_error Data.TIME_ORDER b = Some e /\
     forall (filters : Ui.Filters) (h : Ui.heap) (df : Ui.ref),
       Ui.f_time_range filters = Some (s, e) ->
       exists h' out,
         Ui.filter_data df filters h = (h', Ok out) /\
         Forall (fun r => (Z.of_nat a <= Data.time_slot r <= Z.of_nat b)%Z)
                (Ui.frame h' out)).
Proof.
  unfold Callers.slider_time_range, Callers.time_order_at. cbn [fst snd].
  assert (forall i, (i < 39)%nat ->
                    exists l, nth_error Data.TIME_ORDER i = Some l) as Hlt.
  { intros i Hi. destruct (nth_error Data.TIME_ORDER i) as [l|] eqn:E;
      [eauto|].
    apply nth_error_None in E. simpl in E. lia. }
  assert (forall i, (39 <= i)%nat -> nth_error Data.TIME_ORDER i = None)
    as Hge by (intros i Hi; apply nth_error_None; simpl; lia).
  split.
  - destruct (Nat.lt_ge_cases a 39) as [Ha|Ha].
    + destruct (Hlt a Ha) as [s ->]. cbn [bind].
      destruct (Nat.lt_ge_cases b 39) as [Hb|Hb].
      * destruct (Hlt b Hb) as [e ->]. cbn [bind].
        split; [discriminate|lia].
      * rewrite (Hge b Hb). cbn [bind]. split; [now right|reflexivity].
    + rewrite (Hge a Ha). cbn [bind]. split; [now left|reflexivity].
  - intros Ha Hb. destruct (Hlt a Ha) as [s Hs], (Hlt b Hb) as [e He].
    exists s, e. rewrite Hs, He. cbn [bind].
    split; [reflexivity|]. split; [reflexivity|]. split; [reflexivity|].
    intros filters h df Ht.
    destruct (Ui.filter_data df filters h) as [h' [out|x]] eqn:E.
    + exists h', out. split; [reflexivity|].
      apply filter_data_Ok in E as (p & Hsel & Hf).
      apply Forall_forall. intros r Hr. rewrite Hf in Hr.
      apply filter_In in Hr as [_ Hp].
      apply (selection_spec _ _ r Hsel) in Hp
        as (_ & _ & _ & _ & Htime & _).
      exact (Htime s e a b Ht Hs He).
    + exfalso.
      assert (snd (Ui.filter_data df filters h) = Raise x) as Hx
          by now rewrite E.
      apply filter_data_Raise in Hx.
      unfold selection, time_selection in Hx. rewrite Ht in Hx.
      rewrite (cmp_scalar_Ok _ _ _ Hs), (cmp_scalar_Ok _ _ _ He) in Hx.
      discriminate.
Qed.

Lemma idxmax_from_spec (l pre : list float64) (best : option (nat * Q))
      (i : nat) :
  i = List.length pre ->
  match best with
  | Some (bi, bq) =>
    nth_error (pre ++ l) bi = Some (Some bq) /\
    forall q, In (Some q) pre -> q <= bq
  | None => forall q, ~ In (Some q) pre
  end ->
  match Callers.idxmax_from best i l with
  | Some k =>
    exists q, nth_error (pre ++ l) k = Some (Some q) /\
              forall q', In (Some q') (pre ++ l) -> q' <= q
  | None => forall q, ~ In (Some q) (pre ++ l)
  end.
Proof.
  revert pre best i; induction l as [|x l IH]; intros pre best i Hi Hbest.
  - simpl. rewrite app_nil_r in *. destruct best as [[bi bq]|]; simpl.
    + now exists bq.
    + exact Hbest.
  - assert (pre ++ x :: l = (pre ++ [x]) ++ l) as Happ
        by (now rewrite <- app_assoc).
    assert (S i = List.length (pre ++ [x])) as Hi'
        by (rewrite length_app; simpl; lia).
    assert (nth_error (pre ++ x :: l) i = Some x) as Hnth
        by (subst i; rewrite nth_error_app2, Nat.sub_diag by lia; reflexivity).
    simpl. rewrite Happ.
    destruct x as [q|].
    + destruct best as [[bi bq]|].
      * destruct Hbest as [Hb Hle].
        destruct (Qle_bool q bq) eqn:Eq; apply IH; try exact Hi'.
        -- split; [now rewrite <- Happ|].
           intros q' [Hq'|[[= <-]|[]]]%in_app_iff; [now apply Hle|].
           now apply Qle_bool_iff.
        -- split; [now rewrite <- Happ|].
           assert (bq < q) as Hlt.
           { apply Qnot_le_lt. intros Hc%Qle_bool_iff. congruence. }
           intros q' [Hq'|[[= <-]|[]]]%in_app_iff; [|apply Qle_refl].
           eapply Qle_trans; [now apply Hle|now apply Qlt_le_weak].
      * apply IH; [exact Hi'|]. split; [now rewrite <- Happ|].
        intros q' [Hq'|[[= <-]|[]]]%in_app_iff; [|apply Qle_refl].
        now destruct (Hbest q').
    + apply IH; [exact Hi'|]. destruct best as [[bi bq]|].
      * destruct Hbest as [Hb Hle]. split; [now rewrite <- Happ|].
        intros q' [Hq'|[[=]|[]]]%in_app_iff. now apply Hle.
      * intros q' [Hq'|[[=]|[]]]%in_app_iff. now apply (Hbest q').
Qed.

(** X19.  The most congested row that the pages show is a row of the
    filtered frame, and no row of the frame has a greater congestion; it
    exists as soon as one row has a congestion.  On an empty frame, which
    the callers exclude before, the lookup raises. *)
Theorem max_row_greatest (df_filtered : list Data.Observation) :
  Callers.max_row [] =
  Raise (ValueError (u "attempt to get argmax of an empty sequence")) /\
  (Exists present df_filtered ->
   exists r q,
     Callers.max_row df_filtered = Ok r /\
     In r df_filtered /\ Data.congestion r = Some q /\
     forall r' q', In r' df_filtered -> Data.congestion r' = Some q' ->
                   q' <= q).
Proof.
  split; [reflexivity|].
  intros Hex. unfold Callers.max_row, Callers.idxmax.
  pose proof (idxmax_from_spec
                (List.map (fun r => Data.congestion r) df_filtered)
                [] None 0%nat eq_refl (fun q Hq => Hq)) as Hspec.
  simpl app in Hspec.
  destruct (Callers.idxmax_from None 0
              (List.map (fun r => Data.congestion r) df_filtered)) as [k|].
  - destruct Hspec as (q & Hk & Hmax).
    rewrite nth_error_map in Hk.
    unfold Data.Observation in *.
    destruct (nth_error df_filtered k) as [r|] eqn:Er; simpl in Hk;
      [|discriminate Hk].
    injection Hk as Hq. exists r, q. split; [reflexivity|].
    split; [eapply nth_error_In, Er|]. split; [exact Hq|].
    intros r' q' Hr' Hq'. apply Hmax. rewrite <- Hq'.
    now apply (in_map (fun r => Data.congestion r)).
  - exfalso. apply Exists_exists in Hex as (r & Hr & q & Hq).
    apply (Hspec q). rewrite <- Hq.
    now apply (in_map (fun r => Data.congestion r)).
Qed.

(** ** Runs of the further properties *)

Lemma format_time_column_idempotent_witness :
  Py.search (u "5시30분") = Some (u "5", u "30") /\
  Data.format_time_column (u "5시30분") = Ok (u "05:30") /\
  Data.format_time_column (u "05:30") = Ok (u "05:30") /\
  Data.is_time_col (u "05:30") = false.
Proof.
  assert (Py.search (u "5시30분") = Some (u "5", u "30")) as E by reflexivity.
  assert (Data.format_time_column (u "5시30분") = Ok (u "05:30")) as Et
      by reflexivity.
  split; [exact E|]. split; [exact Et|].
  split.
  - exact (proj1 format_time_column_idempotent _ _ Et).
  - exact (proj2 (proj2 format_time_column_idempotent _ _ _ E Et)).
Defined.

Lemma format_time_column_round_trip_witness :
  Data.format_time_column (u "5시30분") = Ok (u "05:30") /\
  Data.format_time_column (u "05시30분") = Ok (u "05:30").
Proof.
  destruct (format_time_column_round_trip 5 30) as (E1 & E2 & _).
  - simpl. lia.
  - simpl. lia.
  - split; [exact E1|exact E2].
Defined.

Lemma clean_data_idempotent_witness :
  Data.clean_data Demo.wide = Ok (cleaned Demo.wide) /\
  Data.clean_data (cleaned Demo.wide) = Ok (cleaned Demo.wide).
Proof.
  assert (Data.clean_data Demo.wide = Ok (cleaned Demo.wide)) as E
      by (vm_compute; reflexivity).
  split; [exact E|].
  exact (clean_data_idempotent _ _ E).
Defined.

Lemma clean_data_keeps_other_columns_witness :
  Data.clean_data Demo.wide = Ok (cleaned Demo.wide) /\
  nth_error (rows Demo.wide) 0 =
  Some [Str (u "평일"); Str (u " 2호선"); Str (u "222"); Str (u "강남");
        Str (u "상선"); Num 45; Str (u "N/A"); Str (u "0")] /\
  exists row',
    nth_error (rows (cleaned Demo.wide)) 0 = Some row' /\
    cell_at row' 6 = Str (u "N/A").
Proof.
  assert (Data.clean_data Demo.wide = Ok (cleaned Demo.wide)) as E
      by (vm_compute; reflexivity).
  split; [exact E|]. split; [reflexivity|].
  destruct (proj2 (proj2 (proj2 (clean_data_keeps_other_columns _ _ E)))
                  0%nat 6%nat
                  [Str (u "평일"); Str (u " 2호선"); Str (u "222");
                   Str (u "강남"); Str (u "상선"); Num 45; Str (u "N/A");
                   Str (u "0")]
                  (u "0시30분") eq_refl eq_refl)
    as (row' & Hi & Hc).
  - intros Hin. simpl in Hin.
    repeat (destruct Hin as [Hin|Hin]; [discriminate Hin|]). exact Hin.
  - exists row'. split; [exact Hi|exact Hc].
Defined.

Lemma clean_data_column_types_witness :
  Data.clean_data Demo.wide = Ok (cleaned Demo.wide) /\
  exists row',
    In row' (rows (cleaned Demo.wide)) /\
    get (cleaned Demo.wide) Data.STATION_ID row' = NaN /\
    forall s, get (cleaned Demo.wide) Data.STATION_ID row' <> Str s.
Proof.
  assert (Data.clean_data Demo.wide = Ok (cleaned Demo.wide)) as E
      by (vm_compute; reflexivity).
  split; [exact E|].
  exists (nth 1 (rows (cleaned Demo.wide)) []).
  assert (In (nth 1 (rows (cleaned Demo.wide)) [])
             (rows (cleaned Demo.wide))) as Hin
      by (right; left; reflexivity).
  split; [exact Hin|]. split; [reflexivity|].
  exact (proj1 (clean_data_column_types _ _ _ E Hin)).
Defined.

Lemma melt_to_long_row_count_witness :
  Data.melt_to_long (cleaned Demo.wide) = Ok Demo.long /\
  (List.length Demo.long <=
   List.length (rows (cleaned Demo.wide)) *
   List.length (time_cols (cleaned Demo.wide)))%nat.
Proof.
  assert (Data.melt_to_long (cleaned Demo.wide) = Ok Demo.long) as E
      by (vm_compute; reflexivity).
  split; [exact E|].
  exact (proj1 (melt_to_long_row_count _ _ E)).
Defined.

Lemma get_data_failure_witness :
  Api.get_data DemoMore.empty_fs [] (u "a.csv") =
  ([],
   [Api.PathExists (u "a.csv");
    Api.Error (Api.not_found_message (u "a.csv"));
    Api.Info (u "현재 작업 디렉토리에 CSV 파일이 있는지 확인해주세요.")],
   Raise Api.FileNotFoundError).
Proof.
  exact (proj1 (get_data_failure DemoMore.empty_fs [] (u "a.csv"))
               eq_refl eq_refl).
Defined.

Lemma get_data_memoized_witness :
  exists c' evs,
    Api.get_data DemoMore.present_fs [] (u "a.csv") = (c', evs, Ok Demo.long) /\
    Api.get_data DemoMore.empty_fs c' (u "a.csv") = (c', [], Ok Demo.long).
Proof.
  destruct (Api.get_data DemoMore.present_fs [] (u "a.csv")) as [[c' evs] r]
    eqn:E.
  assert (r = Ok Demo.long) as ->.
  { apply (f_equal snd) in E. vm_compute in E. now subst r. }
  exists c', evs. split; [reflexivity|].
  exact (get_data_memoized _ DemoMore.empty_fs _ _ _ _ _ E).
Defined.

Lemma get_data_invariants_witness :
  exists c' evs,
    Api.get_data DemoMore.present_fs [] (u "a.csv") = (c', evs, Ok Demo.long) /\
    StronglySorted key_le Demo.long /\
    Callers.nan_count Demo.long = 0%nat.
Proof.
  destruct (Api.get_data DemoMore.present_fs [] (u "a.csv")) as [[c' evs] r]
    eqn:E.
  assert (r = Ok Demo.long) as ->.
  { apply (f_equal snd) in E. vm_compute in E. now subst r. }
  exists c', evs. split; [reflexivity|].
  destruct (get_data_invariants _ _ _ _ _ _ (Forall_nil _) E)
    as (_ & _ & Hs & _ & Hn).
  now split.
Defined.

Lemma get_stations_by_line_sorted_witness :
  Forall (fun r => text (Data.station r)) Demo.long /\
  exists res all,
    Api.get_stations_by_line Demo.long (Some (u "2호선")) = Ok res /\
    Api.get_stations_by_line Demo.long None = Ok all /\
    incl res all.
Proof.
  assert (Forall (fun r => text (Data.station r)) Demo.long) as Ht
      by (repeat constructor).
  split; [exact Ht|].
  destruct (get_stations_by_line_sorted Demo.long (Some (u "2호선")) Ht)
    as (res & all & E1 & E2 & _ & _ & _ & Hincl).
  now exists res, all.
Defined.

Lemma get_unique_values_of_pipeline_witness :
  Data.clean_data Demo.wide = Ok (cleaned Demo.wide) /\
  Data.melt_to_long (cleaned Demo.wide) = Ok Demo.long /\
  exists res,
    Data.get_unique_values Demo.long (u "time_slot") = Ok res /\
    StronglySorted text_le res.
Proof.
  assert (Data.clean_data Demo.wide = Ok (cleaned Demo.wide)) as Ec
      by (vm_compute; reflexivity).
  assert (Data.melt_to_long (cleaned Demo.wide) = Ok Demo.long) as E
      by (vm_compute; reflexivity).
  split; [exact Ec|]. split; [exact E|].
  destruct (get_unique_values_of_pipeline
              Demo.wide (cleaned Demo.wide) Demo.long (u "time_slot") Ec E)
    as (res & Eres & Hs); [discriminate|].
  exists res. split; [exact Eres|]. exact (proj1 (Hs eq_refl)).
Defined.

Lemma filter_data_keeps_order_witness :
  exists h' out,
    Ui.filter_data 0%nat DemoMore.weekday_line2 [Demo.long] = (h', Ok out) /\
    incl (Ui.frame h' out) Demo.long.
Proof.
  destruct (Ui.filter_data 0%nat DemoMore.weekday_line2 [Demo.long])
    as [h' r] eqn:E.
  destruct r as [out|e];
    [|apply (f_equal snd) in E; vm_compute in E; discriminate E].
  exists h', out. split; [reflexivity|].
  exact (proj1 (filter_data_keeps_order _ _ _ _ _ E)).
Defined.


Lemma filter_data_selects_witness :
  exists h' out,
    Ui.filter_data 0%nat DemoMore.weekday_line2 [Demo.long] = (h', Ok out) /\
    forall r, In r (Ui.frame h' out) <->
              In r Demo.long /\ satisfies DemoMore.weekday_line2 r.
Proof.
  destruct (Ui.filter_data 0%nat DemoMore.weekday_line2 [Demo.long])
    as [h' r] eqn:E.
  destruct r as [out|e];
    [|apply (f_equal snd) in E; vm_compute in E; discriminate E].
  exists h', out. split; [reflexivity|].
  exact (proj1 (filter_data_selects _ _ _ _ _ E)).
Defined.

Lemma filter_data_raises_witness :
  snd (Ui.filter_data 0%nat DemoMore.bad_range [Demo.long]) = Raise TypeError.
Proof.
  apply (proj2 (filter_data_raises [Demo.long] 0%nat DemoMore.bad_range
                                   TypeError)).
  split; [reflexivity|].
  exists (u "01:00"), (u "23:30"). split; [reflexivity|]. left.
  apply get_loc_None. reflexivity.
Defined.

Lemma filter_data_commutes_witness :
  exists h1 a h2 ab k1 b k2 ba,
    Ui.filter_data 0%nat DemoMore.weekday_line2 [Demo.long] = (h1, Ok a) /\
    Ui.filter_data a DemoMore.busy h1 = (h2, Ok ab) /\
    Ui.filter_data 0%nat DemoMore.busy [Demo.long] = (k1, Ok b) /\
    Ui.filter_data b DemoMore.weekday_line2 k1 = (k2, Ok ba) /\
    Ui.frame h2 ab = Ui.frame k2 ba.
Proof.
  destruct (Ui.filter_data 0%nat DemoMore.weekday_line2 [Demo.long])
    as [h1 r1] eqn:E1.
  destruct r1 as [a|e];
    [|apply (f_equal snd) in E1; vm_compute in E1; discriminate E1].
  destruct (Ui.filter_data a DemoMore.busy h1) as [h2 r2] eqn:E2.
  destruct r2 as [ab|e];
    [|apply (f_equal snd) in E2; apply filter_data_Raise in E2;
      vm_compute in E2; discriminate E2].
  destruct (Ui.filter_data 0%nat DemoMore.busy [Demo.long]) as [k1 r3] eqn:E3.
  destruct r3 as [b|e];
    [|apply (f_equal snd) in E3; vm_compute in E3; discriminate E3].
  destruct (Ui.filter_data b DemoMore.weekday_line2 k1) as [k2 r4] eqn:E4.
  destruct r4 as [ba|e];
    [|apply (f_equal snd) in E4; apply filter_data_Raise in E4;
      vm_compute in E4; discriminate E4].
  exists h1, a, h2, ab, k1, b, k2, ba.
  split; [reflexivity|]. split; [exact E2|].
  split; [reflexivity|]. split; [exact E4|].
  exact (filter_data_commutes _ _ _ _ _ _ _ _ _ _ _ _ E1 E2 E3 E4).
Defined.

Lemma slider_time_range_valid_witness :
  Callers.slider_time_range (0%nat, 38%nat) = Ok (u "05:30", u "00:30") /\
  exists h' out,
    Ui.filter_data 0%nat
      {| Ui.f_day_type := None; Ui.f_lines := None; Ui.f_stations := None;
         Ui.f_directions := None;
         Ui.f_time_range := Some (u "05:30", u "00:30");
         Ui.f_congestion_range := None |} [Demo.long] = (h', Ok out) /\
    Forall (fun r => (Z.of_nat 0 <= Data.time_slot r <= Z.of_nat 38)%Z)
           (Ui.frame h' out).
Proof.
  split; [reflexivity|].
  destruct (proj2 (slider_time_range_valid 0 38)) as (s & e & Es & Hs & He & Hf);
    [lia|lia|].
  vm_compute in Hs, He. injection Hs as <-. injection He as <-.
  apply Hf. reflexivity.
Defined.

Lemma max_row_greatest_witness :
  Exists present Demo.long /\
  exists r q,
    Callers.max_row Demo.long = Ok r /\ Data.congestion r = Some q /\
    q == 45.
Proof.
  assert (Exists present Demo.long) as Hex.
  { apply Exists_cons_hd. eexists. reflexivity. }
  split; [exact Hex|].
  destruct (proj2 (max_row_greatest Demo.long) Hex)
    as (r & q & E & _ & Hq & _).
  exists r, q. split; [exact E|]. split; [exact Hq|].
  vm_compute in E. injection E as <-. simpl in Hq. injection Hq as <-.
  reflexivity.
Defined.
